(** * mcp-codepipeline-server: the tool dispatch contract

    A shallow embedding of the TypeScript sources of the AWS CodePipeline MCP
    server (the tool handlers under [src/tools], the dispatcher of
    [src/index.ts], the methods of [CodePipelineService], the REST
    controller over them and the configuration read from the environment),
    together with
    the parts of the JavaScript runtime the handlers rely on: IEEE-754
    doubles, [Number.prototype.toFixed], [Number::toString], [Date] parsing
    and printing, and [JSON.stringify].

    Remote calls (the AWS SDK) are an oracle: a handler runs against an
    arbitrary [Remote], and every call it issues is appended to a log. *)

From Stdlib Require Import ZArith List String Ascii Bool Lia Permutation.
From Stdlib Require Import SpecFloat.
Import ListNotations.

Local Open Scope string_scope.
Local Open Scope Z_scope.

(** ** Decimal digits *)

Module Digits.

Definition digit (d : Z) : ascii := ascii_of_nat (48 + Z.to_nat d).

Definition digit_val (c : ascii) : option Z :=
  let n := Z.of_nat (nat_of_ascii c) in
  if (48 <=? n) && (n <=? 57) then Some (n - 48) else None.

(** [pad k n]: the [k] low decimal digits of [n], most significant first. *)
Fixpoint pad (k : nat) (n : Z) : string :=
  match k with
  | O => ""
  | S k' => pad k' (n / 10) ++ String (digit (n mod 10)) ""
  end.

Fixpoint ndigits_aux (fuel : nat) (n : Z) : nat :=
  match fuel with
  | O => 1%nat
  | S f => if n <? 10 then 1%nat else S (ndigits_aux f (n / 10))
  end.

(** Number of decimal digits of [n >= 0] (1 for 0). *)
Definition ndigits (n : Z) : nat := ndigits_aux (Z.to_nat (Z.log2 n)) n.

(** Decimal representation of [n >= 0], no leading zero. *)
Definition of_Z (n : Z) : string := pad (ndigits n) n.

(** [take k acc s]: read exactly [k] digits from the front of [s]. *)
Fixpoint take (k : nat) (acc : Z) (s : string) : option (Z * string) :=
  match k with
  | O => Some (acc, s)
  | S k' =>
      match s with
      | String c rest =>
          match digit_val c with
          | Some d => take k' (10 * acc + d) rest
          | None => None
          end
      | EmptyString => None
      end
  end.

Fixpoint zeros (k : nat) : string :=
  match k with O => "" | S k' => String "0" (zeros k') end.

Definition firstn (k : nat) (s : string) : string := substring 0 k s.
Definition skipn (k : nat) (s : string) : string := substring k (length s - k) s.

End Digits.

(** ** JavaScript numbers: IEEE-754 binary64 *)

Module Num.

Definition prec : Z := 53.
Definition emax : Z := 1024.

Definition number : Type := spec_float.

Definition of_Z (z : Z) : number := binary_normalize prec emax z 0 false.

Definition zero : number := S754_zero false.
Definition NaN : number := S754_nan.
Definition Infinity : number := S754_infinity false.
Definition NegInfinity : number := S754_infinity true.

Definition add : number -> number -> number := SFadd prec emax.
Definition sub : number -> number -> number := SFsub prec emax.
Definition mul : number -> number -> number := SFmul prec emax.
Definition div : number -> number -> number := SFdiv prec emax.

(** [x < y] and [x > y]; both are false when an operand is NaN. *)
Definition ltb (x y : number) : bool := SFltb x y.
Definition gtb (x y : number) : bool := SFltb y x.

(** ToBoolean on a number: [NaN], [+0] and [-0] are falsy. *)
Definition truthy (x : number) : bool :=
  match x with
  | S754_nan | S754_zero _ => false
  | _ => true
  end.

(** [x || d] where [x] is an optional number. *)
Definition or_else (x : option number) (d : number) : number :=
  match x with
  | Some v => if truthy v then v else d
  | None => d
  end.

Definition is_neg_zero (x : number) : bool :=
  match x with S754_zero true => true | _ => false end.
Definition is_pos_zero (x : number) : bool :=
  match x with S754_zero false => true | _ => false end.
Definition is_nan (x : number) : bool :=
  match x with S754_nan => true | _ => false end.

(** [Math.min(...xs)]: [+Infinity] on no argument, [NaN] when an argument
    is [NaN], and [-0] is smaller than [+0]. *)
Definition Math_min (xs : list number) : number :=
  if existsb is_nan xs then NaN
  else fold_left
         (fun lowest x =>
            if ltb x lowest || (is_neg_zero x && is_pos_zero lowest)
            then x else lowest)
         xs Infinity.

(** [Math.max(...xs)]: [-Infinity] on no argument. *)
Definition Math_max (xs : list number) : number :=
  if existsb is_nan xs then NaN
  else fold_left
         (fun highest x =>
            if gtb x highest || (is_pos_zero x && is_neg_zero highest)
            then x else highest)
         xs NegInfinity.

(** *** Number::toString, radix 10 *)

Definition cdiv (a b : Z) : Z := - ((- a) / b).

Section Shortest.
(** The double is [m * 2^e], [m > 0]. In units of [2^(e-2)] it is [4m],
    and every real strictly between [lo] and [hi] rounds to it (the end
    points too when [m] is even). *)
Variables (m : positive) (e : Z).

Let E : Z := e - 2.
Let X : Z := 4 * Zpos m.
Let hi : Z := X + 2.
Let lo : Z :=
  if (Zpos m =? 2 ^ (prec - 1)) && (3 - emax - prec <? e)
  then X - 1 else X - 2.
Let inclusive : bool := Z.even (Zpos m).

(** [s * 10^p] in the units above is [s * A p / B p]. *)
Let A (p : Z) : Z := 10 ^ Z.max p 0 * 2 ^ Z.max (- E) 0.
Let B (p : Z) : Z := 2 ^ Z.max E 0 * 10 ^ Z.max (- p) 0.

Definition smin (p : Z) : Z :=
  if inclusive then cdiv (lo * B p) (A p) else (lo * B p) / A p + 1.
Definition smax (p : Z) : Z :=
  if inclusive then (hi * B p) / A p else cdiv (hi * B p) (A p) - 1.

(** The multiple of [10^p] closest to the double (the even one on a
    tie), kept inside the rounding interval. *)
Definition closest (p : Z) : Z :=
  let t := X * B p in
  let q := t / A p in
  let r := 2 * (t - q * A p) in
  let c := if r <? A p then q
           else if A p <? r then q + 1
           else if Z.even q then q else q + 1 in
  Z.max (smin p) (Z.min (smax p) c).

(** Exact decimal expansion, used when the search below runs out. *)
Definition exact : Z * Z :=
  if e <? 0 then (Zpos m * 5 ^ (- e), e) else (Zpos m * 2 ^ e, 0).

(** Largest [p] for which a positive multiple of [10^p] rounds to the
    double: that multiple has the fewest significant digits. *)
Fixpoint search (fuel : nat) (p : Z) : Z * Z :=
  match fuel with
  | O => exact
  | S f =>
      if (smin p <=? smax p) && (1 <=? smax p) then (closest p, p)
      else search f (p - 1)
  end.

Definition shortest : Z * Z :=
  let b := Zpos (digits2_pos m) + e in
  let p0 := (if 0 <=? b then b * 30103 / 100000 else b * 30102 / 100000) + 1 in
  search 40 p0.
End Shortest.

Definition exponent_suffix (n : Z) : string :=
  "e" ++ (if 0 <=? n - 1 then "+" else "-") ++ Digits.of_Z (Z.abs (n - 1)).

(** Steps 5 to 10 of Number::toString for a positive finite double. *)
Definition toString_pos (m : positive) (e : Z) : string :=
  let '(s, p) := shortest m e in
  let ds := Digits.of_Z s in
  let k := Z.of_nat (length ds) in
  let n := k + p in
  if (k <=? n) && (n <=? 21) then ds ++ Digits.zeros (Z.to_nat (n - k))
  else if (0 <? n) && (n <=? 21) then
    Digits.firstn (Z.to_nat n) ds ++ "." ++ Digits.skipn (Z.to_nat n) ds
  else if (-6 <? n) && (n <=? 0) then
    "0." ++ Digits.zeros (Z.to_nat (- n)) ++ ds
  else if k =? 1 then ds ++ exponent_suffix n
  else Digits.firstn 1 ds ++ "." ++ Digits.skipn 1 ds ++ exponent_suffix n.

Definition toString (x : number) : string :=
  match x with
  | S754_nan => "NaN"
  | S754_zero _ => "0"
  | S754_infinity false => "Infinity"
  | S754_infinity true => "-Infinity"
  | S754_finite sx m e => (if sx then "-" else "") ++ toString_pos m e
  end.

(** *** Number.prototype.toFixed *)

(** The integer [n] for which [n / 10^f] is closest to [m * 2^e], the
    larger one on a tie. *)
Definition scaled_round (m : positive) (e : Z) (f : Z) : Z :=
  if 0 <=? e then Zpos m * 2 ^ e * 10 ^ f
  else (2 * Zpos m * 10 ^ f + 2 ^ (- e)) / 2 ^ (1 - e).

Definition ge_1e21 (m : positive) (e : Z) : bool :=
  if 0 <=? e then 10 ^ 21 <=? Zpos m * 2 ^ e
  else 10 ^ 21 * 2 ^ (- e) <=? Zpos m.

Definition fixed_digits (n : Z) (f : nat) : string :=
  let ds := Digits.of_Z n in
  match f with
  | O => ds
  | _ =>
      let k := length ds in
      let ds' := if (k <=? f)%nat then Digits.zeros (f + 1 - k) ++ ds else ds in
      let k' := length ds' in
      Digits.firstn (k' - f) ds' ++ "." ++ Digits.skipn (k' - f) ds'
  end.

Definition toFixed (x : number) (f : nat) : string :=
  match x with
  | S754_nan | S754_infinity _ => toString x
  | S754_zero _ => fixed_digits 0 f
  | S754_finite sx m e =>
      if ge_1e21 m e then toString x
      else (if sx then "-" else "") ++ fixed_digits (scaled_round m e (Z.of_nat f)) f
  end.

End Num.

(** ** JavaScript dates *)

Module JsDate.

(** A [Date] object is its time value: milliseconds since the epoch, or
    [None] for [NaN] (an invalid date). *)
Definition Date : Type := option Z.

Definition msPerDay : Z := 86400000.
Definition maxTime : Z := 8640000000000000.

Definition TimeClip (t : Z) : Date :=
  if Z.abs t <=? maxTime then Some t else None.

(** *** Calendar arithmetic (ECMA-262, 21.4.1) *)

Definition DayFromYear (y : Z) : Z :=
  365 * (y - 1970) + (y - 1969) / 4 - (y - 1901) / 100 + (y - 1601) / 400.

Definition DaysInYear (y : Z) : Z := DayFromYear (y + 1) - DayFromYear y.

(** The largest [y] with [DayFromYear y <= d]: an estimate from the mean
    length of a year, corrected by at most one. *)
Definition YearFromDay (d : Z) : Z :=
  let y := 1970 + (400 * d) / 146097 in
  if d <? DayFromYear y then y - 1
  else if DayFromYear (y + 1) <=? d then y + 1
  else y.

(** Days before the first of month [m] (0 = January); [l] is 1 in a leap
    year. *)
Definition DaysBeforeMonth (m l : Z) : Z :=
  match m with
  | 0 => 0
  | 1 => 31
  | 2 => 59 + l
  | 3 => 90 + l
  | 4 => 120 + l
  | 5 => 151 + l
  | 6 => 181 + l
  | 7 => 212 + l
  | 8 => 243 + l
  | 9 => 273 + l
  | 10 => 304 + l
  | _ => 334 + l
  end.

Definition MonthFromDayWithinYear (doy l : Z) : Z :=
  if doy <? 31 then 0
  else if doy <? 59 + l then 1
  else if doy <? 90 + l then 2
  else if doy <? 120 + l then 3
  else if doy <? 151 + l then 4
  else if doy <? 181 + l then 5
  else if doy <? 212 + l then 6
  else if doy <? 243 + l then 7
  else if doy <? 273 + l then 8
  else if doy <? 304 + l then 9
  else if doy <? 334 + l then 10
  else 11.

Definition leap (y : Z) : Z := DaysInYear y - 365.

(** [MakeDay year month date] for a month in 0..11. *)
Definition MakeDay (y m d : Z) : Z :=
  DayFromYear y + DaysBeforeMonth m (leap y) + d - 1.

Definition MakeTime (h mi s ms : Z) : Z :=
  h * 3600000 + mi * 60000 + s * 1000 + ms.

Definition MakeDate (day time : Z) : Z := day * msPerDay + time.

Record fields : Type := mkFields {
  f_year : Z; f_month : Z; f_date : Z;
  f_hour : Z; f_minute : Z; f_second : Z; f_ms : Z
}.

(** UTC calendar fields of a time value; [f_month] is 1..12. *)
Definition fields_of (t : Z) : fields :=
  let day := t / msPerDay in
  let tm := t mod msPerDay in
  let y := YearFromDay day in
  let doy := day - DayFromYear y in
  let m := MonthFromDayWithinYear doy (leap y) in
  {| f_year := y;
     f_month := m + 1;
     f_date := doy - DaysBeforeMonth m (leap y) + 1;
     f_hour := tm / 3600000;
     f_minute := (tm / 60000) mod 60;
     f_second := (tm / 1000) mod 60;
     f_ms := tm mod 1000 |}.

(** *** Date.prototype.toISOString *)

Definition year_string (y : Z) : string :=
  if (0 <=? y) && (y <=? 9999) then Digits.pad 4 y
  else (if 0 <=? y then "+" else "-") ++ Digits.pad 6 (Z.abs y).

Definition iso_of_fields (f : fields) : string :=
  year_string (f_year f) ++ "-" ++ Digits.pad 2 (f_month f) ++ "-" ++
  Digits.pad 2 (f_date f) ++ "T" ++ Digits.pad 2 (f_hour f) ++ ":" ++
  Digits.pad 2 (f_minute f) ++ ":" ++ Digits.pad 2 (f_second f) ++ "." ++
  Digits.pad 3 (f_ms f) ++ "Z".

Definition iso_string (t : Z) : string := iso_of_fields (fields_of t).

(** *** Date.parse on the Date Time String Format (ECMA-262, 21.4.1.32) *)

Definition eat (c : ascii) (s : string) : option string :=
  match s with
  | String c' rest => if Ascii.eqb c c' then Some rest else None
  | EmptyString => None
  end.

(** Year: [YYYY], or an expanded year [+YYYYYY] / [-YYYYYY]; the result is
    [None] when the text is not a year, and the year is [None] for the
    illegal [-000000]. *)
Definition parse_year (s : string) : option (option Z * string) :=
  match s with
  | String c rest =>
      if Ascii.eqb c "+" then
        match Digits.take 6 0 rest with
        | Some (y, r) => Some (Some y, r)
        | None => None
        end
      else if Ascii.eqb c "-" then
        match Digits.take 6 0 rest with
        | Some (y, r) => Some (if y =? 0 then None else Some (- y), r)
        | None => None
        end
      else
        match Digits.take 4 0 s with
        | Some (y, r) => Some (Some y, r)
        | None => None
        end
  | EmptyString => None
  end.

(** An optional ["-NN"] group; absent gives the default [1]. *)
Definition parse_dash2 (s : string) : option (Z * bool * string) :=
  match s with
  | String "-" rest =>
      match Digits.take 2 0 rest with
      | Some (n, r) => Some (n, true, r)
      | None => None
      end
  | _ => Some (1, false, s)
  end.

(** [HH:mm], [HH:mm:ss] or [HH:mm:ss.sss] after the ["T"]. *)
Definition parse_time (s : string) : option (Z * Z * Z * Z * string) :=
  match Digits.take 2 0 s with
  | Some (h, r1) =>
      match eat ":" r1 with
      | Some r2 =>
          match Digits.take 2 0 r2 with
          | Some (mi, r3) =>
              match r3 with
              | String ":" r4 =>
                  match Digits.take 2 0 r4 with
                  | Some (sec, r5) =>
                      match r5 with
                      | String "." r6 =>
                          match Digits.take 3 0 r6 with
                          | Some (ms, r7) => Some (h, mi, sec, ms, r7)
                          | None => None
                          end
                      | _ => Some (h, mi, sec, 0, r5)
                      end
                  | None => None
                  end
              | _ => Some (h, mi, 0, 0, r3)
              end
          | None => None
          end
      | None => None
      end
  | None => None
  end.

(** UTC offset in milliseconds: ["Z"], or ["+HH:mm"] / ["-HH:mm"]; the
    offset is [None] when the text carries none. *)
Definition parse_offset (s : string) : option (option (option Z) * string) :=
  match s with
  | String "Z" rest => Some (Some (Some 0), rest)
  | String c rest =>
      if Ascii.eqb c "+" || Ascii.eqb c "-" then
        match Digits.take 2 0 rest with
        | Some (h, r1) =>
            match eat ":" r1 with
            | Some r2 =>
                match Digits.take 2 0 r2 with
                | Some (mi, r3) =>
                    let off := MakeTime h mi 0 0 in
                    let legal := (h <=? 23) && (mi <=? 59) in
                    Some (Some (if legal
                                then Some (if Ascii.eqb c "+" then off else - off)
                                else None), r3)
                | None => None
                end
            | None => None
            end
        | None => None
        end
      else Some (None, s)
  | EmptyString => Some (None, s)
  end.

Definition legal_date (mo d : Z) : bool :=
  (1 <=? mo) && (mo <=? 12) && (1 <=? d) && (d <=? 31).

Definition legal_time (h mi s : Z) (ms : Z) : bool :=
  ((h <=? 23) && (mi <=? 59) && (s <=? 59))
  || ((h =? 24) && (mi =? 0) && (s =? 0) && (ms =? 0)).

Section Parse.
(** The host's time zone: the UTC time value of a local time value. *)
Variable utc_of_local : Z -> Z.

(** Outer [None]: the text is not in the format. Inner [None]: it is, but
    an element value is illegal, and [Date.parse] is [NaN]. *)
Definition parse_iso (str : string) : option (option Z) :=
  match parse_year str with
  | None => None
  | Some (oy, r1) =>
  match parse_dash2 r1 with
  | None => None
  | Some (mo, has_month, r2) =>
  match (if has_month then parse_dash2 r2 else Some (1, false, r2)) with
  | None => None
  | Some (d, _, r3) =>
      match r3 with
      | EmptyString =>
          (* date-only form: UTC *)
          Some (match oy with
                | Some y =>
                    if legal_date mo d
                    then Some (MakeDate (MakeDay y (mo - 1) d) 0)
                    else None
                | None => None
                end)
      | String "T" r4 =>
          match parse_time r4 with
          | None => None
          | Some (h, mi, sec, ms, r5) =>
              match parse_offset r5 with
              | Some (ooff, EmptyString) =>
                  Some (match oy with
                        | Some y =>
                            if legal_date mo d && legal_time h mi sec ms then
                              let t := MakeDate (MakeDay y (mo - 1) d)
                                                (MakeTime h mi sec ms) in
                              match ooff with
                              | Some (Some off) => Some (t - off)
                              | Some None => None
                              | None => Some (utc_of_local t)
                              end
                            else None
                        | None => None
                        end)
              | _ => None
              end
          end
      | _ => None
      end
  end end end.
End Parse.

End JsDate.

(** ** JavaScript values and JSON.stringify *)

Module Json.

(** The values the handlers hand to [JSON.stringify]. An object is the
    list of its own enumerable properties in enumeration order. *)
#[local] Unset Elimination Schemes.
Inductive jsval : Type :=
| JUndefined
| JNull
| JBool (b : bool)
| JNum (n : Num.number)
| JStr (s : string)
| JDate (d : JsDate.Date)
| JArr (items : list jsval)
| JObj (props : list (string * jsval)).
#[local] Set Elimination Schemes.

(** Property access [v.k]: [undefined] when [v] has no such property. *)
Fixpoint lookup (k : string) (props : list (string * jsval)) : jsval :=
  match props with
  | [] => JUndefined
  | (k', v) :: rest => if String.eqb k k' then v else lookup k rest
  end.

Definition field (k : string) (v : jsval) : jsval :=
  match v with
  | JObj props => lookup k props
  | _ => JUndefined
  end.

Definition is_undefined (v : jsval) : bool :=
  match v with JUndefined => true | _ => false end.


(** Element access [v[i]]. *)
Definition item (i : nat) (v : jsval) : jsval :=
  match v with
  | JArr items => nth i items JUndefined
  | _ => JUndefined
  end.

(** *** QuoteJSONString *)

Definition dquote : ascii := ascii_of_nat 34.
Definition backslash : ascii := ascii_of_nat 92.
Definition newline : string := String (ascii_of_nat 10) "".

Definition hex_digit (n : nat) : ascii :=
  if (n <? 10)%nat then ascii_of_nat (48 + n) else ascii_of_nat (87 + n).

Definition escape (c : ascii) : string :=
  let n := nat_of_ascii c in
  let esc (x : string) := String backslash x in
  if (n =? 8)%nat then esc "b"
  else if (n =? 9)%nat then esc "t"
  else if (n =? 10)%nat then esc "n"
  else if (n =? 12)%nat then esc "f"
  else if (n =? 13)%nat then esc "r"
  else if (n =? 34)%nat then esc (String dquote "")
  else if (n =? 92)%nat then esc (String backslash "")
  else if (n <? 32)%nat then
    esc ("u00" ++ String (hex_digit (n / 16)) (String (hex_digit (n mod 16)) ""))
  else String c "".

Fixpoint escape_all (s : string) : string :=
  match s with
  | EmptyString => ""
  | String c rest => escape c ++ escape_all rest
  end.

Definition quote (s : string) : string :=
  String dquote (escape_all s ++ String dquote "").

(** *** SerializeJSONProperty with a gap of two spaces *)

Definition gap : string := "  ".

Fixpoint join (sep : string) (xs : list string) : string :=
  match xs with
  | [] => ""
  | [x] => x
  | x :: rest => x ++ sep ++ join sep rest
  end.

Definition is_finite (n : Num.number) : bool :=
  match n with
  | S754_nan | S754_infinity _ => false
  | _ => true
  end.

Definition wrap (open close indent : string) (parts : list string) : string :=
  let inner := indent ++ gap in
  open ++ newline ++ inner ++ join ("," ++ newline ++ inner) parts
       ++ newline ++ indent ++ close.

(** The text of a value that is not [undefined]; an [undefined] array
    element is written [null], an [undefined] property is left out. A
    [Date] is written through its [toJSON]: the ISO string, or [null] for
    an invalid date; a number that is not finite is written [null]. *)
Fixpoint ser (indent : string) (v : jsval) {struct v} : string :=
  match v with
  | JUndefined => "null"
  | JNull => "null"
  | JBool b => if b then "true" else "false"
  | JNum n => if is_finite n then Num.toString n else "null"
  | JStr s => quote s
  | JDate (Some t) => quote (JsDate.iso_string t)
  | JDate None => "null"
  | JArr items =>
      match items with
      | [] => "[]"
      | _ =>
          wrap "[" "]" indent
            ((fix elems (l : list jsval) : list string :=
                match l with
                | [] => []
                | x :: rest => ser (indent ++ gap) x :: elems rest
                end) items)
      end
  | JObj props =>
      match
        (fix members (l : list (string * jsval)) : list string :=
           match l with
           | [] => []
           | (k, x) :: rest =>
               if is_undefined x then members rest
               else (quote k ++ ": " ++ ser (indent ++ gap) x) :: members rest
           end) props
      with
      | [] => "{}"
      | parts => wrap "{" "}" indent parts
      end
  end.

(** The members of an object's text, given the text [f] of each value: an
    [undefined] property is left out. *)
Fixpoint members_of (f : jsval -> string) (props : list (string * jsval)) : list string :=
  match props with
  | [] => []
  | (k, x) :: rest =>
      if is_undefined x then members_of f rest
      else (quote k ++ ": " ++ f x) :: members_of f rest
  end.

(** [JSON.stringify(value, null, 2)] on an object literal. *)
Definition JSON_stringify (props : list (string * jsval)) : string :=
  ser "" (JObj props).

(** *** Small conversions used by the handlers *)

(** An optional string handed through unchanged. *)
Definition opt_str (o : option string) : jsval :=
  match o with Some s => JStr s | None => JUndefined end.
Definition opt_num (o : option Num.number) : jsval :=
  match o with Some n => JNum n | None => JUndefined end.
Definition opt_date (o : option JsDate.Date) : jsval :=
  match o with Some d => JDate d | None => JUndefined end.

(** ToBoolean on a value. *)
Definition truthy (v : jsval) : bool :=
  match v with
  | JUndefined | JNull => false
  | JBool b => b
  | JNum n => Num.truthy n
  | JStr s => match s with EmptyString => false | _ => true end
  | JDate _ | JArr _ | JObj _ => true
  end.

(** ToBoolean on a string, and [s || d] on an optional string. *)
Definition str_truthy (s : string) : bool :=
  match s with EmptyString => false | _ => true end.
Definition str_or (o : option string) (d : string) : string :=
  match o with
  | Some s => if str_truthy s then s else d
  | None => d
  end.

End Json.

(** ** The AWS SDK: response shapes and calls

    Every field of a response is optional, as in the SDK's declarations;
    fields the handlers never read are left out. Sub-objects the handlers
    hand through untouched are kept as [jsval]s. *)

Module AWS.
Import Json.
Definition number := Num.number.
Definition Date := JsDate.Date.

Record PipelineSummary : Type := {
  ps_name : option string;
  ps_version : option number;
  ps_created : option Date;
  ps_updated : option Date
}.

Record ListPipelinesOutput : Type := {
  lpo_pipelines : option (list PipelineSummary)
}.

Record TransitionState : Type := {
  ts_enabled : option bool;
  ts_lastChangedBy : option string;
  ts_lastChangedAt : option Date;
  ts_disabledReason : option string
}.

Record StageExecution : Type := {
  se_pipelineExecutionId : option string;
  se_status : option string
}.

Record ErrorDetails : Type := {
  ed_code : option string;
  ed_message : option string
}.

Record ActionExecution : Type := {
  ae_status : option string;
  ae_summary : option string;
  ae_lastStatusChange : option Date;
  ae_token : option string;
  ae_externalExecutionId : option string;
  ae_externalExecutionUrl : option string;
  ae_errorDetails : option ErrorDetails
}.

Record ActionRevision : Type := {
  ar_revisionId : option string;
  ar_revisionChangeId : option string;
  ar_created : option Date
}.

Record ActionState : Type := {
  as_actionName : option string;
  as_currentRevision : option ActionRevision;
  as_latestExecution : option ActionExecution;
  as_entityUrl : option string
}.

Record StageState : Type := {
  ss_stageName : option string;
  ss_inboundTransitionState : option TransitionState;
  ss_actionStates : option (list ActionState);
  ss_latestExecution : option StageExecution
}.

Record GetPipelineStateOutput : Type := {
  gps_pipelineName : option string;
  gps_pipelineVersion : option number;
  gps_stageStates : option (list StageState);
  gps_created : option Date;
  gps_updated : option Date
}.

Record SourceRevision : Type := {
  sr_actionName : option string;
  sr_revisionId : option string;
  sr_revisionSummary : option string;
  sr_revisionUrl : option string
}.

Record PipelineExecutionSummary : Type := {
  pes_pipelineExecutionId : option string;
  pes_status : option string;
  pes_startTime : option Date;
  pes_lastUpdateTime : option Date;
  pes_sourceRevisions : option (list SourceRevision)
}.

Record ListPipelineExecutionsOutput : Type := {
  lpe_pipelineExecutionSummaries : option (list PipelineExecutionSummary)
}.

Record ArtifactRevision : Type := {
  arv_name : option string;
  arv_revisionId : option string;
  arv_revisionSummary : option string;
  arv_revisionUrl : option string
}.

Record PipelineExecution : Type := {
  pe_pipelineName : option string;
  pe_pipelineVersion : option number;
  pe_pipelineExecutionId : option string;
  pe_status : option string;
  pe_artifactRevisions : option (list ArtifactRevision)
}.

Record GetPipelineExecutionOutput : Type := {
  gpe_pipelineExecution : option PipelineExecution
}.

Record ActionDeclaration : Type := {
  ad_name : option string;
  ad_actionTypeId : jsval;
  ad_runOrder : option number;
  ad_configuration : jsval;
  ad_outputArtifacts : jsval;
  ad_inputArtifacts : jsval;
  ad_region : option string;
  ad_namespace : option string
}.

Record StageDeclaration : Type := {
  sd_name : option string;
  sd_actions : option (list ActionDeclaration)
}.

Record PipelineDeclaration : Type := {
  pd_name : option string;
  pd_roleArn : option string;
  pd_artifactStore : jsval;
  pd_stages : option (list StageDeclaration);
  pd_version : option number
}.

Record PipelineMetadata : Type := {
  pm_pipelineArn : option string;
  pm_created : option Date;
  pm_updated : option Date
}.

Record GetPipelineOutput : Type := {
  gp_pipeline : option PipelineDeclaration;
  gp_metadata : option PipelineMetadata
}.

Record StartPipelineExecutionOutput : Type := {
  spe_pipelineExecutionId : option string
}.

Record ListWebhookItem : Type := {
  wh_url : option string
}.

Record PutWebhookOutput : Type := {
  pwo_webhook : option ListWebhookItem
}.

Record Datapoint : Type := {
  dp_Timestamp : option Date;
  dp_Average : option number;
  dp_Sum : option number;
  dp_Minimum : option number;
  dp_Maximum : option number
}.

Record GetMetricStatisticsOutput : Type := {
  gms_Datapoints : option (list Datapoint)
}.

(** *** Request parameters *)

(** A tag as the code hands it to [tagResource]: whatever the caller's
    tag object holds under [key] and under [value]. *)
Record Tag : Type := { key : jsval; value : jsval }.

Record WebhookFilterRule : Type := {
  jsonPath : string;
  matchEquals : option string
}.

Record WebhookAuthConfiguration : Type := {
  SecretToken : option string;
  AllowedIpRange : option string
}.

Record WebhookDefinition : Type := {
  wd_name : string;
  wd_targetPipeline : string;
  wd_targetAction : string;
  wd_filters : list WebhookFilterRule;
  wd_authentication : string;
  wd_authenticationConfiguration : WebhookAuthConfiguration
}.

Record GetMetricStatisticsInput : Type := {
  Namespace : string;
  MetricName : string;
  Dimensions : list (string * string);
  StartTime : Date;
  EndTime : Date;
  Period : number;
  Statistics : list string
}.

(** One constructor per SDK operation the code calls, indexed by the
    type of its response. *)
Inductive Call : Type -> Type :=
| ListPipelines : Call ListPipelinesOutput
| GetPipelineState (name : string) : Call GetPipelineStateOutput
| ListPipelineExecutions (pipelineName : string) (maxResults : option Z)
  : Call ListPipelineExecutionsOutput
| PutApprovalResult (pipelineName stageName actionName token : string)
                    (status summary : string) : Call unit
| RetryStageExecution (pipelineName stageName pipelineExecutionId : string)
                      (retryMode : string) : Call unit
| StartPipelineExecution (name : string) : Call StartPipelineExecutionOutput
| GetPipelineExecution (pipelineName pipelineExecutionId : string)
  : Call GetPipelineExecutionOutput
| StopPipelineExecution (pipelineName pipelineExecutionId reason : string)
                        (abandon : bool) : Call unit
| GetPipeline (name : string) : Call GetPipelineOutput
| TagResource (resourceArn : string) (tags : list Tag) : Call unit
| PutWebhook (webhook : WebhookDefinition) : Call PutWebhookOutput
| RegisterWebhookWithThirdParty (webhookName : string) : Call unit
| GetMetricStatistics (params : GetMetricStatisticsInput)
  : Call GetMetricStatisticsOutput.

(** A call as it appears in the log. *)
Inductive Request : Type :=
| Req {R : Type} (c : Call R).

End AWS.

(** ** Effects: remote calls, the clock, exceptions *)

Module Eff.
Import AWS.

(** A JavaScript [Error] object. *)
Record Error : Type := { err_name : string; err_message : string }.

(** Error.prototype.toString, as the template literal [`${error}`] uses. *)
Definition Error_toString (e : Error) : string :=
  match err_name e, err_message e with
  | EmptyString, msg => msg
  | name, EmptyString => name
  | name, msg => name ++ ": " ++ msg
  end.

(** The error codes of the MCP SDK's [ErrorCode] enumeration. *)
Inductive ErrorCode : Type :=
| ConnectionClosed | RequestTimeout | ParseError
| InvalidRequest | MethodNotFound | InvalidParams | InternalError.

Definition code_number (c : ErrorCode) : Z :=
  match c with
  | ConnectionClosed => -32000
  | RequestTimeout => -32001
  | ParseError => -32700
  | InvalidRequest => -32600
  | MethodNotFound => -32601
  | InvalidParams => -32602
  | InternalError => -32603
  end.

(** What a handler can throw: an ordinary error, or an [McpError]. *)
Inductive exn : Type :=
| JsError (e : Error)
| McpError (code : ErrorCode) (message : string).

Inductive Result (A : Type) : Type :=
| Ok (a : A)
| Throw (x : exn).
Arguments Ok {A} a.
Arguments Throw {A} x.

(** The world a handler runs in. [remote] answers a call, given the calls
    issued before it, with a response or a rejection; [clock] is the
    time read by the n-th [new Date()]; [utc_of_local] is the host's
    time zone and [legacy_parse] its [Date.parse] on text outside the
    standard format. *)
Record Env : Type := {
  remote : forall R : Type, list Request -> Call R -> Error + R;
  clock : nat -> Z;
  utc_of_local : Z -> Z;
  legacy_parse : string -> JsDate.Date
}.

Record State : Type := {
  calls : list Request;
  ticks : nat
}.

Definition initial : State := {| calls := []; ticks := 0 |}.

Definition M (A : Type) : Type := Env -> State -> Result A * State.

Definition ret {A} (a : A) : M A := fun _ st => (Ok a, st).

Definition bind {A B} (m : M A) (k : A -> M B) : M B :=
  fun env st =>
    match m env st with
    | (Ok a, st') => k a env st'
    | (Throw x, st') => (Throw x, st')
    end.

Definition throw {A} (x : exn) : M A := fun _ st => (Throw x, st).

(** [try { body } catch (error) { handler error }] *)
Definition try_catch {A} (body : M A) (handler : exn -> M A) : M A :=
  fun env st =>
    match body env st with
    | (Ok a, st') => (Ok a, st')
    | (Throw x, st') => handler x env st'
    end.

(** [await client.operation(params).promise()] *)
Definition sdk {R} (c : Call R) : M R :=
  fun env st =>
    let st' := {| calls := (calls st ++ [Req c])%list; ticks := ticks st |} in
    match remote env R (calls st) c with
    | inr r => (Ok r, st')
    | inl e => (Throw (JsError e), st')
    end.

(** [new Date()] *)
Definition Date_now : M JsDate.Date :=
  fun env st =>
    (Ok (JsDate.TimeClip (clock env (ticks st))),
     {| calls := calls st; ticks := S (ticks st) |}).

(** [new Date(text)] *)
Definition Date_of_string (s : string) : M JsDate.Date :=
  fun env st =>
    (Ok (match JsDate.parse_iso (utc_of_local env) s with
         | Some (Some t) => JsDate.TimeClip t
         | Some None => None
         | None => legacy_parse env s
         end), st).

Definition RangeError_invalid_time : exn :=
  JsError {| err_name := "RangeError"; err_message := "Invalid time value" |}.

(** [d.toISOString()]: a [RangeError] on an invalid date. *)
Definition toISOString (d : JsDate.Date) : M string :=
  match d with
  | Some t => ret (JsDate.iso_string t)
  | None => throw RangeError_invalid_time
  end.

(** [xs.map(f)] where [f] has effects. *)
Fixpoint mapM {A B} (f : A -> M B) (xs : list A) : M (list B) :=
  match xs with
  | [] => ret []
  | x :: rest =>
      bind (f x) (fun y => bind (mapM f rest) (fun ys => ret (y :: ys)))
  end.

(** [for (const x of xs) body], threading the loop's variables. *)
Fixpoint forM {A S} (xs : list A) (body : A -> S -> M S) (s : S) : M S :=
  match xs with
  | [] => ret s
  | x :: rest => bind (body x s) (forM rest body)
  end.

Definition run {A} (m : M A) (env : Env) : Result A * State := m env initial.

End Eff.

Declare Scope eff_scope.
Delimit Scope eff_scope with eff.
Notation "x <- m ;; k" := (Eff.bind m (fun x => k))
  (at level 61, m at next level, right associativity) : eff_scope.
Notation "m ;;; k" := (Eff.bind m (fun _ => k))
  (at level 61, right associativity) : eff_scope.

(** ** The tool handlers ([src/tools/*.ts])

    Each handler is embedded at the parameter type its TypeScript
    declaration gives it. A handler first builds the object it reports
    (its [_payload]), then wraps the pretty-printed JSON text of it in the
    MCP result envelope. *)

Module Tools.
Import Json AWS Eff.
Local Open Scope eff_scope.

(** The result envelope [{ content: [{ type: "text", text }] }]. *)
Record TextContent : Type := { c_type : string; c_text : string }.
Record Envelope : Type := { content : list TextContent }.

Definition text_result (payload : list (string * jsval)) : Envelope :=
  {| content := [ {| c_type := "text"; c_text := JSON_stringify payload |} ] |}.

Definition message_result (message : string) : Envelope :=
  text_result [("message", JStr message)].

(** [d?.toISOString() || ''] *)
Definition iso_or_empty (d : option Date) : M string :=
  match d with
  | Some d' => s <- toISOString d' ;; ret (if str_truthy s then s else "")
  | None => ret ""
  end.

(** [d || new Date().toISOString()]: a [Date] object is truthy. *)
Definition date_or_now (d : option Date) : M jsval :=
  match d with
  | Some d' => ret (JDate d')
  | None => now <- Date_now ;; s <- toISOString now ;; ret (JStr s)
  end.

(** [xs?.map(f)], to be followed by [|| []] or left as it is. *)
Definition map_opt {A} (f : A -> M jsval) (xs : option (list A)) : M (option (list jsval)) :=
  match xs with
  | Some l => ys <- mapM f l ;; ret (Some ys)
  | None => ret None
  end.

Definition arr_or_empty (o : option (list jsval)) : jsval :=
  match o with Some l => JArr l | None => JArr [] end.
Definition arr_or_undefined (o : option (list jsval)) : jsval :=
  match o with Some l => JArr l | None => JUndefined end.

Definition num_or_zero (o : option number) : jsval :=
  JNum (Num.or_else o Num.zero).

(** *** list_pipelines *)

Definition pipeline_summary (pipeline : PipelineSummary) : M jsval :=
  created <- iso_or_empty (ps_created pipeline) ;;
  updated <- iso_or_empty (ps_updated pipeline) ;;
  ret (JObj [ ("name", JStr (str_or (ps_name pipeline) ""));
              ("version", num_or_zero (ps_version pipeline));
              ("created", JStr created);
              ("updated", JStr updated) ]).

Definition listPipelines_payload : M (list (string * jsval)) :=
  response <- sdk ListPipelines ;;
  pipelines <- map_opt pipeline_summary (lpo_pipelines response) ;;
  ret [ ("pipelines", arr_or_empty pipelines) ].

Definition listPipelines : M Envelope :=
  payload <- listPipelines_payload ;; ret (text_result payload).

(** *** get_pipeline_state *)

Module PipelineNameInput.
Record t : Type := { pipelineName : string }.
End PipelineNameInput.

Definition convert_transition (s : TransitionState) : jsval :=
  JObj [ ("enabled", JBool (match ts_enabled s with
                            | None => false
                            | Some b => b
                            end));
         ("lastChangedBy", opt_str (ts_lastChangedBy s));
         ("lastChangedAt", opt_date (ts_lastChangedAt s));
         ("disabledReason", opt_str (ts_disabledReason s)) ].

Definition convert_stage_execution (e : StageExecution) : jsval :=
  JObj [ ("pipelineExecutionId", JStr (str_or (se_pipelineExecutionId e) ""));
         ("status", JStr (str_or (se_status e) "")) ].

Definition convert_error_details (d : ErrorDetails) : jsval :=
  JObj [ ("code", JStr (str_or (ed_code d) ""));
         ("message", JStr (str_or (ed_message d) "")) ].

Definition convert_action_execution (e : ActionExecution) : M jsval :=
  lastStatusChange <- date_or_now (ae_lastStatusChange e) ;;
  ret (JObj [ ("status", JStr (str_or (ae_status e) ""));
              ("summary", opt_str (ae_summary e));
              ("lastStatusChange", lastStatusChange);
              ("token", opt_str (ae_token e));
              ("externalExecutionId", opt_str (ae_externalExecutionId e));
              ("externalExecutionUrl", opt_str (ae_externalExecutionUrl e));
              ("errorDetails", match ae_errorDetails e with
                               | Some d => convert_error_details d
                               | None => JUndefined
                               end) ]).

Definition convert_action_revision (r : ActionRevision) : M jsval :=
  created <- date_or_now (ar_created r) ;;
  ret (JObj [ ("revisionId", JStr (str_or (ar_revisionId r) ""));
              ("revisionChangeId", JStr (str_or (ar_revisionChangeId r) ""));
              ("created", created) ]).

Definition convert_action (action : ActionState) : M jsval :=
  latestExecution <- match as_latestExecution action with
                     | Some e => convert_action_execution e
                     | None => ret JUndefined
                     end ;;
  currentRevision <- match as_currentRevision action with
                     | Some r => convert_action_revision r
                     | None => ret JUndefined
                     end ;;
  ret (JObj [ ("actionName", JStr (str_or (as_actionName action) ""));
              ("currentRevision", currentRevision);
              ("latestExecution", latestExecution);
              ("entityUrl", opt_str (as_entityUrl action)) ]).

Definition convert_stage (stage : StageState) : M jsval :=
  let inboundTransitionState :=
    match ss_inboundTransitionState stage with
    | Some s => convert_transition s
    | None => JUndefined
    end in
  let latestExecution :=
    match ss_latestExecution stage with
    | Some e => convert_stage_execution e
    | None => JUndefined
    end in
  actionStates <- mapM convert_action
                    (match ss_actionStates stage with
                     | Some l => l
                     | None => []
                     end) ;;
  ret (JObj [ ("stageName", JStr (str_or (ss_stageName stage) ""));
              ("inboundTransitionState", inboundTransitionState);
              ("actionStates", JArr actionStates);
              ("latestExecution", latestExecution) ]).

Definition pipelineState_of (response : GetPipelineStateOutput) : M jsval :=
  stageStates <- map_opt convert_stage (gps_stageStates response) ;;
  created <- iso_or_empty (gps_created response) ;;
  updated <- iso_or_empty (gps_updated response) ;;
  ret (JObj [ ("pipelineName", JStr (str_or (gps_pipelineName response) ""));
              ("pipelineVersion", num_or_zero (gps_pipelineVersion response));
              ("stageStates", arr_or_empty stageStates);
              ("created", JStr created);
              ("updated", JStr updated) ]).

Definition getPipelineState_payload (input : PipelineNameInput.t)
  : M (list (string * jsval)) :=
  let pipelineName := PipelineNameInput.pipelineName input in
  response <- sdk (GetPipelineState pipelineName) ;;
  pipelineState <- pipelineState_of response ;;
  ret [ ("pipelineState", pipelineState) ].

Definition getPipelineState (input : PipelineNameInput.t) : M Envelope :=
  payload <- getPipelineState_payload input ;; ret (text_result payload).

(** *** list_pipeline_executions *)

Definition convert_source_revision (revision : SourceRevision) : M jsval :=
  ret (JObj [ ("name", JStr (str_or (sr_actionName revision) ""));
              ("revisionId", JStr (str_or (sr_revisionId revision) ""));
              ("revisionUrl", JStr (str_or (sr_revisionUrl revision) ""));
              ("revisionSummary", JStr (str_or (sr_revisionSummary revision) "")) ]).

Definition convert_execution (execution : PipelineExecutionSummary) : M jsval :=
  startTime <- iso_or_empty (pes_startTime execution) ;;
  lastUpdateTime <- iso_or_empty (pes_lastUpdateTime execution) ;;
  sourceRevisions <- map_opt convert_source_revision (pes_sourceRevisions execution) ;;
  ret (JObj [ ("pipelineExecutionId", JStr (str_or (pes_pipelineExecutionId execution) ""));
              ("status", JStr (str_or (pes_status execution) ""));
              ("startTime", JStr startTime);
              ("lastUpdateTime", JStr lastUpdateTime);
              ("sourceRevisions", arr_or_empty sourceRevisions) ]).

Definition listPipelineExecutions_payload (input : PipelineNameInput.t)
  : M (list (string * jsval)) :=
  let pipelineName := PipelineNameInput.pipelineName input in
  response <- sdk (ListPipelineExecutions pipelineName None) ;;
  executions <- map_opt convert_execution (lpe_pipelineExecutionSummaries response) ;;
  ret [ ("executions", arr_or_empty executions) ].

Definition listPipelineExecutions (input : PipelineNameInput.t) : M Envelope :=
  payload <- listPipelineExecutions_payload input ;; ret (text_result payload).

(** *** get_pipeline_details *)

Definition convert_action_declaration (action : ActionDeclaration) : M jsval :=
  ret (JObj [ ("name", opt_str (ad_name action));
              ("actionTypeId", ad_actionTypeId action);
              ("runOrder", opt_num (ad_runOrder action));
              ("configuration", ad_configuration action);
              ("outputArtifacts", ad_outputArtifacts action);
              ("inputArtifacts", ad_inputArtifacts action);
              ("region", opt_str (ad_region action));
              ("namespace", opt_str (ad_namespace action)) ]).

Definition convert_stage_declaration (stage : StageDeclaration) : M jsval :=
  actions <- map_opt convert_action_declaration (sd_actions stage) ;;
  ret (JObj [ ("name", opt_str (sd_name stage));
              ("actions", arr_or_undefined actions) ]).

(** [o?.f] for an optional object [o] and an optional field [f]. *)
Definition via {A B} (o : option A) (f : A -> option B) : option B :=
  match o with Some a => f a | None => None end.

Definition getPipelineDetails_payload (input : PipelineNameInput.t)
  : M (list (string * jsval)) :=
  let pipelineName := PipelineNameInput.pipelineName input in
  response <- sdk (GetPipeline pipelineName) ;;
  let pipeline := gp_pipeline response in
  let metadata := gp_metadata response in
  stages <- map_opt convert_stage_declaration (via pipeline pd_stages) ;;
  created <- iso_or_empty (via metadata pm_created) ;;
  updated <- iso_or_empty (via metadata pm_updated) ;;
  ret [ ("pipeline",
         JObj [ ("name", JStr (str_or (via pipeline pd_name) ""));
                ("roleArn", JStr (str_or (via pipeline pd_roleArn) ""));
                ("artifactStore", match pipeline with
                                  | Some p => pd_artifactStore p
                                  | None => JUndefined
                                  end);
                ("stages", arr_or_undefined stages);
                ("version", num_or_zero (via pipeline pd_version));
                ("metadata",
                 JObj [ ("created", JStr created);
                        ("updated", JStr updated);
                        ("pipelineArn", JStr (str_or (via metadata pm_pipelineArn) "")) ]) ]) ].

Definition getPipelineDetails (input : PipelineNameInput.t) : M Envelope :=
  payload <- getPipelineDetails_payload input ;; ret (text_result payload).

(** *** trigger_pipeline *)

Definition triggerPipeline (input : PipelineNameInput.t) : M Envelope :=
  let pipelineName := PipelineNameInput.pipelineName input in
  response <- sdk (StartPipelineExecution pipelineName) ;;
  let executionId := str_or (spe_pipelineExecutionId response) "" in
  ret (text_result [ ("message", JStr "Pipeline triggered successfully");
                     ("executionId", JStr executionId) ]).

(** *** get_pipeline_execution_logs *)

Module ExecutionInput.
Record t : Type := { pipelineName : string; executionId : string }.
End ExecutionInput.

Definition convert_artifact_revision (revision : ArtifactRevision) : M jsval :=
  ret (JObj [ ("name", opt_str (arv_name revision));
              ("revisionId", opt_str (arv_revisionId revision));
              ("revisionSummary", opt_str (arv_revisionSummary revision));
              ("revisionUrl", opt_str (arv_revisionUrl revision)) ]).

Definition getPipelineExecutionLogs (input : ExecutionInput.t) : M Envelope :=
  let pipelineName := ExecutionInput.pipelineName input in
  let executionId := ExecutionInput.executionId input in
  response <- sdk (GetPipelineExecution pipelineName executionId) ;;
  let execution := gpe_pipelineExecution response in
  artifactRevisions <- map_opt convert_artifact_revision
                         (via execution pe_artifactRevisions) ;;
  ret (text_result
    [ ("logs",
       JObj [ ("pipelineName", JStr (str_or (via execution pe_pipelineName) pipelineName));
              ("pipelineVersion",
               match via execution pe_pipelineVersion with
               | Some v => if Num.truthy v then JNum v else JStr "1"
               | None => JStr "1"
               end);
              ("pipelineExecution",
               JObj [ ("pipelineExecutionId", opt_str (via execution pe_pipelineExecutionId));
                      ("status", opt_str (via execution pe_status));
                      ("artifactRevisions", arr_or_undefined artifactRevisions) ]) ]) ]).

(** *** stop_pipeline_execution *)

Module StopInput.
Record t : Type := {
  pipelineName : string;
  executionId : string;
  reason : option string
}.
End StopInput.

Definition stopPipelineExecution (input : StopInput.t) : M Envelope :=
  let pipelineName := StopInput.pipelineName input in
  let executionId := StopInput.executionId input in
  let reason := StopInput.reason input in
  sdk (StopPipelineExecution pipelineName executionId
         (str_or reason "Stopped by user") false) ;;;
  ret (message_result "Pipeline execution stopped successfully").

(** *** approve_action *)

Module ApproveInput.
Record t : Type := {
  pipelineName : string;
  stageName : string;
  actionName : string;
  token : string;
  approved : bool;
  comments : option string
}.
End ApproveInput.

Definition approveAction (input : ApproveInput.t) : M Envelope :=
  let approved := ApproveInput.approved input in
  sdk (PutApprovalResult (ApproveInput.pipelineName input)
         (ApproveInput.stageName input) (ApproveInput.actionName input)
         (ApproveInput.token input)
         (if approved then "Approved" else "Rejected")
         (str_or (ApproveInput.comments input) "")) ;;;
  ret (message_result
         ("Action " ++ (if approved then "approved" else "rejected") ++ " successfully")).

(** *** retry_stage *)

Module RetryInput.
Record t : Type := {
  pipelineName : string;
  stageName : string;
  pipelineExecutionId : string
}.
End RetryInput.

Definition retryStage (input : RetryInput.t) : M Envelope :=
  sdk (RetryStageExecution (RetryInput.pipelineName input)
         (RetryInput.stageName input) (RetryInput.pipelineExecutionId input)
         "FAILED_ACTIONS") ;;;
  ret (message_result "Stage retry initiated successfully").

(** *** tag_pipeline_resource *)

(** Each tag is the object the caller sent: its properties in the caller's
    order, [key] and [value] among them and whatever else there is. *)
Module TagInput.
Record t : Type := { pipelineName : string; tags : list (list (string * jsval)) }.
End TagInput.

Definition tagPipelineResource (input : TagInput.t) : M Envelope :=
  let pipelineName := TagInput.pipelineName input in
  let tags := TagInput.tags input in
  (* First, get the pipeline ARN *)
  pipelineResponse <- sdk (GetPipeline pipelineName) ;;
  let resourceArn := via (gp_metadata pipelineResponse) pm_pipelineArn in
  match resourceArn with
  | Some arn =>
      if str_truthy arn then
        (* Tag the resource *)
        sdk (TagResource arn
               (map (fun tag => {| key := lookup "key" tag;
                                   value := lookup "value" tag |}) tags)) ;;;
        ret (text_result [ ("message", JStr "Pipeline resource tagged successfully");
                           ("resourceArn", JStr arn);
                           ("tags", JArr (map JObj tags)) ])
      else
        throw (JsError {| err_name := "Error";
                          err_message := "Could not find ARN for pipeline: " ++ pipelineName |})
  | None =>
      throw (JsError {| err_name := "Error";
                        err_message := "Could not find ARN for pipeline: " ++ pipelineName |})
  end.

(** *** create_pipeline_webhook *)

Module WebhookInput.
Record t : Type := {
  pipelineName : string;
  webhookName : string;
  targetAction : string;
  authentication : string;
  authenticationConfiguration : option WebhookAuthConfiguration;
  filters : option (list WebhookFilterRule)
}.
End WebhookInput.

Definition default {A} (o : option A) (d : A) : A :=
  match o with Some a => a | None => d end.

Definition webhookDetails_of (input : WebhookInput.t) (response : PutWebhookOutput) : jsval :=
  JObj [ ("name", JStr (WebhookInput.webhookName input));
         ("url", match pwo_webhook response with
                 | Some w => JStr (default (wh_url w) "undefined")
                 | None => JUndefined
                 end);
         ("targetPipeline", JStr (WebhookInput.pipelineName input));
         ("targetAction", JStr (WebhookInput.targetAction input)) ].

Definition webhook_definition (input : WebhookInput.t) : WebhookDefinition :=
  let authenticationConfiguration :=
    default (WebhookInput.authenticationConfiguration input)
            {| SecretToken := None; AllowedIpRange := None |} in
  let filters := default (WebhookInput.filters input) [] in
  {| wd_name := WebhookInput.webhookName input;
     wd_targetPipeline := WebhookInput.pipelineName input;
     wd_targetAction := WebhookInput.targetAction input;
     wd_filters := map (fun filter => {| jsonPath := jsonPath filter;
                                         matchEquals := matchEquals filter |}) filters;
     wd_authentication := WebhookInput.authentication input;
     wd_authenticationConfiguration := authenticationConfiguration |}.

Definition createPipelineWebhook_payload (input : WebhookInput.t)
  : M (list (string * jsval)) :=
  (* Create the webhook *)
  response <- sdk (PutWebhook (webhook_definition input)) ;;
  (* Register the webhook *)
  sdk (RegisterWebhookWithThirdParty (WebhookInput.webhookName input)) ;;;
  ret [ ("message", JStr "Pipeline webhook created and registered successfully");
        ("webhookDetails", webhookDetails_of input response) ].

Definition createPipelineWebhook (input : WebhookInput.t) : M Envelope :=
  payload <- createPipelineWebhook_payload input ;; ret (text_result payload).

End Tools.

(** ** get_pipeline_metrics *)

Module Metrics.
Import Json AWS Eff Tools.
Local Open Scope eff_scope.

Module MetricsInput.
Record t : Type := {
  pipelineName : string;
  period : option number;
  startTime : option string;
  endTime : option string
}.
End MetricsInput.

(** [datapoints.reduce((sum, point) => sum + (point.F || 0), 0)] *)
Definition sum_of (F : Datapoint -> option number) (datapoints : list Datapoint) : number :=
  fold_left (fun sum point => Num.add sum (Num.or_else (F point) Num.zero))
            datapoints Num.zero.

(** [metric.Datapoints?.reduce(... point.Sum ...) || 0] *)
Definition total_of (metric : GetMetricStatisticsOutput) : number :=
  match gms_Datapoints metric with
  | Some datapoints =>
      let total := sum_of dp_Sum datapoints in
      if Num.truthy total then total else Num.zero
  | None => Num.zero
  end.

Definition hundred : number := Num.of_Z 100.

Definition successRate_of (totalSuccessful totalExecutions : number) : number :=
  if Num.gtb totalExecutions Num.zero
  then Num.mul (Num.div totalSuccessful totalExecutions) hundred
  else Num.zero.

Definition executionStats_of (successMetric failedMetric : GetMetricStatisticsOutput) : jsval :=
  let totalSuccessful := total_of successMetric in
  let totalFailed := total_of failedMetric in
  let totalExecutions := Num.add totalSuccessful totalFailed in
  let successRate := successRate_of totalSuccessful totalExecutions in
  JObj [ ("totalExecutions", JNum totalExecutions);
         ("successfulExecutions", JNum totalSuccessful);
         ("failedExecutions", JNum totalFailed);
         ("successRate", JStr (Num.toFixed successRate 2 ++ "%")) ].

Definition convert_datapoint (point : Datapoint) : M jsval :=
  timestamp <- match dp_Timestamp point with
               | Some d => s <- toISOString d ;; ret (JStr s)
               | None => ret JUndefined
               end ;;
  ret (JObj [ ("timestamp", timestamp);
              ("average", opt_num (dp_Average point));
              ("minimum", opt_num (dp_Minimum point));
              ("maximum", opt_num (dp_Maximum point)) ]).

Definition average_of (metric : GetMetricStatisticsOutput) : number :=
  match gms_Datapoints metric with
  | Some ((_ :: _) as datapoints) =>
      Num.div (sum_of dp_Average datapoints)
              (Num.of_Z (Z.of_nat (List.length datapoints)))
  | _ => Num.zero
  end.

(** [metric.Datapoints?.map(point => point.F || 0) || [0]]: an empty list
    of data points is an array, hence truthy, and stays empty. *)
Definition extremes_input (F : Datapoint -> option number)
           (metric : GetMetricStatisticsOutput) : list number :=
  match gms_Datapoints metric with
  | Some datapoints => map (fun point => Num.or_else (F point) Num.zero) datapoints
  | None => [Num.zero]
  end.

Definition executionTime_of (executionTimeMetric : GetMetricStatisticsOutput)
           (executionTimeData : jsval) : jsval :=
  JObj [ ("average", JNum (average_of executionTimeMetric));
         ("minimum", JNum (Num.Math_min (extremes_input dp_Minimum executionTimeMetric)));
         ("maximum", JNum (Num.Math_max (extremes_input dp_Maximum executionTimeMetric)));
         ("dataPoints", executionTimeData) ].

(** *** Stage timing *)

(** [a < b] on two dates: false when either is invalid. *)
Definition date_ltb (a b : Date) : bool :=
  match a, b with
  | Some x, Some y => x <? y
  | _, _ => false
  end.

(** [d.getTime()] *)
Definition getTime (d : Date) : number :=
  match d with Some t => Num.of_Z t | None => Num.NaN end.

(** The inner loop over the actions of a stage: the earliest and latest
    [lastStatusChange]. *)
Definition scan_actions (actions : list ActionState) : option Date * option Date :=
  fold_left
    (fun '(earliestTime, latestTime) action =>
       match via (as_latestExecution action) ae_lastStatusChange with
       | Some timestamp =>
           let earliestTime' :=
             match earliestTime with
             | None => Some timestamp
             | Some e => if date_ltb timestamp e then Some timestamp else Some e
             end in
           let latestTime' :=
             match latestTime with
             | None => Some timestamp
             | Some l => if date_ltb l timestamp then Some timestamp else Some l
             end in
           (earliestTime', latestTime')
       | None => (earliestTime, latestTime)
       end)
    actions (None, None).

(** [stageMetrics]: own properties in insertion order, each a
    [{ count, totalDuration }]. *)
Definition StageMetrics : Type := list (string * (number * number)).

(** Property names every object inherits from [Object.prototype]: for
    these [stageMetrics[name]] is truthy from the start, the record is
    never given an own property of that name, and the increments land on
    the inherited object. *)
Definition object_prototype_keys : list string :=
  [ "constructor"; "__proto__"; "hasOwnProperty"; "isPrototypeOf";
    "propertyIsEnumerable"; "toLocaleString"; "toString"; "valueOf";
    "__defineGetter__"; "__defineSetter__"; "__lookupGetter__";
    "__lookupSetter__" ].

Definition one : number := Num.of_Z 1.

Fixpoint bump (stageName : string) (duration : number) (sm : StageMetrics)
  : option StageMetrics :=
  match sm with
  | [] => None
  | (k, (count, totalDuration)) :: rest =>
      if String.eqb k stageName
      then Some ((k, (Num.add count one, Num.add totalDuration duration)) :: rest)
      else match bump stageName duration rest with
           | Some rest' => Some ((k, (count, totalDuration)) :: rest')
           | None => None
           end
  end.

Definition record_stage (stageName : string) (duration : number) (sm : StageMetrics)
  : StageMetrics :=
  if existsb (String.eqb stageName) object_prototype_keys then sm
  else match bump stageName duration sm with
       | Some sm' => sm'
       | None =>
           (sm ++ [(stageName, (Num.add Num.zero one, Num.add Num.zero duration))])%list
       end.

Definition thousand : number := Num.of_Z 1000.

Definition process_stage (sm : StageMetrics) (stage : StageState) : StageMetrics :=
  match via (ss_latestExecution stage) se_status, ss_stageName stage, ss_actionStates stage with
  | Some status, Some stageName, Some ((_ :: _) as actionStates) =>
      if String.eqb status "Succeeded" && str_truthy stageName then
        match scan_actions actionStates with
        | (Some earliestTime, Some latestTime) =>
            let duration :=
              Num.div (Num.sub (getTime latestTime) (getTime earliestTime)) thousand in
            record_stage stageName duration sm
        | _ => sm
        end
      else sm
  | _, _, _ => sm
  end.

Definition process_execution (pipelineName : string)
           (execution : PipelineExecutionSummary) (sm : StageMetrics) : M StageMetrics :=
  match pes_startTime execution, pes_status execution with
  | Some _, Some status =>
      if String.eqb status "Succeeded" then
        sdk (GetPipelineExecution pipelineName
               (str_or (pes_pipelineExecutionId execution) "")) ;;;
        (* Get pipeline state to analyze stage timing *)
        pipelineState <- sdk (GetPipelineState pipelineName) ;;
        ret (fold_left process_stage
                       (match gps_stageStates pipelineState with
                        | Some l => l
                        | None => []
                        end) sm)
      else ret sm
  | _, _ => ret sm
  end.

(** *** Object.entries order: array indices ascending, then the other
    keys in insertion order *)

Definition array_index (k : string) : option Z :=
  match Digits.take (String.length k) 0 k with
  | Some (n, EmptyString) =>
      if String.eqb (Digits.of_Z n) k && (n <=? 4294967294) && negb (String.eqb k "")
      then Some n else None
  | _ => None
  end.

Fixpoint insert_index {V} (n : Z) (kv : string * V) (l : list (Z * (string * V)))
  : list (Z * (string * V)) :=
  match l with
  | [] => [(n, kv)]
  | (n', kv') :: rest =>
      if n <? n' then (n, kv) :: l else (n', kv') :: insert_index n kv rest
  end.

Definition Object_entries {V} (props : list (string * V)) : list (string * V) :=
  let indexed :=
    fold_left (fun acc kv => match array_index (fst kv) with
                             | Some n => insert_index n kv acc
                             | None => acc
                             end) props [] in
  let named := filter (fun kv => match array_index (fst kv) with
                                 | Some _ => false
                                 | None => true
                                 end) props in
  (map snd indexed ++ named)%list.

Definition stageDurations_of (sm : StageMetrics) : list jsval :=
  map (fun '(stageName, (count, totalDuration)) =>
         JObj [ ("stageName", JStr stageName);
                ("averageDuration",
                 JNum (if Num.gtb count Num.zero
                       then Num.div totalDuration count else Num.zero));
                ("executionCount", JNum count) ])
      (Object_entries sm).

(** *** The handler *)

Definition week_ms : Z := 7 * 24 * 60 * 60 * 1000.

(** [new Date(endTime.getTime() - week_ms)] *)
Definition week_before (endTime : Date) : Date :=
  match endTime with
  | Some t => JsDate.TimeClip (t - week_ms)
  | None => None
  end.

Definition metric_request (metricName pipelineName : string) (startTime endTime : Date)
           (period : number) (statistics : list string) : GetMetricStatisticsInput :=
  {| Namespace := "AWS/CodePipeline";
     MetricName := metricName;
     Dimensions := [("PipelineName", pipelineName)];
     StartTime := startTime;
     EndTime := endTime;
     Period := period;
     Statistics := statistics |}.

Definition default_period : number := Num.of_Z 86400.

(** [input.endTime ? new Date(input.endTime) : new Date()] *)
Definition endTime_of (input : MetricsInput.t) : M Date :=
  match MetricsInput.endTime input with
  | Some s => if str_truthy s then Date_of_string s else Date_now
  | None => Date_now
  end.

(** [input.startTime ? new Date(input.startTime)
                     : new Date(endTime.getTime() - 7 * 24 * 60 * 60 * 1000)] *)
Definition startTime_of (input : MetricsInput.t) (endTime : Date) : M Date :=
  match MetricsInput.startTime input with
  | Some s => if str_truthy s then Date_of_string s else ret (week_before endTime)
  | None => ret (week_before endTime)
  end.

Definition getPipelineMetrics_payload (input : MetricsInput.t)
  : M (list (string * jsval)) :=
  let pipelineName := MetricsInput.pipelineName input in
  let period := default (MetricsInput.period input) default_period in
  (* Set default time range if not provided *)
  endTime <- endTime_of input ;;
  startTime <- startTime_of input endTime ;;
  (* Get execution success/failure metrics *)
  successMetric <- sdk (GetMetricStatistics
                          (metric_request "SucceededPipeline" pipelineName startTime endTime
                                          period ["Sum"; "Average"; "Maximum"])) ;;
  failedMetric <- sdk (GetMetricStatistics
                         (metric_request "FailedPipeline" pipelineName startTime endTime
                                         period ["Sum"; "Average"; "Maximum"])) ;;
  (* Get execution time metrics *)
  executionTimeMetric <- sdk (GetMetricStatistics
                                (metric_request "PipelineExecutionTime" pipelineName
                                                startTime endTime period
                                                ["Average"; "Minimum"; "Maximum"])) ;;
  (* Format execution time data *)
  executionTimeData <- map_opt convert_datapoint (gms_Datapoints executionTimeMetric) ;;
  (* Get pipeline executions for the period *)
  pipelineExecutions <- sdk (ListPipelineExecutions pipelineName (Some 20)) ;;
  stageMetrics <- forM (match lpe_pipelineExecutionSummaries pipelineExecutions with
                        | Some l => l
                        | None => []
                        end)
                       (process_execution pipelineName) [] ;;
  let stageDurations := stageDurations_of stageMetrics in
  (* Prepare the metrics result *)
  startText <- toISOString startTime ;;
  endText <- toISOString endTime ;;
  ret [ ("pipelineName", JStr pipelineName);
        ("timeRange", JObj [ ("startTime", JStr startText);
                             ("endTime", JStr endText);
                             ("periodSeconds", JNum period) ]);
        ("executionStats", executionStats_of successMetric failedMetric);
        ("executionTime", executionTime_of executionTimeMetric
                                           (arr_or_empty executionTimeData));
        ("stagePerformance", JArr stageDurations) ].

Definition getPipelineMetrics (input : MetricsInput.t) : M Envelope :=
  payload <- getPipelineMetrics_payload input ;; ret (text_result payload).

End Metrics.

(** ** The methods of [CodePipelineService] ([src/services])

    Each rethrows what the SDK call rejects with; the [console.error] line
    before the rethrow is not modelled. [getPipelineExecutionLogs], which
    returns the raw SDK response, is left out. *)

Module Service.
Import AWS Eff.

Record RetryStageRequest : Type := {
  pipelineName : string;
  stageName : string;
  pipelineExecutionId : string
}.

Definition retryStageExecution (request : RetryStageRequest) : M unit :=
  try_catch
    (sdk (RetryStageExecution (pipelineName request) (stageName request)
            (pipelineExecutionId request) "FAILED_ACTIONS"))
    (fun error => throw error).

(** The [reason] parameter has the default value ['Stopped by user']. *)
Definition stopPipelineExecution (pipelineName executionId : string)
           (reason : option string) : M unit :=
  let reason := Tools.default reason "Stopped by user" in
  try_catch
    (sdk (StopPipelineExecution pipelineName executionId reason false))
    (fun error => throw error).

(** [listPipelines]: the summaries, in the remote's order. *)
Definition listPipelines : M (list Json.jsval) :=
  try_catch
    (response <- sdk ListPipelines ;;
     pipelines <- Tools.map_opt Tools.pipeline_summary (lpo_pipelines response) ;;
     ret (Tools.default pipelines []))%eff
    (fun error => throw error).

(** [getPipelineState]: the same conversion as the tool handler's. *)
Definition getPipelineState (pipelineName : string) : M Json.jsval :=
  try_catch
    (response <- sdk (GetPipelineState pipelineName) ;;
     Tools.pipelineState_of response)%eff
    (fun error => throw error).

Definition convert_revision (revision : SourceRevision) : M Json.jsval :=
  (now <- Date_now ;;
   created <- toISOString now ;;
   ret (Json.JObj
          [ ("name", Json.JStr (Json.str_or (sr_actionName revision) ""));
            ("revisionId", Json.JStr (Json.str_or (sr_revisionId revision) ""));
            ("revisionChangeIdentifier",
             Json.JStr (Json.str_or (sr_revisionUrl revision) ""));
            ("revisionSummary", Json.JStr (Json.str_or (sr_revisionSummary revision) ""));
            ("created", Json.JStr created);
            ("revisionUrl", Json.JStr (Json.str_or (sr_revisionUrl revision) "")) ]))%eff.

Definition convert_summary (execution : PipelineExecutionSummary) : M Json.jsval :=
  (artifactRevisions <- Tools.map_opt convert_revision (pes_sourceRevisions execution) ;;
   ret (Json.JObj
          [ ("pipelineExecutionId",
             Json.JStr (Json.str_or (pes_pipelineExecutionId execution) ""));
            ("status", Json.JStr (Json.str_or (pes_status execution) ""));
            ("artifactRevisions", Tools.arr_or_empty artifactRevisions) ]))%eff.

Definition listPipelineExecutions (pipelineName : string) : M (list Json.jsval) :=
  try_catch
    (response <- sdk (ListPipelineExecutions pipelineName None) ;;
     executions <- Tools.map_opt convert_summary (lpe_pipelineExecutionSummaries response) ;;
     ret (Tools.default executions []))%eff
    (fun error => throw error).

Record ApprovalRequest : Type := {
  ar_pipelineName : string;
  ar_stageName : string;
  ar_actionName : string;
  ar_token : string
}.

(** The [comments] parameter has the default value ['']. *)
Definition approveAction (request : ApprovalRequest) (approved : bool)
           (comments : option string) : M unit :=
  let comments := Tools.default comments "" in
  try_catch
    (sdk (PutApprovalResult (ar_pipelineName request) (ar_stageName request)
            (ar_actionName request) (ar_token request)
            (if approved then "Approved" else "Rejected") comments))
    (fun error => throw error).

Definition startPipelineExecution (pipelineName : string) : M string :=
  try_catch
    (response <- sdk (StartPipelineExecution pipelineName) ;;
     ret (Json.str_or (spe_pipelineExecutionId response) ""))%eff
    (fun error => throw error).

End Service.

(** ** The REST controller ([src/controllers])

    Each method answers the request with exactly one
    [res.status(code).json(body)], modelled as the value it returns; a
    route parameter or body field is a string or absent, except [approved],
    which the code inspects as an arbitrary value. The
    [getPipelineExecutionLogs] method, whose body is the raw SDK response,
    is left out. *)

Module Controller.
Import Json AWS Eff.
Local Open Scope eff_scope.

Record HttpResponse : Type := { status : Z; body : jsval }.

(** [res.status(code).json(body)] *)
Definition respond (code : Z) (props : list (string * jsval)) : M HttpResponse :=
  ret {| status := code; body := JObj props |}.

Definition failure (message : string) : exn -> M HttpResponse :=
  fun _ => respond 500 [ ("error", JStr message) ].

(** [!x] on a string that may be absent. *)
Definition missing (x : option string) : bool :=
  match x with
  | Some s => negb (str_truthy s)
  | None => true
  end.

Definition text (x : option string) : string := Tools.default x "".

Definition listPipelines : M HttpResponse :=
  try_catch
    (pipelines <- Service.listPipelines ;;
     respond 200 [ ("pipelines", JArr pipelines) ])
    (failure "Failed to list pipelines").

Definition getPipelineState (pipelineName : option string) : M HttpResponse :=
  try_catch
    (if missing pipelineName
     then respond 400 [ ("error", JStr "Pipeline name is required") ]
     else pipelineState <- Service.getPipelineState (text pipelineName) ;;
          respond 200 [ ("pipelineState", pipelineState) ])
    (failure "Failed to get pipeline state").

Definition listPipelineExecutions (pipelineName : option string) : M HttpResponse :=
  try_catch
    (if missing pipelineName
     then respond 400 [ ("error", JStr "Pipeline name is required") ]
     else executions <- Service.listPipelineExecutions (text pipelineName) ;;
          respond 200 [ ("executions", JArr executions) ])
    (failure "Failed to list pipeline executions").

(** The body of an approval request. *)
Record ApprovalBody : Type := {
  pipelineName : option string;
  stageName : option string;
  actionName : option string;
  token : option string;
  approved : jsval;
  comments : option string
}.

Definition approveAction (b : ApprovalBody) : M HttpResponse :=
  try_catch
    (if missing (pipelineName b) || missing (stageName b)
        || missing (actionName b) || missing (token b)
     then respond 400 [ ("error", JStr "Missing required approval parameters") ]
     else
       Service.approveAction
         {| Service.ar_pipelineName := text (pipelineName b);
            Service.ar_stageName := text (stageName b);
            Service.ar_actionName := text (actionName b);
            Service.ar_token := text (token b) |}
         (match approved b with JBool true => true | _ => false end)
         (Some (str_or (comments b) "")) ;;;
       respond 200
         [ ("message",
            JStr ("Action " ++ (if truthy (approved b) then "approved" else "rejected")
                            ++ " successfully")) ])
    (failure "Failed to process approval").

Record RetryBody : Type := {
  r_pipelineName : option string;
  r_stageName : option string;
  r_pipelineExecutionId : option string
}.

Definition retryStage (b : RetryBody) : M HttpResponse :=
  try_catch
    (if missing (r_pipelineName b) || missing (r_stageName b)
        || missing (r_pipelineExecutionId b)
     then respond 400 [ ("error", JStr "Missing required retry parameters") ]
     else
       Service.retryStageExecution
         {| Service.pipelineName := text (r_pipelineName b);
            Service.stageName := text (r_stageName b);
            Service.pipelineExecutionId := text (r_pipelineExecutionId b) |} ;;;
       respond 200 [ ("message", JStr "Stage retry initiated successfully") ])
    (failure "Failed to retry stage").

Definition triggerPipeline (pipelineName : option string) : M HttpResponse :=
  try_catch
    (if missing pipelineName
     then respond 400 [ ("error", JStr "Pipeline name is required") ]
     else executionId <- Service.startPipelineExecution (text pipelineName) ;;
          respond 200 [ ("message", JStr "Pipeline triggered successfully");
                        ("executionId", JStr executionId) ])
    (failure "Failed to trigger pipeline").

Definition stopPipelineExecution (pipelineName executionId reason : option string)
  : M HttpResponse :=
  try_catch
    (if missing pipelineName || missing executionId
     then respond 400 [ ("error", JStr "Pipeline name and execution ID are required") ]
     else Service.stopPipelineExecution (text pipelineName) (text executionId) reason ;;;
          respond 200 [ ("message", JStr "Pipeline execution stopped successfully") ])
    (failure "Failed to stop pipeline execution").

End Controller.

(** ** Configuration from the environment ([src/utils/env.ts], the
    constructor of [CodePipelineManager] in [src/types.ts]) *)

Module Config.
Import Json.





End Config.

(** ** The server ([src/index.ts]) *)

Module Server.
Import Json AWS Eff Tools Metrics.

(** *** The advertised tools *)

Record ToolSchema : Type := {
  name : string;
  description : string;
  properties : list (string * string);
  required : list string
}.

Definition listPipelinesSchema : ToolSchema :=
  {| name := "list_pipelines";
     description := "List all CodePipeline pipelines";
     properties := [];
     required := [] |}.

Definition getPipelineStateSchema : ToolSchema :=
  {| name := "get_pipeline_state";
     description := "Get the state of a specific pipeline";
     properties := [("pipelineName", "string")];
     required := ["pipelineName"] |}.

Definition listPipelineExecutionsSchema : ToolSchema :=
  {| name := "list_pipeline_executions";
     description := "List executions for a specific pipeline";
     properties := [("pipelineName", "string")];
     required := ["pipelineName"] |}.

Definition approveActionSchema : ToolSchema :=
  {| name := "approve_action";
     description := "Approve or reject a manual approval action";
     properties := [("pipelineName", "string"); ("stageName", "string");
                    ("actionName", "string"); ("token", "string");
                    ("approved", "boolean"); ("comments", "string")];
     required := ["pipelineName"; "stageName"; "actionName"; "token"; "approved"] |}.

Definition retryStageSchema : ToolSchema :=
  {| name := "retry_stage";
     description := "Retry a failed stage";
     properties := [("pipelineName", "string"); ("stageName", "string");
                    ("pipelineExecutionId", "string")];
     required := ["pipelineName"; "stageName"; "pipelineExecutionId"] |}.

Definition triggerPipelineSchema : ToolSchema :=
  {| name := "trigger_pipeline";
     description := "Trigger a pipeline execution";
     properties := [("pipelineName", "string")];
     required := ["pipelineName"] |}.

Definition getPipelineExecutionLogsSchema : ToolSchema :=
  {| name := "get_pipeline_execution_logs";
     description := "Get logs for a pipeline execution";
     properties := [("pipelineName", "string"); ("executionId", "string")];
     required := ["pipelineName"; "executionId"] |}.

Definition stopPipelineExecutionSchema : ToolSchema :=
  {| name := "stop_pipeline_execution";
     description := "Stop a pipeline execution";
     properties := [("pipelineName", "string"); ("executionId", "string");
                    ("reason", "string")];
     required := ["pipelineName"; "executionId"] |}.

Definition getPipelineDetailsSchema : ToolSchema :=
  {| name := "get_pipeline_details";
     description := "Get the full definition of a specific pipeline";
     properties := [("pipelineName", "string")];
     required := ["pipelineName"] |}.

Definition tagPipelineResourceSchema : ToolSchema :=
  {| name := "tag_pipeline_resource";
     description := "Add or update tags for a pipeline resource";
     properties := [("pipelineName", "string"); ("tags", "array")];
     required := ["pipelineName"; "tags"] |}.

Definition createPipelineWebhookSchema : ToolSchema :=
  {| name := "create_pipeline_webhook";
     description := "Create a webhook for a pipeline to enable automatic triggering";
     properties := [("pipelineName", "string"); ("webhookName", "string");
                    ("targetAction", "string"); ("authentication", "string");
                    ("authenticationConfiguration", "object"); ("filters", "array")];
     required := ["pipelineName"; "webhookName"; "targetAction"; "authentication"] |}.

Definition getPipelineMetricsSchema : ToolSchema :=
  {| name := "get_pipeline_metrics";
     description := "Get performance metrics for a pipeline";
     properties := [("pipelineName", "string"); ("period", "number");
                    ("startTime", "string"); ("endTime", "string")];
     required := ["pipelineName"] |}.

(** The answer to a [ListToolsRequest]. *)
Definition tools : list ToolSchema :=
  [ listPipelinesSchema;
    getPipelineStateSchema;
    listPipelineExecutionsSchema;
    approveActionSchema;
    retryStageSchema;
    triggerPipelineSchema;
    getPipelineExecutionLogsSchema;
    stopPipelineExecutionSchema;
    getPipelineDetailsSchema;
    tagPipelineResourceSchema;
    createPipelineWebhookSchema;
    getPipelineMetricsSchema ].

(** *** The tool call handler *)

(** The cases of the [switch (name)]. *)
Inductive Case : Type :=
| list_pipelines | get_pipeline_state | list_pipeline_executions
| approve_action | retry_stage | trigger_pipeline
| get_pipeline_execution_logs | stop_pipeline_execution
| get_pipeline_details | tag_pipeline_resource
| create_pipeline_webhook | get_pipeline_metrics.

Definition case_of (name : string) : option Case :=
  if String.eqb name "list_pipelines" then Some list_pipelines
  else if String.eqb name "get_pipeline_state" then Some get_pipeline_state
  else if String.eqb name "list_pipeline_executions" then Some list_pipeline_executions
  else if String.eqb name "approve_action" then Some approve_action
  else if String.eqb name "retry_stage" then Some retry_stage
  else if String.eqb name "trigger_pipeline" then Some trigger_pipeline
  else if String.eqb name "get_pipeline_execution_logs" then Some get_pipeline_execution_logs
  else if String.eqb name "stop_pipeline_execution" then Some stop_pipeline_execution
  else if String.eqb name "get_pipeline_details" then Some get_pipeline_details
  else if String.eqb name "tag_pipeline_resource" then Some tag_pipeline_resource
  else if String.eqb name "create_pipeline_webhook" then Some create_pipeline_webhook
  else if String.eqb name "get_pipeline_metrics" then Some get_pipeline_metrics
  else None.

(** [Record<string, any>], possibly absent. *)
Definition Arguments : Type := option (list (string * jsval)).

(** The type each case casts the argument bag to ([input as { ... }]);
    the bag is left as it is where no cast is made. *)
Definition InputOf (c : option Case) : Type :=
  match c with
  | Some get_pipeline_state | Some list_pipeline_executions
  | Some trigger_pipeline | Some get_pipeline_details => PipelineNameInput.t
  | Some approve_action => ApproveInput.t
  | Some retry_stage => RetryInput.t
  | Some get_pipeline_execution_logs => ExecutionInput.t
  | Some stop_pipeline_execution => StopInput.t
  | Some tag_pipeline_resource => TagInput.t
  | Some create_pipeline_webhook => WebhookInput.t
  | Some get_pipeline_metrics => MetricsInput.t
  | Some list_pipelines | None => Arguments
  end.

(** [request.params] of a [CallToolRequest]. *)
Record CallToolParams : Type := {
  p_name : string;
  p_arguments : InputOf (case_of p_name)
}.

Definition switch (c : option Case) (name : string) : InputOf c -> M Envelope :=
  match c with
  | Some list_pipelines => fun _ => listPipelines
  | Some get_pipeline_state => fun input => getPipelineState input
  | Some list_pipeline_executions => fun input => listPipelineExecutions input
  | Some approve_action => fun input => approveAction input
  | Some retry_stage => fun input => retryStage input
  | Some trigger_pipeline => fun input => triggerPipeline input
  | Some get_pipeline_execution_logs => fun input => getPipelineExecutionLogs input
  | Some stop_pipeline_execution => fun input => stopPipelineExecution input
  | Some get_pipeline_details => fun input => getPipelineDetails input
  | Some tag_pipeline_resource => fun input => tagPipelineResource input
  | Some create_pipeline_webhook => fun input => createPipelineWebhook input
  | Some get_pipeline_metrics => fun input => getPipelineMetrics input
  | None => fun _ => throw (McpError InvalidRequest ("Unknown tool: " ++ name))
  end.

Definition CallToolRequestHandler (params : CallToolParams) : M Envelope :=
  try_catch
    (switch (case_of (p_name params)) (p_name params) (p_arguments params))
    (fun error =>
       match error with
       | McpError _ _ => throw error
       | JsError e =>
           throw (McpError InternalError
                           ("Tool execution failed: " ++ Error_toString e))
       end).

(** *** The operation table, as the specification describes it

    [bound params handler]: the name of [params] is registered and
    [handler] is that name's handler applied to the arguments. *)
Inductive bound : CallToolParams -> M Envelope -> Prop :=
| bound_list_pipelines args :
    bound {| p_name := "list_pipelines"; p_arguments := args |} listPipelines
| bound_get_pipeline_state input :
    bound {| p_name := "get_pipeline_state"; p_arguments := input |}
          (getPipelineState input)
| bound_list_pipeline_executions input :
    bound {| p_name := "list_pipeline_executions"; p_arguments := input |}
          (listPipelineExecutions input)
| bound_approve_action input :
    bound {| p_name := "approve_action"; p_arguments := input |}
          (approveAction input)
| bound_retry_stage input :
    bound {| p_name := "retry_stage"; p_arguments := input |} (retryStage input)
| bound_trigger_pipeline input :
    bound {| p_name := "trigger_pipeline"; p_arguments := input |}
          (triggerPipeline input)
| bound_get_pipeline_execution_logs input :
    bound {| p_name := "get_pipeline_execution_logs"; p_arguments := input |}
          (getPipelineExecutionLogs input)
| bound_stop_pipeline_execution input :
    bound {| p_name := "stop_pipeline_execution"; p_arguments := input |}
          (stopPipelineExecution input)
| bound_get_pipeline_details input :
    bound {| p_name := "get_pipeline_details"; p_arguments := input |}
          (getPipelineDetails input)
| bound_tag_pipeline_resource input :
    bound {| p_name := "tag_pipeline_resource"; p_arguments := input |}
          (tagPipelineResource input)
| bound_create_pipeline_webhook input :
    bound {| p_name := "create_pipeline_webhook"; p_arguments := input |}
          (createPipelineWebhook input)
| bound_get_pipeline_metrics input :
    bound {| p_name := "get_pipeline_metrics"; p_arguments := input |}
          (getPipelineMetrics input).

Definition registered (name : string) : Prop := In name (map Server.name tools).

End Server.

(** ** Specification-side definitions *)

Module Spec.
Import Json AWS Eff Tools Metrics.

(** The success rate as the specification words it: zero executions give
    ["0.00%"], otherwise [successCount / (successCount + failureCount) *
    100] with two decimals and a percent sign. *)
Definition successRate (successCount failureCount : number) : string :=
  let total := Num.add successCount failureCount in
  if SFeqb total Num.zero then "0.00%"
  else Num.toFixed (Num.mul (Num.div successCount total) hundred) 2 ++ "%".

(** What a data point adds to a count: its [Sum] statistic, and nothing
    when that is missing, zero or not a number. *)
Definition Sum_statistic (point : Datapoint) : number :=
  match dp_Sum point with
  | Some (S754_finite s m e) => S754_finite s m e
  | Some (S754_infinity s) => S754_infinity s
  | _ => Num.zero
  end.

(** The [Sum] statistics of the data points added to [total], in the
    order received. *)
Fixpoint add_up (total : number) (datapoints : list Datapoint) : number :=
  match datapoints with
  | [] => total
  | point :: rest => add_up (Num.add total (Sum_statistic point)) rest
  end.

(** The sum of the [Sum] statistics of a metric's data points; an answer
    without data points, or a sum that is not a number, counts as zero. *)
Definition count_of (metric : GetMetricStatisticsOutput) : number :=
  match gms_Datapoints metric with
  | Some datapoints =>
      match add_up Num.zero datapoints with
      | S754_nan | S754_zero _ => Num.zero
      | total => total
      end
  | None => Num.zero
  end.

(** The success rate as amended: the formula when the total is greater
    than zero, ["0.00%"] whenever it is not. *)
Definition rate (successCount failureCount : number) : string :=
  let total := Num.add successCount failureCount in
  if Num.gtb total Num.zero
  then Num.toFixed (Num.mul (Num.div successCount total) hundred) 2 ++ "%"
  else "0.00%".

(** [+0], a positive finite double, or [+Infinity]. *)
Definition is_count (x : number) : bool :=
  match x with
  | S754_zero false | S754_finite false _ _ | S754_infinity false => true
  | _ => false
  end.

(** A number that can be a count: not [NaN] and not below zero. *)
Definition nonneg (x : number) : Prop := SFleb Num.zero x = true.

Definition counts (metric : GetMetricStatisticsOutput) : Prop :=
  forall datapoints point v,
    gms_Datapoints metric = Some datapoints ->
    In point datapoints -> dp_Sum point = Some v -> nonneg v.

(** The details lookup carries no ARN. *)
Definition no_arn (response : GetPipelineOutput) : Prop :=
  via (gp_metadata response) pm_pipelineArn = None
  \/ via (gp_metadata response) pm_pipelineArn = Some "".

Definition is_tag_call (r : Request) : bool :=
  match r with
  | Req (TagResource _ _) => true
  | _ => false
  end.

(** What the dispatcher makes of a handler's outcome. *)
Definition relayed (handled : Result Envelope * State)
           (outcome : Result Envelope * State) : Prop :=
  match handled with
  | (Ok envelope, st) => outcome = (Ok envelope, st)
  | (Throw (JsError e), st) =>
      outcome = (Throw (McpError InternalError
                                 ("Tool execution failed: " ++ Error_toString e)), st)
  | (Throw (McpError code message), st) =>
      outcome = (Throw (McpError code message), st)
  end.

(** *** Shapes of reported values *)

#[local] Unset Elimination Schemes.
Inductive shape : Type :=
| SStr                                   (* a string *)
| SNum                                   (* a number *)
| SBool                                  (* a boolean *)
| SDef                                   (* anything but [undefined] *)
| SAny                                   (* anything, [undefined] included *)
| SOpt (s : shape)                       (* [undefined], or of shape [s] *)
| SArr (s : shape)                       (* an array of [s] *)
| SObj (fields : list (string * shape)). (* exactly these properties *)
#[local] Set Elimination Schemes.

Fixpoint conforms (s : shape) (v : jsval) {struct s} : bool :=
  match s with
  | SStr => match v with JStr _ => true | _ => false end
  | SNum => match v with JNum _ => true | _ => false end
  | SBool => match v with JBool _ => true | _ => false end
  | SDef => negb (is_undefined v)
  | SAny => true
  | SOpt s' => is_undefined v || conforms s' v
  | SArr s' => match v with JArr items => forallb (conforms s') items | _ => false end
  | SObj fields =>
      match v with
      | JObj props =>
          (fix all (fs : list (string * shape)) (ps : list (string * jsval)) : bool :=
             match fs, ps with
             | [], [] => true
             | (k, s') :: fs', (k', x) :: ps' =>
                 String.eqb k k' && conforms s' x && all fs' ps'
             | _, _ => false
             end) fields props
      | _ => false
      end
  end.

(** No property anywhere in the value is left [undefined]. *)
Fixpoint complete (v : jsval) : bool :=
  match v with
  | JUndefined => false
  | JArr items =>
      (fix all (l : list jsval) : bool :=
         match l with [] => true | x :: rest => complete x && all rest end) items
  | JObj props =>
      (fix all (l : list (string * jsval)) : bool :=
         match l with [] => true | (_, x) :: rest => complete x && all rest end) props
  | _ => true
  end.

Definition pipelines_shape : shape :=
  SObj [ ("pipelines",
          SArr (SObj [ ("name", SStr); ("version", SNum);
                       ("created", SStr); ("updated", SStr) ])) ].

Definition executions_shape : shape :=
  SObj [ ("executions",
          SArr (SObj [ ("pipelineExecutionId", SStr); ("status", SStr);
                       ("startTime", SStr); ("lastUpdateTime", SStr);
                       ("sourceRevisions",
                        SArr (SObj [ ("name", SStr); ("revisionId", SStr);
                                     ("revisionUrl", SStr);
                                     ("revisionSummary", SStr) ])) ])) ].

Definition action_execution_shape : shape :=
  SObj [ ("status", SStr); ("summary", SOpt SStr); ("lastStatusChange", SDef);
         ("token", SOpt SStr); ("externalExecutionId", SOpt SStr);
         ("externalExecutionUrl", SOpt SStr);
         ("errorDetails", SOpt (SObj [ ("code", SStr); ("message", SStr) ])) ].

Definition action_shape : shape :=
  SObj [ ("actionName", SStr);
         ("currentRevision",
          SOpt (SObj [ ("revisionId", SStr); ("revisionChangeId", SStr);
                       ("created", SDef) ]));
         ("latestExecution", SOpt action_execution_shape);
         ("entityUrl", SOpt SStr) ].

Definition stage_shape : shape :=
  SObj [ ("stageName", SStr);
         ("inboundTransitionState",
          SOpt (SObj [ ("enabled", SBool); ("lastChangedBy", SOpt SStr);
                       ("lastChangedAt", SAny); ("disabledReason", SOpt SStr) ]));
         ("actionStates", SArr action_shape);
         ("latestExecution",
          SOpt (SObj [ ("pipelineExecutionId", SStr); ("status", SStr) ])) ].

Definition pipelineState_shape : shape :=
  SObj [ ("pipelineState",
          SObj [ ("pipelineName", SStr); ("pipelineVersion", SNum);
                 ("stageStates", SArr stage_shape);
                 ("created", SStr); ("updated", SStr) ]) ].

Definition action_declaration_shape : shape :=
  SObj [ ("name", SOpt SStr); ("actionTypeId", SAny);
         ("runOrder", SOpt SNum); ("configuration", SAny);
         ("outputArtifacts", SAny); ("inputArtifacts", SAny);
         ("region", SOpt SStr); ("namespace", SOpt SStr) ].

Definition stage_declaration_shape : shape :=
  SObj [ ("name", SOpt SStr);
         ("actions", SOpt (SArr action_declaration_shape)) ].

Definition pipelineDetails_shape : shape :=
  SObj [ ("pipeline",
          SObj [ ("name", SStr); ("roleArn", SStr); ("artifactStore", SAny);
                 ("stages", SOpt (SArr stage_declaration_shape));
                 ("version", SNum);
                 ("metadata", SObj [ ("created", SStr); ("updated", SStr);
                                     ("pipelineArn", SStr) ]) ]) ].

(** A shape that leaves nothing optional. *)
Fixpoint strict (s : shape) : bool :=
  match s with
  | SDef | SAny | SOpt _ => false
  | SArr s' => strict s'
  | SObj fields =>
      (fix all (fs : list (string * shape)) : bool :=
         match fs with [] => true | (_, s') :: fs' => strict s' && all fs' end) fields
  | _ => true
  end.

(** *** The read projections, field by field

    What each reported field holds, in terms of the remote's answer. *)

(** A text that is defaulted: the remote's, or the empty string. *)
Definition or_empty (o : option string) : jsval :=
  JStr (match o with Some s => s | None => "" end).

(** A number that is defaulted: the remote's, or zero when the remote gives
    none or gives what is not a number. *)
Definition or_zero (o : option number) : jsval :=
  JNum (match o with
        | Some (S754_finite s m e) => S754_finite s m e
        | Some (S754_infinity s) => S754_infinity s
        | _ => Num.zero
        end).

(** A time that is defaulted: the text of the remote's date, or the empty
    string. (A date that is no date has no text: the call fails on it.) *)
Definition time_or_empty (o : option Date) : jsval :=
  JStr (match o with Some (Some t) => JsDate.iso_string t | _ => "" end).

(** A sequence that is defaulted: the remote's elements, each projected, or
    the empty sequence. *)
Definition each {A} (project : A -> jsval) (o : option (list A)) : jsval :=
  JArr (match o with Some l => map project l | None => [] end).

(** Fields that are handed through: absent when the remote omits them. *)
Definition kept (o : option string) : jsval :=
  match o with Some s => JStr s | None => JUndefined end.
Definition kept_number (o : option number) : jsval :=
  match o with Some n => JNum n | None => JUndefined end.
Definition kept_date (o : option Date) : jsval :=
  match o with Some d => JDate d | None => JUndefined end.
Definition kept_each {A} (project : A -> jsval) (o : option (list A)) : jsval :=
  match o with Some l => JArr (map project l) | None => JUndefined end.

(** A field of an object that may itself be absent. *)
Definition inside {A B} (o : option A) (f : A -> option B) : option B :=
  match o with Some a => f a | None => None end.

Definition pipeline_entry (p : PipelineSummary) : jsval :=
  JObj [ ("name", or_empty (ps_name p));
         ("version", or_zero (ps_version p));
         ("created", time_or_empty (ps_created p));
         ("updated", time_or_empty (ps_updated p)) ].

Definition pipelines_of (response : ListPipelinesOutput) : list (string * jsval) :=
  [ ("pipelines", each pipeline_entry (lpo_pipelines response)) ].

Definition revision_entry (r : SourceRevision) : jsval :=
  JObj [ ("name", or_empty (sr_actionName r));
         ("revisionId", or_empty (sr_revisionId r));
         ("revisionUrl", or_empty (sr_revisionUrl r));
         ("revisionSummary", or_empty (sr_revisionSummary r)) ].

Definition execution_entry (e : PipelineExecutionSummary) : jsval :=
  JObj [ ("pipelineExecutionId", or_empty (pes_pipelineExecutionId e));
         ("status", or_empty (pes_status e));
         ("startTime", time_or_empty (pes_startTime e));
         ("lastUpdateTime", time_or_empty (pes_lastUpdateTime e));
         ("sourceRevisions", each revision_entry (pes_sourceRevisions e)) ].

Definition executions_of (response : ListPipelineExecutionsOutput)
  : list (string * jsval) :=
  [ ("executions", each execution_entry (lpe_pipelineExecutionSummaries response)) ].

(** In the details, only the pipeline's name, role, version and metadata
    are defaulted; the artifact store, the stages and all that a stage
    holds are handed through. *)
Definition action_declaration_entry (action : ActionDeclaration) : jsval :=
  JObj [ ("name", kept (ad_name action));
         ("actionTypeId", ad_actionTypeId action);
         ("runOrder", kept_number (ad_runOrder action));
         ("configuration", ad_configuration action);
         ("outputArtifacts", ad_outputArtifacts action);
         ("inputArtifacts", ad_inputArtifacts action);
         ("region", kept (ad_region action));
         ("namespace", kept (ad_namespace action)) ].

Definition stage_declaration_entry (stage : StageDeclaration) : jsval :=
  JObj [ ("name", kept (sd_name stage));
         ("actions", kept_each action_declaration_entry (sd_actions stage)) ].

Definition details_of (response : GetPipelineOutput) : list (string * jsval) :=
  let pipeline := gp_pipeline response in
  let metadata := gp_metadata response in
  [ ("pipeline",
     JObj [ ("name", or_empty (inside pipeline pd_name));
            ("roleArn", or_empty (inside pipeline pd_roleArn));
            ("artifactStore",
             match pipeline with Some p => pd_artifactStore p | None => JUndefined end);
            ("stages", kept_each stage_declaration_entry (inside pipeline pd_stages));
            ("version", or_zero (inside pipeline pd_version));
            ("metadata",
             JObj [ ("created", time_or_empty (inside metadata pm_created));
                    ("updated", time_or_empty (inside metadata pm_updated));
                    ("pipelineArn", or_empty (inside metadata pm_pipelineArn)) ]) ]) ].

(** A time the state handler fills in: the remote's date as it is, or,
    when the remote gives none, the text of a reading of the clock. *)
Definition time_or_now (env : Env) (o : option Date) (v : jsval) : Prop :=
  match o with
  | Some d => v = JDate d
  | None => exists n, v = JStr (JsDate.iso_string (clock env n))
  end.

(** A sub-object that is handed through: absent when the remote omits it. *)
Definition when_present {A} (R : A -> jsval -> Prop) (o : option A) (v : jsval) : Prop :=
  match o with
  | Some a => R a v
  | None => v = JUndefined
  end.

Definition revision_of (env : Env) (r : ActionRevision) (v : jsval) : Prop :=
  exists created,
    time_or_now env (ar_created r) created
    /\ v = JObj [ ("revisionId", or_empty (ar_revisionId r));
                  ("revisionChangeId", or_empty (ar_revisionChangeId r));
                  ("created", created) ].

Definition action_execution_of (env : Env) (e : ActionExecution) (v : jsval) : Prop :=
  exists lastStatusChange,
    time_or_now env (ae_lastStatusChange e) lastStatusChange
    /\ v = JObj [ ("status", or_empty (ae_status e));
                  ("summary", kept (ae_summary e));
                  ("lastStatusChange", lastStatusChange);
                  ("token", kept (ae_token e));
                  ("externalExecutionId", kept (ae_externalExecutionId e));
                  ("externalExecutionUrl", kept (ae_externalExecutionUrl e));
                  ("errorDetails",
                   match ae_errorDetails e with
                   | Some d => JObj [ ("code", or_empty (ed_code d));
                                      ("message", or_empty (ed_message d)) ]
                   | None => JUndefined
                   end) ].

Definition action_of (env : Env) (action : ActionState) (v : jsval) : Prop :=
  exists currentRevision latestExecution,
    when_present (revision_of env) (as_currentRevision action) currentRevision
    /\ when_present (action_execution_of env) (as_latestExecution action) latestExecution
    /\ v = JObj [ ("actionName", or_empty (as_actionName action));
                  ("currentRevision", currentRevision);
                  ("latestExecution", latestExecution);
                  ("entityUrl", kept (as_entityUrl action)) ].

Definition stage_of (env : Env) (stage : StageState) (v : jsval) : Prop :=
  exists actionStates,
    Forall2 (action_of env)
            (match ss_actionStates stage with Some l => l | None => [] end) actionStates
    /\ v = JObj [ ("stageName", or_empty (ss_stageName stage));
                  ("inboundTransitionState",
                   match ss_inboundTransitionState stage with
                   | Some s =>
                       JObj [ ("enabled",
                               JBool (match ts_enabled s with Some b => b | None => false end));
                              ("lastChangedBy", kept (ts_lastChangedBy s));
                              ("lastChangedAt", kept_date (ts_lastChangedAt s));
                              ("disabledReason", kept (ts_disabledReason s)) ]
                   | None => JUndefined
                   end);
                  ("actionStates", JArr actionStates);
                  ("latestExecution",
                   match ss_latestExecution stage with
                   | Some e =>
                       JObj [ ("pipelineExecutionId",
                               or_empty (se_pipelineExecutionId e));
                              ("status", or_empty (se_status e)) ]
                   | None => JUndefined
                   end) ].

Definition state_of (env : Env) (response : GetPipelineStateOutput)
           (payload : list (string * jsval)) : Prop :=
  exists stageStates,
    Forall2 (stage_of env)
            (match gps_stageStates response with Some l => l | None => [] end) stageStates
    /\ payload
       = [ ("pipelineState",
            JObj [ ("pipelineName", or_empty (gps_pipelineName response));
                   ("pipelineVersion", or_zero (gps_pipelineVersion response));
                   ("stageStates", JArr stageStates);
                   ("created", time_or_empty (gps_created response));
                   ("updated", time_or_empty (gps_updated response)) ]) ].

(** The object a payload run reports, [undefined] when the run fails. *)
Definition reported (outcome : Result (list (string * jsval)) * State) : jsval :=
  match fst outcome with
  | Ok payload => JObj payload
  | Throw _ => JUndefined
  end.

Definition succeeded {A} (outcome : Result A * State) : bool :=
  match fst outcome with Ok _ => true | Throw _ => false end.

(** The text of the envelope a handler run returns. *)
Definition text_of (outcome : Result Envelope * State) : string :=
  match fst outcome with
  | Ok {| content := [ item ] |} => c_text item
  | _ => ""
  end.

(** One line [indent "key": value] of pretty-printed JSON. *)
Definition line (indent key value : string) : string :=
  indent ++ quote key ++ ": " ++ value.

(** The executionTime block of the metrics text when the execution-time
    query answered with an empty list of data points. *)
Definition empty_executionTime_text : string :=
  line "  " "executionTime" "{" ++ newline
  ++ line "    " "average" "0" ++ "," ++ newline
  ++ line "    " "minimum" "null" ++ "," ++ newline
  ++ line "    " "maximum" "null" ++ "," ++ newline
  ++ line "    " "dataPoints" "[]" ++ newline
  ++ "  }".

(** [sub] occurs in [text]. *)
Definition occurs (sub text : string) : Prop :=
  exists before after, text = before ++ sub ++ after.

Fixpoint contains (sub text : string) : bool :=
  String.prefix sub text
  || match text with
     | EmptyString => false
     | String _ rest => contains sub rest
     end.

End Spec.

(** ** Concrete worlds and requests *)

Module Examples.
Import Json AWS Eff Tools Metrics Server.

Definition no_state : GetPipelineStateOutput :=
  {| gps_pipelineName := None; gps_pipelineVersion := None;
     gps_stageStates := None; gps_created := None; gps_updated := None |}.

Definition no_pipeline : GetPipelineOutput :=
  {| gp_pipeline := None; gp_metadata := None |}.

(** A remote service that answers from fixed responses. *)
Definition answer (state : GetPipelineStateOutput)
           (metric : string -> GetMetricStatisticsOutput)
           (pipeline : GetPipelineOutput) (webhook : PutWebhookOutput)
           (executions : ListPipelineExecutionsOutput)
  : forall R : Type, list Request -> Call R -> Error + R :=
  fun R _ c =>
    match c in Call R return Error + R with
    | ListPipelines => inr {| lpo_pipelines := None |}
    | GetPipelineState _ => inr state
    | ListPipelineExecutions _ _ => inr executions
    | PutApprovalResult _ _ _ _ _ _ => inr tt
    | RetryStageExecution _ _ _ _ => inr tt
    | StartPipelineExecution _ => inr {| spe_pipelineExecutionId := None |}
    | GetPipelineExecution _ _ => inr {| gpe_pipelineExecution := None |}
    | StopPipelineExecution _ _ _ _ => inr tt
    | GetPipeline _ => inr pipeline
    | TagResource _ _ => inr tt
    | PutWebhook _ => inr webhook
    | RegisterWebhookWithThirdParty _ => inr tt
    | GetMetricStatistics params => inr (metric (MetricName params))
    end.

Definition world (state : GetPipelineStateOutput)
           (metric : string -> GetMetricStatisticsOutput)
           (pipeline : GetPipelineOutput) (webhook : PutWebhookOutput)
           (executions : ListPipelineExecutionsOutput) : Env :=
  {| remote := answer state metric pipeline webhook executions;
     clock := fun n => 1700000000000 + Z.of_nat n;
     utc_of_local := fun t => t;
     legacy_parse := fun _ => None |}.

Definition no_metric : string -> GetMetricStatisticsOutput :=
  fun _ => {| gms_Datapoints := None |}.

Definition quiet : Env :=
  world no_state no_metric no_pipeline {| pwo_webhook := None |}
        {| lpe_pipelineExecutionSummaries := None |}.

(** [dispatch("nonexistent_op", {})] *)
Definition nonexistent_op : CallToolParams :=
  {| p_name := "nonexistent_op"; p_arguments := Some [] |}.

(** A pipeline whose details carry no metadata, hence no ARN. *)
Definition tag_missing : TagInput.t :=
  {| TagInput.pipelineName := "missing-pipeline";
     TagInput.tags := [ [ ("key", JStr "team"); ("value", JStr "release") ] ] |}.

(** A GITHUB_HMAC webhook with a secret token. *)
Definition hmac_webhook : WebhookInput.t :=
  {| WebhookInput.pipelineName := "deploy";
     WebhookInput.webhookName := "on-push";
     WebhookInput.targetAction := "Source";
     WebhookInput.authentication := "GITHUB_HMAC";
     WebhookInput.authenticationConfiguration :=
       Some {| SecretToken := Some "s3cret"; AllowedIpRange := None |};
     WebhookInput.filters := None |}.


(** A pipeline state with one stage and one action whose latest execution
    carries a status and nothing else. *)
Definition bare_action : ActionState :=
  {| as_actionName := Some "Build";
     as_currentRevision := None;
     as_latestExecution :=
       Some {| ae_status := Some "Succeeded"; ae_summary := None;
               ae_lastStatusChange := Some (Some 1700000000000);
               ae_token := None; ae_externalExecutionId := None;
               ae_externalExecutionUrl := None; ae_errorDetails := None |};
     as_entityUrl := None |}.

Definition bare_state : GetPipelineStateOutput :=
  {| gps_pipelineName := Some "deploy"; gps_pipelineVersion := Some (Num.of_Z 3);
     gps_stageStates :=
       Some [ {| ss_stageName := Some "Build"; ss_inboundTransitionState := None;
                 ss_actionStates := Some [ bare_action ];
                 ss_latestExecution := None |} ];
     gps_created := None; gps_updated := None |}.

Definition bare_world : Env :=
  world bare_state no_metric no_pipeline {| pwo_webhook := None |}
        {| lpe_pipelineExecutionSummaries := None |}.

Definition deploy : PipelineNameInput.t := {| PipelineNameInput.pipelineName := "deploy" |}.

(** Metrics: three successes and one failure in one bucket each, and an
    execution-time query that answers with no data point at all. *)
Definition bucket (sum : Z) : Datapoint :=
  {| dp_Timestamp := None; dp_Average := None; dp_Sum := Some (Num.of_Z sum);
     dp_Minimum := None; dp_Maximum := None |}.

Definition three_to_one : string -> GetMetricStatisticsOutput :=
  fun metricName =>
    if String.eqb metricName "SucceededPipeline"
    then {| gms_Datapoints := Some [ bucket 3 ] |}
    else if String.eqb metricName "FailedPipeline"
    then {| gms_Datapoints := Some [ bucket 1 ] |}
    else {| gms_Datapoints := Some [] |}.

Definition metrics_world : Env :=
  world no_state three_to_one no_pipeline {| pwo_webhook := None |}
        {| lpe_pipelineExecutionSummaries := None |}.

(** An ISO-8601 start time without milliseconds. *)
Definition january : MetricsInput.t :=
  {| MetricsInput.pipelineName := "deploy";
     MetricsInput.period := None;
     MetricsInput.startTime := Some "2024-01-01T00:00:00Z";
     MetricsInput.endTime := Some "2024-01-08T00:00:00Z" |}.

(** The same instants in the form [toISOString] prints. *)
Definition january_canonical : MetricsInput.t :=
  {| MetricsInput.pipelineName := "deploy";
     MetricsInput.period := None;
     MetricsInput.startTime := Some (JsDate.iso_string 1704067200000);
     MetricsInput.endTime := Some (JsDate.iso_string 1704672000000) |}.

End Examples.

(** ** Further specification-side definitions *)

Module Props.
Import Json AWS Eff Tools Metrics.

(** A computation that never throws an [McpError]. *)
Definition plain {A} (m : M A) : Prop :=
  forall env st code message st', m env st <> (Throw (McpError code message), st').

(** The value of [new Date(text)] in a world. *)
Definition date_value (env : Env) (s : string) : JsDate.Date :=
  match JsDate.parse_iso (utc_of_local env) s with
  | Some (Some t) => JsDate.TimeClip t
  | Some None => None
  | None => legacy_parse env s
  end.

(** An execution the metrics loop looks into. *)
Definition sampled (execution : PipelineExecutionSummary) : bool :=
  match pes_startTime execution, pes_status execution with
  | Some _, Some status => String.eqb status "Succeeded"
  | _, _ => false
  end.

(** The remote calls the metrics loop issues for one execution. *)
Definition execution_calls (pipelineName : string) (execution : PipelineExecutionSummary)
  : list Request :=
  if sampled execution
  then [ Req (GetPipelineExecution pipelineName
                (str_or (pes_pipelineExecutionId execution) ""));
         Req (GetPipelineState pipelineName) ]
  else [].

(** The three metric queries and the listing every metrics run starts with. *)
Definition opening_calls (pipelineName : string) (startTime endTime : Date)
           (period : number) : list Request :=
  [ Req (GetMetricStatistics
           (metric_request "SucceededPipeline" pipelineName startTime endTime period
                           ["Sum"; "Average"; "Maximum"]));
    Req (GetMetricStatistics
           (metric_request "FailedPipeline" pipelineName startTime endTime period
                           ["Sum"; "Average"; "Maximum"]));
    Req (GetMetricStatistics
           (metric_request "PipelineExecutionTime" pipelineName startTime endTime period
                           ["Average"; "Minimum"; "Maximum"]));
    Req (ListPipelineExecutions pipelineName (Some 20)) ].

(** A computation that leaves the log and the clock as they are. *)
Definition stateless {A} (m : M A) : Prop :=
  forall env st r st', m env st = (r, st') -> st' = st.

(** A computation that issues no remote call, whether it returns or throws. *)
Definition silent {A} (m : M A) : Prop :=
  forall env st r st', m env st = (r, st') -> calls st' = calls st.

(** A run from [st] to [st'] that issued exactly the call [c]. *)
Definition one_call (c : Request) (st st' : State) : Prop :=
  calls st' = (calls st ++ [c])%list.

(** The methods of the controller, on any request. *)
Inductive controller_method : M Controller.HttpResponse -> Prop :=
| cm_listPipelines : controller_method Controller.listPipelines
| cm_getPipelineState pipelineName :
    controller_method (Controller.getPipelineState pipelineName)
| cm_listPipelineExecutions pipelineName :
    controller_method (Controller.listPipelineExecutions pipelineName)
| cm_approveAction b : controller_method (Controller.approveAction b)
| cm_retryStage b : controller_method (Controller.retryStage b)
| cm_triggerPipeline pipelineName :
    controller_method (Controller.triggerPipeline pipelineName)
| cm_stopPipelineExecution pipelineName executionId reason :
    controller_method (Controller.stopPipelineExecution pipelineName executionId reason).

(** The dates of a pipeline summary are absent or valid. *)
Definition dated (pipeline : PipelineSummary) : bool :=
  match ps_created pipeline, ps_updated pipeline with
  | Some None, _ | _, Some None => false
  | _, _ => true
  end.



(** *** What the metrics report holds for the stages *)

(** What the loop takes from one stage state: the stage's name and its
    duration in seconds (from the earliest to the latest status change of
    its actions). A stage counts when its latest execution succeeded, it
    has a name, which is not one every object inherits, and one of its
    actions has a status change time. *)
Definition sighting (stage : StageState) : option (string * number) :=
  match via (ss_latestExecution stage) se_status, ss_stageName stage,
        ss_actionStates stage with
  | Some status, Some stageName, Some ((_ :: _) as actionStates) =>
      if String.eqb status "Succeeded" && str_truthy stageName
         && negb (existsb (String.eqb stageName) object_prototype_keys)
      then match scan_actions actionStates with
           | (Some earliestTime, Some latestTime) =>
               Some (stageName,
                     Num.div (Num.sub (getTime latestTime) (getTime earliestTime))
                             thousand)
           | _ => None
           end
      else None
  | _, _, _ => None
  end.

Definition sightings_of (state : GetPipelineStateOutput) : list (string * number) :=
  flat_map (fun stage => match sighting stage with Some s => [s] | None => [] end)
           (default (gps_stageStates state) []).

(** The pipeline states the remote answered with, in a run that issued
    [log] after [before]. *)
Fixpoint state_answers (env : Env) (before log : list Request)
  : list GetPipelineStateOutput :=
  match log with
  | [] => []
  | Req c :: rest =>
      (match c in Call R return Error + R -> list GetPipelineStateOutput with
       | GetPipelineState _ =>
           fun answer => match answer with inr state => [state] | inl _ => [] end
       | _ => fun _ => []
       end (remote env _ before c)
       ++ state_answers env (before ++ [Req c]) rest)%list
  end.

(** All sightings of a run, in the order the loop met them. *)
Definition sightings_in (env : Env) (before log : list Request)
  : list (string * number) :=
  flat_map sightings_of (state_answers env before log).

(** The names, each once, in the order of their first occurrence. *)
Definition distinct (names : list string) : list string :=
  fold_left (fun seen name => if existsb (String.eqb name) seen then seen
                              else (seen ++ [name])%list)
            names [].

(** How often a stage was sighted, and the sum of its durations. *)
Definition tally (name : string) (sightings : list (string * number))
  : number * number :=
  fold_left (fun t s => if String.eqb (fst s) name
                        then (Num.add (fst t) one, Num.add (snd t) (snd s))
                        else t)
            sightings (Num.zero, Num.zero).

Definition tallies (sightings : list (string * number))
  : list (string * (number * number)) :=
  map (fun name => (name, tally name sightings)) (distinct (map fst sightings)).

(** One entry of stagePerformance: the count of sightings and the mean
    duration. *)
Definition stage_entry (name : string) (t : number * number) : jsval :=
  JObj [ ("stageName", JStr name);
         ("averageDuration",
          JNum (if Num.gtb (fst t) Num.zero then Num.div (snd t) (fst t) else Num.zero));
         ("executionCount", JNum (fst t)) ].

(** One entry per stage sighted, in the order [Object.entries] gives. *)
Definition performance (sightings : list (string * number)) : list jsval :=
  map (fun e => stage_entry (fst e) (snd e)) (Object_entries (tallies sightings)).

(** A request that only reads from the remote. *)
Definition is_read (r : Request) : bool :=
  match r with
  | Req ListPipelines | Req (GetPipelineState _) | Req (ListPipelineExecutions _ _)
  | Req (GetPipelineExecution _ _) | Req (GetPipeline _)
  | Req (GetMetricStatistics _) => true
  | Req _ => false
  end.

(** A computation all of whose remote calls are reads, however it ends. *)
Definition reads {A} (m : M A) : Prop :=
  forall env st r st', m env st = (r, st') ->
    exists more, calls st' = (calls st ++ more)%list /\ forallb is_read more = true.

(** The tools that report and do not act. *)
Definition read_tools : list string :=
  [ "list_pipelines"; "get_pipeline_state"; "list_pipeline_executions";
    "get_pipeline_execution_logs"; "get_pipeline_details"; "get_pipeline_metrics" ].

(** The body [{ error: message }]. *)
Definition error_body (message : string) : jsval := JObj [ ("error", JStr message) ].

(** An envelope of exactly one text block. *)
Definition single_text (envelope : Envelope) : Prop :=
  exists text, envelope = {| content := [ {| c_type := "text"; c_text := text |} ] |}.

End Props.

(** ** Further concrete worlds *)

Module Worlds.
Import Json AWS Eff Tools Metrics Server.

Definition refused : Error :=
  {| err_name := "ThrottlingException"; err_message := "Rate exceeded" |}.

(** A remote that puts the webhook and refuses to register it. *)
Definition unlinked : Env :=
  {| remote := fun R history c =>
                 match c in Call R return Error + R with
                 | RegisterWebhookWithThirdParty _ => inl refused
                 | c' => Examples.answer Examples.no_state Examples.no_metric
                                         Examples.no_pipeline
                                         {| pwo_webhook := None |}
                                         {| lpe_pipelineExecutionSummaries := None |}
                                         _ history c'
                 end;
     clock := fun n => 1700000000000 + Z.of_nat n;
     utc_of_local := fun t => t;
     legacy_parse := fun _ => None |}.




Definition summary (id status : string) (started : bool) : PipelineExecutionSummary :=
  {| pes_pipelineExecutionId := Some id; pes_status := Some status;
     pes_startTime := if started then Some (Some 1700000000000) else None;
     pes_lastUpdateTime := None; pes_sourceRevisions := None |}.

Definition timed_action (name : string) (changed : Z) : ActionState :=
  {| as_actionName := Some name;
     as_currentRevision := None;
     as_latestExecution :=
       Some {| ae_status := Some "Succeeded"; ae_summary := None;
               ae_lastStatusChange := Some (Some changed);
               ae_token := None; ae_externalExecutionId := None;
               ae_externalExecutionUrl := None; ae_errorDetails := None |};
     as_entityUrl := None |}.

Definition timed_stage (name status : string) (actions : list ActionState) : StageState :=
  {| ss_stageName := Some name; ss_inboundTransitionState := None;
     ss_actionStates := Some actions;
     ss_latestExecution :=
       Some {| se_pipelineExecutionId := Some "e3"; se_status := Some status |} |}.

(** Three stages: a build of 90 seconds, a failed deployment, and a
    stage named "1" whose two actions changed at the same instant. *)
Definition timed_state : GetPipelineStateOutput :=
  {| gps_pipelineName := Some "deploy"; gps_pipelineVersion := Some (Num.of_Z 3);
     gps_stageStates :=
       Some [ timed_stage "Build" "Succeeded"
                          [ timed_action "Compile" 1700000000000;
                            timed_action "Test" 1700000090000 ];
              timed_stage "Deploy" "Failed" [ timed_action "Ship" 1700000100000 ];
              timed_stage "1" "Succeeded"
                          [ timed_action "a" 1700000200000;
                            timed_action "b" 1700000200000 ] ];
     gps_created := None; gps_updated := None |}.

(** One succeeded, one failed and one more succeeded execution. *)
Definition history_world : Env :=
  Examples.world timed_state Examples.three_to_one Examples.no_pipeline
                 {| pwo_webhook := None |}
                 {| lpe_pipelineExecutionSummaries :=
                      Some [ summary "e1" "Succeeded" true;
                             summary "e2" "Failed" true;
                             summary "e3" "Succeeded" true ] |}.


Definition bad_start : MetricsInput.t :=
  {| MetricsInput.pipelineName := "deploy";
     MetricsInput.period := None;
     MetricsInput.startTime := Some "2024-13-01";
     MetricsInput.endTime := None |}.

(** A remote whose success and failure queries answer with one data point
    per given sum, and whose execution-time query answers with none. *)
Definition sums (success failed : list Z) : string -> GetMetricStatisticsOutput :=
  fun metricName =>
    if String.eqb metricName "SucceededPipeline"
    then {| gms_Datapoints := Some (map Examples.bucket success) |}
    else if String.eqb metricName "FailedPipeline"
    then {| gms_Datapoints := Some (map Examples.bucket failed) |}
    else {| gms_Datapoints := Some [] |}.

Definition counted (success failed : list Z) : Env :=
  Examples.world Examples.no_state (sums success failed) Examples.no_pipeline
                 {| pwo_webhook := None |}
                 {| lpe_pipelineExecutionSummaries := None |}.

(** Two pipelines, the second with a creation date that is no date. *)
Definition two_pipelines : ListPipelinesOutput :=
  {| lpo_pipelines :=
       Some [ {| ps_name := Some "deploy"; ps_version := Some (Num.of_Z 3);
                 ps_created := Some (Some 1700000000000); ps_updated := None |};
              {| ps_name := None; ps_version := None;
                 ps_created := None; ps_updated := None |} ] |}.

Definition listing (pipelines : ListPipelinesOutput) : Env :=
  {| remote := fun R history c =>
                 match c in Call R return Error + R with
                 | ListPipelines => inr pipelines
                 | c' => Examples.answer Examples.no_state Examples.no_metric
                                         Examples.no_pipeline
                                         {| pwo_webhook := None |}
                                         {| lpe_pipelineExecutionSummaries := None |}
                                         _ history c'
                 end;
     clock := fun n => 1700000000000 + Z.of_nat n;
     utc_of_local := fun t => t;
     legacy_parse := fun _ => None |}.

Definition undated : ListPipelinesOutput :=
  {| lpo_pipelines :=
       Some [ {| ps_name := Some "deploy"; ps_version := None;
                 ps_created := Some None; ps_updated := None |} ] |}.

(** Two executions, the first with two source revisions. *)
Definition revision (id : string) : SourceRevision :=
  {| sr_actionName := Some "Source"; sr_revisionId := Some id;
     sr_revisionSummary := None;
     sr_revisionUrl := Some ("https://git.example/commit/" ++ id) |}.

Definition revised : Env :=
  Examples.world Examples.no_state Examples.no_metric Examples.no_pipeline
                 {| pwo_webhook := None |}
                 {| lpe_pipelineExecutionSummaries :=
                      Some [ {| pes_pipelineExecutionId := Some "e1";
                                pes_status := Some "Succeeded";
                                pes_startTime := None; pes_lastUpdateTime := None;
                                pes_sourceRevisions :=
                                  Some [ revision "a1"; revision "b2" ] |};
                             summary "e2" "Failed" true ] |}.

(** The elements of an array value. *)
Definition items_of (v : jsval) : list jsval :=
  match v with JArr l => l | _ => [] end.

(** An approval whose [approved] field is the string "true". *)
Definition stringly_approval : Controller.ApprovalBody :=
  {| Controller.pipelineName := Some "deploy";
     Controller.stageName := Some "Gate";
     Controller.actionName := Some "Approve";
     Controller.token := Some "tok";
     Controller.approved := JStr "true";
     Controller.comments := None |}.

End Worlds.
(** ** Reasoning about handler runs *)

Section Runs.
Import Eff.

Lemma bind_ok {A B} (m : M A) (k : A -> M B) env st b st' :
  bind m k env st = (Ok b, st') ->
  exists a st1, m env st = (Ok a, st1) /\ k a env st1 = (Ok b, st').
Proof.
  unfold bind. destruct (m env st) as [[a | x] st1]; intros H.
  - exists a, st1. split; [reflexivity | exact H].
  - discriminate H.
Qed.

Lemma ret_ok {A} (a b : A) env st st' :
  ret a env st = (Ok b, st') -> a = b /\ st = st'.
Proof. unfold ret. intros H. inversion H. split; reflexivity. Qed.

Lemma sdk_ok {R} (c : AWS.Call R) env st r st' :
  sdk c env st = (Ok r, st') ->
  remote env R (calls st) c = inr r
  /\ st' = {| calls := (calls st ++ [AWS.Req c])%list; ticks := ticks st |}.
Proof.
  unfold sdk. destruct (remote env R (calls st) c) as [e | r0]; intros H.
  - discriminate H.
  - inversion H. split; reflexivity.
Qed.

Lemma mapM_ok {A B} (f : A -> M B) (P : B -> Prop) :
  (forall x env st y st', f x env st = (Ok y, st') -> P y) ->
  forall xs env st ys st',
    mapM f xs env st = (Ok ys, st') -> Forall P ys.
Proof.
  intros Hf xs. induction xs as [| x rest IH]; simpl; intros env st ys st' H.
  - apply ret_ok in H. destruct H as [<- _]. constructor.
  - apply bind_ok in H. destruct H as (y & st1 & Hy & H).
    apply bind_ok in H. destruct H as (ys' & st2 & Hys & H).
    apply ret_ok in H. destruct H as [<- _].
    constructor; [eapply Hf; eassumption | eapply IH; eassumption].
Qed.

End Runs.


(** ** Dates: printing, then parsing *)

Section Calendar.
Import JsDate.

Lemma YearFromDay_spec (d : Z) :
  DayFromYear (YearFromDay d) <= d < DayFromYear (YearFromDay d + 1).
Proof.
  unfold YearFromDay.
  destruct (Z.ltb_spec d (DayFromYear (1970 + 400 * d / 146097))) as [H1 | H1].
  - unfold DayFromYear in *. Z.div_mod_to_equations. lia.
  - destruct (Z.leb_spec (DayFromYear (1970 + 400 * d / 146097 + 1)) d) as [H2 | H2].
    + unfold DayFromYear in *. Z.div_mod_to_equations. lia.
    + lia.
Qed.

Lemma leap_range (y : Z) : leap y = 0 \/ leap y = 1.
Proof.
  unfold leap, DaysInYear, DayFromYear. Z.div_mod_to_equations. lia.
Qed.

Lemma month_spec (doy l : Z) :
  0 <= doy < 365 + l -> l = 0 \/ l = 1 ->
  let m := MonthFromDayWithinYear doy l in
  0 <= m <= 11 /\ 1 <= doy - DaysBeforeMonth m l + 1 <= 31.
Proof.
  intros Hdoy Hl. cbv zeta. unfold MonthFromDayWithinYear.
  repeat match goal with
         | |- context [if ?a <? ?b then _ else _] =>
             destruct (Z.ltb_spec a b); [unfold DaysBeforeMonth; lia |]
         end.
  unfold DaysBeforeMonth. lia.
Qed.

Lemma year_range (d : Z) :
  -100000000 <= d <= 100000000 -> -271821 <= YearFromDay d <= 275760.
Proof.
  intros Hd. pose proof (YearFromDay_spec d) as H.
  unfold DayFromYear in H. Z.div_mod_to_equations. lia.
Qed.

(** *** Fixed-width digits *)

Lemma digit_val_digit (d : Z) :
  0 <= d <= 9 -> Digits.digit_val (Digits.digit d) = Some d.
Proof.
  intros H.
  assert (d = 0 \/ d = 1 \/ d = 2 \/ d = 3 \/ d = 4 \/ d = 5 \/ d = 6 \/ d = 7
          \/ d = 8 \/ d = 9) as Hd by lia.
  repeat (destruct Hd as [-> | Hd]; [reflexivity |]). subst d. reflexivity.
Qed.

Lemma digit_not_sign (d : Z) :
  0 <= d <= 9 ->
  Ascii.eqb (Digits.digit d) "+" = false /\ Ascii.eqb (Digits.digit d) "-" = false.
Proof.
  intros H.
  assert (d = 0 \/ d = 1 \/ d = 2 \/ d = 3 \/ d = 4 \/ d = 5 \/ d = 6 \/ d = 7
          \/ d = 8 \/ d = 9) as Hd by lia.
  repeat (destruct Hd as [-> | Hd]; [split; reflexivity |]). subst d. split; reflexivity.
Qed.

Lemma append_assoc (a b c : string) : (a ++ b) ++ c = a ++ (b ++ c).
Proof. induction a as [| x a IH]; simpl; [reflexivity | rewrite IH; reflexivity]. Qed.

Lemma take_snoc (k : nat) :
  forall acc s,
    Digits.take (S k) acc s =
    match Digits.take k acc s with
    | Some (v, r) => Digits.take 1 v r
    | None => None
    end.
Proof.
  induction k as [| k IH]; intros acc s.
  - reflexivity.
  - change (Digits.take (S (S k)) acc s)
      with (match s with
            | String c rest =>
                match Digits.digit_val c with
                | Some d => Digits.take (S k) (10 * acc + d) rest
                | None => None
                end
            | EmptyString => None
            end).
    destruct s as [| c rest]; [reflexivity |].
    destruct (Digits.digit_val c) as [d |] eqn:Hd.
    + rewrite IH. simpl. rewrite Hd. reflexivity.
    + simpl. rewrite Hd. reflexivity.
Qed.

Lemma take_pad (k : nat) :
  forall n acc rest,
    0 <= n < 10 ^ Z.of_nat k ->
    Digits.take k acc (Digits.pad k n ++ rest) = Some (acc * 10 ^ Z.of_nat k + n, rest).
Proof.
  induction k as [| k IH]; intros n acc rest Hn.
  - change (10 ^ Z.of_nat 0) with 1 in *. cbn [Digits.take Digits.pad append].
    f_equal. f_equal. lia.
  - assert (Hpow : 10 ^ Z.of_nat (S k) = 10 * 10 ^ Z.of_nat k)
      by (rewrite Nat2Z.inj_succ, Z.pow_succ_r; lia).
    rewrite Hpow in *. clear Hpow.
    assert (Hq : 0 <= n / 10 < 10 ^ Z.of_nat k) by (Z.div_mod_to_equations; lia).
    assert (Hr : 0 <= n mod 10 <= 9) by (Z.div_mod_to_equations; lia).
    rewrite take_snoc.
    change (Digits.pad (S k) n)
      with (Digits.pad k (n / 10) ++ String (Digits.digit (n mod 10)) "").
    rewrite append_assoc, (IH _ _ _ Hq).
    cbn [Digits.take append]. rewrite (digit_val_digit _ Hr).
    f_equal. f_equal.
    generalize dependent (10 ^ Z.of_nat k). intros P _ _ _.
    Z.div_mod_to_equations. lia.
Qed.

Lemma pad_head (k : nat) :
  forall n, 0 <= n ->
    exists d r, 0 <= d <= 9 /\ Digits.pad (S k) n = String (Digits.digit d) r.
Proof.
  induction k as [| k IH]; intros n Hn.
  - exists (n mod 10), "". split; [Z.div_mod_to_equations; lia | reflexivity].
  - destruct (IH (n / 10)) as (d & r & Hd & Hr); [Z.div_mod_to_equations; lia |].
    exists d, (r ++ String (Digits.digit (n mod 10)) "").
    split; [exact Hd |].
    change (Digits.pad (S (S k)) n)
      with (Digits.pad (S k) (n / 10) ++ String (Digits.digit (n mod 10)) "").
    rewrite Hr. reflexivity.
Qed.

(** *** The parser on printed text *)

Lemma parse_year_year_string (y : Z) (rest : string) :
  -999999 <= y <= 999999 ->
  parse_year (year_string y ++ rest) = Some (Some y, rest).
Proof.
  intros Hy. unfold year_string.
  assert (H6 : 10 ^ Z.of_nat 6 = 1000000) by reflexivity.
  assert (H4 : 10 ^ Z.of_nat 4 = 10000) by reflexivity.
  destruct (Z.leb_spec 0 y) as [H0 | H0]; cbv [andb].
  - destruct (Z.leb_spec y 9999) as [H1 | H1].
    + destruct (pad_head 3 y H0) as (d & r & Hd & Hr).
      destruct (digit_not_sign d Hd) as [Hplus Hminus].
      assert (Hs : Digits.pad 4 y ++ rest = String (Digits.digit d) (r ++ rest))
        by (rewrite Hr; reflexivity).
      unfold parse_year. rewrite Hs at 1. rewrite Hplus, Hminus.
      rewrite (take_pad 4) by lia.
      f_equal.
    + rewrite append_assoc.
      change ("+" ++ Digits.pad 6 (Z.abs y) ++ rest)
        with (String "+" (Digits.pad 6 (Z.abs y) ++ rest)).
      unfold parse_year. change (Ascii.eqb "+" "+") with true. cbv iota.
      rewrite (take_pad 6) by lia.
      rewrite Z.abs_eq by lia. reflexivity.
  - rewrite append_assoc.
    change ("-" ++ Digits.pad 6 (Z.abs y) ++ rest)
      with (String "-" (Digits.pad 6 (Z.abs y) ++ rest)).
    unfold parse_year. change (Ascii.eqb "-" "+") with false.
    change (Ascii.eqb "-" "-") with true. cbv iota.
    rewrite (take_pad 6) by lia.
    change (0 * 10 ^ Z.of_nat 6) with 0. rewrite Z.add_0_l.
    destruct (Z.eqb_spec (Z.abs y) 0) as [Hz | Hz]; [lia |].
    f_equal. f_equal. f_equal. lia.
Qed.

Lemma parse_dash2_pad (n : Z) (rest : string) :
  0 <= n < 100 ->
  parse_dash2 ("-" ++ Digits.pad 2 n ++ rest) = Some (n, true, rest).
Proof.
  intros Hn. unfold parse_dash2.
  change ("-" ++ Digits.pad 2 n ++ rest) with (String "-" (Digits.pad 2 n ++ rest)).
  cbv iota beta. rewrite (take_pad 2) by (change (10 ^ Z.of_nat 2) with 100; lia).
  reflexivity.
Qed.

Lemma parse_time_pad (h mi s ms : Z) (rest : string) :
  0 <= h < 100 -> 0 <= mi < 100 -> 0 <= s < 100 -> 0 <= ms < 1000 ->
  parse_time (Digits.pad 2 h ++ ":" ++ Digits.pad 2 mi ++ ":" ++ Digits.pad 2 s
              ++ "." ++ Digits.pad 3 ms ++ rest) = Some (h, mi, s, ms, rest).
Proof.
  intros Hh Hmi Hs Hms. unfold parse_time.
  rewrite (take_pad 2) by (change (10 ^ Z.of_nat 2) with 100; lia).
  change (":" ++ Digits.pad 2 mi ++ ":" ++ Digits.pad 2 s ++ "." ++ Digits.pad 3 ms ++ rest)
    with (String ":" (Digits.pad 2 mi ++ ":" ++ Digits.pad 2 s ++ "."
                      ++ Digits.pad 3 ms ++ rest)).
  unfold eat. rewrite Ascii.eqb_refl.
  rewrite (take_pad 2) by (change (10 ^ Z.of_nat 2) with 100; lia).
  change (":" ++ Digits.pad 2 s ++ "." ++ Digits.pad 3 ms ++ rest)
    with (String ":" (Digits.pad 2 s ++ "." ++ Digits.pad 3 ms ++ rest)).
  cbv iota beta.
  rewrite (take_pad 2) by (change (10 ^ Z.of_nat 2) with 100; lia).
  change ("." ++ Digits.pad 3 ms ++ rest) with (String "." (Digits.pad 3 ms ++ rest)).
  cbv iota beta.
  rewrite (take_pad 3) by (change (10 ^ Z.of_nat 3) with 1000; lia).
  reflexivity.
Qed.


Lemma fields_of_bounds (t : Z) :
  - maxTime <= t <= maxTime ->
  let f := fields_of t in
  -271821 <= f_year f <= 275760
  /\ 1 <= f_month f <= 12 /\ 1 <= f_date f <= 31
  /\ 0 <= f_hour f <= 23 /\ 0 <= f_minute f <= 59 /\ 0 <= f_second f <= 59
  /\ 0 <= f_ms f <= 999
  /\ MakeDate (MakeDay (f_year f) (f_month f - 1) (f_date f))
              (MakeTime (f_hour f) (f_minute f) (f_second f) (f_ms f)) = t.
Proof.
  intros Ht. unfold fields_of. cbv zeta. cbn [f_year f_month f_date f_hour f_minute f_second f_ms].
  unfold maxTime, msPerDay in *.
  set (day := t / 86400000). set (tm := t mod 86400000).
  assert (Hday : -100000000 <= day <= 100000000)
    by (subst day; Z.div_mod_to_equations; lia).
  assert (Htm : 0 <= tm < 86400000) by (subst tm; Z.div_mod_to_equations; lia).
  assert (Ht' : t = day * 86400000 + tm) by (subst day tm; Z.div_mod_to_equations; lia).
  pose proof (YearFromDay_spec day) as Hyear.
  pose proof (year_range day Hday) as Hrange.
  set (y := YearFromDay day) in *.
  pose proof (leap_range y) as Hleap.
  assert (Hdoy : 0 <= day - DayFromYear y < 365 + leap y)
    by (unfold leap, DaysInYear; lia).
  pose proof (month_spec _ _ Hdoy Hleap) as Hmonth. cbv zeta in Hmonth.
  set (m := MonthFromDayWithinYear (day - DayFromYear y) (leap y)) in *.
  destruct Hmonth as [Hm Hdate].
  repeat split; try lia; try (Z.div_mod_to_equations; lia).
  unfold MakeDate, MakeDay, MakeTime, msPerDay.
  replace (m + 1 - 1) with m by lia.
  rewrite Ht'.
  generalize (DaysBeforeMonth m (leap y)) (DayFromYear y). intros b a.
  clear - Htm. Z.div_mod_to_equations. lia.
Qed.

(** Parsing what [toISOString] prints gives back the time value, whatever
    the host's time zone. *)
Lemma parse_iso_iso_string (utc_of_local : Z -> Z) (t : Z) :
  - maxTime <= t <= maxTime ->
  parse_iso utc_of_local (iso_string t) = Some (Some t).
Proof.
  intros Ht. pose proof (fields_of_bounds t Ht) as Hf. cbv zeta in Hf.
  unfold iso_string, iso_of_fields.
  destruct (fields_of t) as [y mo d h mi s ms].
  cbn [f_year f_month f_date f_hour f_minute f_second f_ms] in *.
  destruct Hf as (Hy & Hmo & Hd & Hh & Hmi & Hs & Hms & Hback).
  unfold parse_iso.

  rewrite parse_year_year_string by lia.
  rewrite parse_dash2_pad by lia. cbv iota beta.
  rewrite parse_dash2_pad by lia. cbv iota beta.
  change ("T" ++ Digits.pad 2 h ++ ":" ++ Digits.pad 2 mi ++ ":" ++ Digits.pad 2 s
          ++ "." ++ Digits.pad 3 ms ++ "Z")
    with (String "T" (Digits.pad 2 h ++ ":" ++ Digits.pad 2 mi ++ ":" ++ Digits.pad 2 s
                      ++ "." ++ Digits.pad 3 ms ++ "Z")).
  cbv iota beta.
  rewrite parse_time_pad by lia.
  change (parse_offset "Z") with (Some (Some (Some 0), "")).
  cbv iota beta.
  assert (Hlegal : legal_date mo d && legal_time h mi s ms = true).
  { unfold legal_date, legal_time.
    repeat match goal with
           | |- context [?a <=? ?b] => destruct (Z.leb_spec a b); try lia
           end; reflexivity. }
  rewrite Hlegal. rewrite Z.sub_0_r, Hback. reflexivity.
Qed.

Lemma iso_string_truthy (t : Z) : Json.str_truthy (iso_string t) = true.
Proof.
  unfold iso_string, iso_of_fields, year_string.
  destruct (_ && _).
  - change (Digits.pad 4 (f_year (fields_of t)))
      with (Digits.pad 3 (f_year (fields_of t) / 10)
            ++ String (Digits.digit (f_year (fields_of t) mod 10)) "").
    destruct (Digits.pad 3 _); reflexivity.
  - destruct (0 <=? _); reflexivity.
Qed.

End Calendar.

(** ** Stop, retry, tag, webhook *)

Section Simple.
Import Json AWS Eff Tools.

(** C7. Whatever the input and whatever the remote service answers, the
    retry_stage handler issues exactly one remote call, a retry of the named
    stage with the retry mode FAILED_ACTIONS; the service method
    [retryStageExecution] does the same. No other retry mode is ever sent. *)
Theorem retryStage_failed_actions_only :
  (forall (input : RetryInput.t) (env : Env),
      calls (snd (run (retryStage input) env)) =
      [ Req (RetryStageExecution (RetryInput.pipelineName input)
                                 (RetryInput.stageName input)
                                 (RetryInput.pipelineExecutionId input)
                                 "FAILED_ACTIONS") ])
  /\ (forall (request : Service.RetryStageRequest) (env : Env),
         calls (snd (run (Service.retryStageExecution request) env)) =
         [ Req (RetryStageExecution (Service.pipelineName request)
                                    (Service.stageName request)
                                    (Service.pipelineExecutionId request)
                                    "FAILED_ACTIONS") ]).
Proof.
  split.
  - intros input env. unfold run, retryStage, bind, sdk. simpl.
    destruct (remote env unit [] _); reflexivity.
  - intros request env.
    unfold run, Service.retryStageExecution, try_catch, sdk, throw. simpl.
    destruct (remote env unit [] _); reflexivity.
Qed.

(** C4. A stop_pipeline_execution call without a reason sends the reason
    "Stopped by user"; and every call, with or without a reason, issues
    exactly one remote stop call, which carries abandon = false. *)
Theorem stopPipelineExecution_default_reason_never_abandons :
  (forall (pipelineName executionId : string) (env : Env),
      calls (snd (run (stopPipelineExecution
                         {| StopInput.pipelineName := pipelineName;
                            StopInput.executionId := executionId;
                            StopInput.reason := None |}) env)) =
      [ Req (StopPipelineExecution pipelineName executionId "Stopped by user" false) ])
  /\ (forall (input : StopInput.t) (env : Env),
         exists reason,
           calls (snd (run (stopPipelineExecution input) env)) =
           [ Req (StopPipelineExecution (StopInput.pipelineName input)
                                        (StopInput.executionId input)
                                        reason false) ]).
Proof.
  split.
  - intros pipelineName executionId env.
    unfold run, stopPipelineExecution, bind, sdk. simpl.
    destruct (remote env unit [] _); reflexivity.
  - intros input env. exists (str_or (StopInput.reason input) "Stopped by user").
    unfold run, stopPipelineExecution, bind, sdk. simpl.
    destruct (remote env unit [] _); reflexivity.
Qed.

(** C3. When the details lookup answers without an ARN (absent or empty),
    tag_pipeline_resource fails with the error "Could not find ARN for
    pipeline: <name>", the only remote call issued is the lookup, and no
    tag-apply call appears in the log. *)
Theorem tagPipelineResource_without_arn
        (input : TagInput.t) (env : Env) (response : GetPipelineOutput) :
  remote env _ [] (GetPipeline (TagInput.pipelineName input)) = inr response ->
  Spec.no_arn response ->
  let outcome := run (tagPipelineResource input) env in
  fst outcome =
    Throw (JsError {| err_name := "Error";
                      err_message := "Could not find ARN for pipeline: "
                                     ++ TagInput.pipelineName input |})
  /\ calls (snd outcome) = [ Req (GetPipeline (TagInput.pipelineName input)) ]
  /\ existsb Spec.is_tag_call (calls (snd outcome)) = false.
Proof.
  intros Hremote Hno. unfold run, tagPipelineResource, bind, sdk. simpl.
  rewrite Hremote. destruct Hno as [Hno | Hno]; rewrite Hno; simpl; auto.
Qed.

Lemma tagPipelineResource_without_arn_witness :
  Spec.no_arn Examples.no_pipeline
  /\ fst (run (tagPipelineResource Examples.tag_missing) Examples.quiet) =
       Throw (JsError {| err_name := "Error";
                         err_message := "Could not find ARN for pipeline: missing-pipeline" |})
  /\ calls (snd (run (tagPipelineResource Examples.tag_missing) Examples.quiet)) =
       [ Req (GetPipeline "missing-pipeline") ].
Proof.
  assert (Hno : Spec.no_arn Examples.no_pipeline) by (left; reflexivity).
  split; [exact Hno |].
  pose proof (tagPipelineResource_without_arn Examples.tag_missing Examples.quiet
                Examples.no_pipeline eq_refl Hno) as H.
  simpl in H. destruct H as (H1 & H2 & _). split; [exact H1 | exact H2].
Defined.



End Simple.

(** ** The dispatcher *)

Section Dispatch.
Import Json AWS Eff Tools Metrics Server.

(** The [switch] has a case for a name exactly when the name is advertised. *)
Lemma case_of_registered (name : string) :
  case_of name <> None <-> registered name.
Proof.
  unfold registered, case_of. simpl. split.
  - repeat match goal with
           | |- context [String.eqb name ?lit] =>
               destruct (String.eqb_spec name lit) as [-> | ?]; [intros _; tauto |]
           end.
    intros H. contradiction H. reflexivity.
  - intros H.
    repeat match type of H with
           | _ \/ _ => destruct H as [<- | H]; [simpl; discriminate |]
           end.
    contradiction H.
Qed.

Lemma relayed_try_catch (handler : M Envelope) env st :
  Spec.relayed (handler env st)
    (try_catch handler
       (fun error =>
          match error with
          | McpError _ _ => throw error
          | JsError e =>
              throw (McpError InternalError
                              ("Tool execution failed: " ++ Error_toString e))
          end) env st).
Proof.
  unfold Spec.relayed, try_catch, throw.
  destruct (handler env st) as [[envelope | [e | code message]] st']; reflexivity.
Qed.

(** C1. For every request: if the name is not an advertised tool, the
    outcome is the error [McpError InvalidRequest "Unknown tool: <name>"] and
    no remote call is made; if it is, the request is bound to that name's
    handler and the outcome is the handler's, with any error that is not an
    [McpError] turned into [McpError InternalError "Tool execution failed:
    ..."]; and in every case the outcome is a success envelope or an
    [McpError], never another exception. *)
Theorem dispatch_contract (params : CallToolParams) (env : Env) (st : State) :
  let outcome := CallToolRequestHandler params env st in
  (~ registered (p_name params) ->
   outcome = (Throw (McpError InvalidRequest ("Unknown tool: " ++ p_name params)), st))
  /\ (registered (p_name params) ->
      exists handler, bound params handler /\ Spec.relayed (handler env st) outcome)
  /\ (exists st',
         (exists envelope, outcome = (Ok envelope, st'))
         \/ (exists code message, outcome = (Throw (McpError code message), st'))).
Proof.
  cbv zeta. split; [| split].
  - intros Hnot. destruct params as [name args]. simpl in *.
    assert (Hcase : case_of name = None).
    { destruct (case_of name) eqn:E; [| reflexivity].
      exfalso. apply Hnot, case_of_registered. rewrite E. discriminate. }
    unfold CallToolRequestHandler. simpl. revert args. rewrite Hcase. intros args.
    reflexivity.
  - intros Hreg. destruct params as [name args]. unfold registered in Hreg.
    simpl in Hreg.
    repeat match type of Hreg with
           | _ \/ _ =>
               destruct Hreg as [<- | Hreg];
               [eexists; split; [constructor | apply relayed_try_catch] |]
           end.
    contradiction Hreg.
  - unfold CallToolRequestHandler, try_catch, throw.
    destruct (switch _ _ _ env st) as [[envelope | [e | code message]] st'];
      exists st'; eauto.
Qed.

Lemma dispatch_contract_witness :
  ~ registered "nonexistent_op"
  /\ CallToolRequestHandler Examples.nonexistent_op Examples.quiet initial =
     (Throw (McpError InvalidRequest "Unknown tool: nonexistent_op"), initial).
Proof.
  assert (Hnot : ~ registered (p_name Examples.nonexistent_op)).
  { unfold registered. simpl. intros H.
    repeat match type of H with
           | _ \/ _ => destruct H as [H | H]; [discriminate H |]
           end.
    exact H. }
  split; [exact Hnot |].
  exact (proj1 (dispatch_contract Examples.nonexistent_op Examples.quiet initial) Hnot).
Defined.

End Dispatch.

(** ** Shapes of the read projections *)

Section Shapes.
Import Json AWS Eff Tools Spec.

Lemma Forall_forallb {A} (p : A -> bool) (l : list A) :
  Forall (fun x => p x = true) l -> forallb p l = true.
Proof.
  induction 1 as [| x rest Hx _ IH]; simpl; [reflexivity |].
  rewrite Hx, IH. reflexivity.
Qed.

Lemma map_opt_ok {A} (f : A -> M jsval) (P : jsval -> Prop) :
  (forall x env st y st', f x env st = (Ok y, st') -> P y) ->
  forall xs env st o st',
    map_opt f xs env st = (Ok o, st') ->
    match o with Some ys => Forall P ys | None => xs = None end.
Proof.
  intros Hf [l |] env st o st' H; unfold map_opt in H.
  - apply bind_ok in H. destruct H as (ys & st1 & Hys & H).
    apply ret_ok in H. destruct H as [<- _].
    eapply mapM_ok; eassumption.
  - apply ret_ok in H. destruct H as [<- _]. reflexivity.
Qed.

Lemma arr_or_empty_shape {A} (f : A -> M jsval) (s : shape) :
  (forall x env st y st', f x env st = (Ok y, st') -> conforms s y = true) ->
  forall xs env st o st',
    map_opt f xs env st = (Ok o, st') ->
    conforms (SArr s) (arr_or_empty o) = true.
Proof.
  intros Hf xs env st o st' H.
  pose proof (map_opt_ok f _ Hf xs env st o st' H) as Ho.
  destruct o as [ys |]; simpl; [apply Forall_forallb; exact Ho | reflexivity].
Qed.

Lemma arr_or_undefined_shape {A} (f : A -> M jsval) (s : shape) :
  (forall x env st y st', f x env st = (Ok y, st') -> conforms s y = true) ->
  forall xs env st o st',
    map_opt f xs env st = (Ok o, st') ->
    conforms (SOpt (SArr s)) (arr_or_undefined o) = true.
Proof.
  intros Hf xs env st o st' H.
  pose proof (map_opt_ok f _ Hf xs env st o st' H) as Ho.
  destruct o as [ys |]; simpl; [apply Forall_forallb; exact Ho | reflexivity].
Qed.

Lemma opt_str_shape (o : option string) : conforms (SOpt SStr) (opt_str o) = true.
Proof. destruct o; reflexivity. Qed.

Lemma opt_num_shape (o : option number) : conforms (SOpt SNum) (opt_num o) = true.
Proof. destruct o; reflexivity. Qed.

Lemma date_or_now_defined d env st y st' :
  date_or_now d env st = (Ok y, st') -> conforms SDef y = true.
Proof.
  destruct d as [d' |]; simpl; intros H.
  - apply ret_ok in H. destruct H as [<- _]. reflexivity.
  - apply bind_ok in H. destruct H as (now & st1 & _ & H).
    apply bind_ok in H. destruct H as (s & st2 & _ & H).
    apply ret_ok in H. destruct H as [<- _]. reflexivity.
Qed.

Lemma pipeline_summary_shape p env st y st' :
  pipeline_summary p env st = (Ok y, st') ->
  conforms (SObj [ ("name", SStr); ("version", SNum);
                   ("created", SStr); ("updated", SStr) ]) y = true.
Proof.
  unfold pipeline_summary. intros H.
  apply bind_ok in H. destruct H as (created & st1 & _ & H).
  apply bind_ok in H. destruct H as (updated & st2 & _ & H).
  apply ret_ok in H. destruct H as [<- _]. reflexivity.
Qed.

Lemma convert_source_revision_shape r env st y st' :
  convert_source_revision r env st = (Ok y, st') ->
  conforms (SObj [ ("name", SStr); ("revisionId", SStr);
                   ("revisionUrl", SStr); ("revisionSummary", SStr) ]) y = true.
Proof.
  unfold convert_source_revision. intros H.
  apply ret_ok in H. destruct H as [<- _]. reflexivity.
Qed.

Lemma and_true (a b : bool) : a = true -> b = true -> a && b = true.
Proof. intros -> ->. reflexivity. Qed.

Lemma convert_execution_shape e env st y st' :
  convert_execution e env st = (Ok y, st') ->
  conforms (SObj [ ("pipelineExecutionId", SStr); ("status", SStr);
                   ("startTime", SStr); ("lastUpdateTime", SStr);
                   ("sourceRevisions",
                    SArr (SObj [ ("name", SStr); ("revisionId", SStr);
                                 ("revisionUrl", SStr);
                                 ("revisionSummary", SStr) ])) ]) y = true.
Proof.
  unfold convert_execution. intros H.
  apply bind_ok in H. destruct H as (startTime & st1 & _ & H).
  apply bind_ok in H. destruct H as (lastUpdateTime & st2 & _ & H).
  apply bind_ok in H. destruct H as (revisions & st3 & Hrev & H).
  apply ret_ok in H. destruct H as [<- _].
  pose proof (arr_or_empty_shape _ _ convert_source_revision_shape _ _ _ _ _ Hrev) as Hs.
  simpl in Hs |- *. rewrite Hs. reflexivity.
Qed.

Lemma convert_action_execution_shape e env st y st' :
  convert_action_execution e env st = (Ok y, st') ->
  conforms action_execution_shape y = true.
Proof.
  unfold convert_action_execution. intros H.
  apply bind_ok in H. destruct H as (changed & st1 & Hchanged & H).
  apply ret_ok in H. destruct H as [<- _].
  apply date_or_now_defined in Hchanged. simpl in Hchanged.
  destruct e as [status summary change token extId extUrl details]. simpl.
  rewrite Hchanged.
  destruct summary, token, extId, extUrl, details; reflexivity.
Qed.

Lemma convert_action_revision_shape r env st y st' :
  convert_action_revision r env st = (Ok y, st') ->
  conforms (SObj [ ("revisionId", SStr); ("revisionChangeId", SStr);
                   ("created", SDef) ]) y = true.
Proof.
  unfold convert_action_revision. intros H.
  apply bind_ok in H. destruct H as (created & st1 & Hcreated & H).
  apply ret_ok in H. destruct H as [<- _].
  apply date_or_now_defined in Hcreated. simpl in Hcreated |- *.
  rewrite Hcreated. reflexivity.
Qed.

Lemma convert_action_shape a env st y st' :
  convert_action a env st = (Ok y, st') -> conforms action_shape y = true.
Proof.
  unfold convert_action. intros H.
  apply bind_ok in H. destruct H as (latest & st1 & Hlatest & H).
  apply bind_ok in H. destruct H as (revision & st2 & Hrevision & H).
  apply ret_ok in H. destruct H as [<- _].
  assert (Hl : conforms (SOpt action_execution_shape) latest = true).
  { destruct (as_latestExecution a).
    - apply convert_action_execution_shape in Hlatest.
      change (is_undefined latest || conforms action_execution_shape latest = true).
      rewrite Hlatest. apply orb_true_r.
    - apply ret_ok in Hlatest. destruct Hlatest as [<- _]. reflexivity. }
  assert (Hr : conforms (SOpt (SObj [ ("revisionId", SStr); ("revisionChangeId", SStr);
                                      ("created", SDef) ])) revision = true).
  { destruct (as_currentRevision a).
    - apply convert_action_revision_shape in Hrevision.
      match goal with |- conforms (SOpt ?s) _ = true =>
        change (is_undefined revision || conforms s revision = true) end.
      rewrite Hrevision. apply orb_true_r.
    - apply ret_ok in Hrevision. destruct Hrevision as [<- _]. reflexivity. }
  change (true && conforms (SOpt (SObj [ ("revisionId", SStr); ("revisionChangeId", SStr);
                                         ("created", SDef) ])) revision
          && (true && conforms (SOpt action_execution_shape) latest
              && (true && conforms (SOpt SStr) (opt_str (as_entityUrl a)) && true)) = true).
  rewrite Hl, Hr, opt_str_shape. reflexivity.
Qed.

Lemma convert_transition_shape t :
  conforms (SObj [ ("enabled", SBool); ("lastChangedBy", SOpt SStr);
                   ("lastChangedAt", SAny); ("disabledReason", SOpt SStr) ])
           (convert_transition t) = true.
Proof. destruct t as [enabled by_ at_ reason]. destruct by_, reason; reflexivity. Qed.

Lemma convert_stage_shape s env st y st' :
  convert_stage s env st = (Ok y, st') -> conforms stage_shape y = true.
Proof.
  unfold convert_stage. intros H.
  apply bind_ok in H. destruct H as (actions & st1 & Hactions & H).
  apply ret_ok in H. destruct H as [<- _].
  pose proof (mapM_ok _ _ convert_action_shape _ _ _ _ _ Hactions) as Ha.
  apply Forall_forallb in Ha.
  assert (Ht : conforms (SOpt (SObj [ ("enabled", SBool); ("lastChangedBy", SOpt SStr);
                                      ("lastChangedAt", SAny);
                                      ("disabledReason", SOpt SStr) ]))
                 (match ss_inboundTransitionState s with
                  | Some t => convert_transition t
                  | None => JUndefined
                  end) = true).
  { destruct (ss_inboundTransitionState s) as [t |]; [| reflexivity].
    match goal with |- conforms (SOpt ?sh) ?v = true =>
      change (is_undefined v || conforms sh v = true) end.
    rewrite convert_transition_shape. apply orb_true_r. }
  assert (He : conforms (SOpt (SObj [ ("pipelineExecutionId", SStr); ("status", SStr) ]))
                 (match ss_latestExecution s with
                  | Some e => convert_stage_execution e
                  | None => JUndefined
                  end) = true).
  { destruct (ss_latestExecution s); reflexivity. }
  match goal with
  | |- conforms stage_shape (JObj [ (_, _); (_, ?t); (_, JArr ?a); (_, ?e) ]) = true =>
      change (true && conforms (SOpt (SObj [ ("enabled", SBool); ("lastChangedBy", SOpt SStr);
                                             ("lastChangedAt", SAny);
                                             ("disabledReason", SOpt SStr) ])) t
              && (true && forallb (conforms action_shape) a
                  && (true && conforms (SOpt (SObj [ ("pipelineExecutionId", SStr);
                                                     ("status", SStr) ])) e && true)) = true)
  end.
  rewrite Ht, Ha, He. reflexivity.
Qed.

Lemma pipelineState_of_shape response env st y st' :
  pipelineState_of response env st = (Ok y, st') ->
  conforms (SObj [ ("pipelineName", SStr); ("pipelineVersion", SNum);
                   ("stageStates", SArr stage_shape);
                   ("created", SStr); ("updated", SStr) ]) y = true.
Proof.
  unfold pipelineState_of. intros H.
  apply bind_ok in H. destruct H as (stages & st1 & Hstages & H).
  apply bind_ok in H. destruct H as (created & st2 & _ & H).
  apply bind_ok in H. destruct H as (updated & st3 & _ & H).
  apply ret_ok in H. destruct H as [<- _].
  pose proof (arr_or_empty_shape _ _ convert_stage_shape _ _ _ _ _ Hstages) as Hs.
  match goal with
  | |- conforms _ (JObj [ _; _; (_, ?a); _; _ ]) = true =>
      change (true && true && (true && true
              && (true && conforms (SArr stage_shape) a && (true && true && (true && true && true)))) = true)
  end.
  rewrite Hs. reflexivity.
Qed.

Lemma convert_action_declaration_shape a env st y st' :
  convert_action_declaration a env st = (Ok y, st') ->
  conforms action_declaration_shape y = true.
Proof.
  unfold convert_action_declaration. intros H.
  apply ret_ok in H. destruct H as [<- _].
  destruct a as [name type order conf outs ins region namespace]. simpl.
  destruct name, order, region, namespace; reflexivity.
Qed.

Lemma convert_stage_declaration_shape s env st y st' :
  convert_stage_declaration s env st = (Ok y, st') ->
  conforms stage_declaration_shape y = true.
Proof.
  unfold convert_stage_declaration. intros H.
  apply bind_ok in H. destruct H as (actions & st1 & Hactions & H).
  apply ret_ok in H. destruct H as [<- _].
  pose proof (arr_or_undefined_shape _ _ convert_action_declaration_shape
                _ _ _ _ _ Hactions) as Ha.
  match goal with
  | |- conforms stage_declaration_shape (JObj [ (_, ?n); (_, ?a) ]) = true =>
      change (true && conforms (SOpt SStr) n
              && (true && conforms (SOpt (SArr action_declaration_shape)) a && true) = true)
  end.
  rewrite opt_str_shape, Ha. reflexivity.
Qed.

End Shapes.

Section ReadProjections.
Import Json AWS Eff Tools Spec.

(** A value of a shape that leaves nothing optional has no absent field. *)
Fixpoint strict_complete (s : shape) :
  forall v, strict s = true -> conforms s v = true -> complete v = true.
Proof.
  destruct s as [| | | | | s' | s' | fields]; intros v Hs Hc; simpl in Hs, Hc.
  - destruct v; try discriminate Hc; reflexivity.
  - destruct v; try discriminate Hc; reflexivity.
  - destruct v; try discriminate Hc; reflexivity.
  - discriminate Hs.
  - discriminate Hs.
  - discriminate Hs.
  - destruct v as [| | | | | | items |]; try discriminate Hc. simpl.
    induction items as [| x rest IH]; [reflexivity |].
    simpl in Hc. apply andb_true_iff in Hc. destruct Hc as [Hx Hrest].
    rewrite (strict_complete s' x Hs Hx). simpl. apply IH, Hrest.
  - destruct v as [| | | | | | | props]; try discriminate Hc. simpl.
    revert props Hc.
    induction fields as [| [k s'] fs IH]; intros [| [k' x] ps] Hc;
      try discriminate Hc; [reflexivity |].
    apply andb_true_iff in Hs. destruct Hs as [Hs' Hfs].
    apply andb_true_iff in Hc. destruct Hc as [Hc Hps].
    apply andb_true_iff in Hc. destruct Hc as [_ Hx].
    rewrite (strict_complete s' x Hs' Hx). simpl. apply IH; assumption.
Qed.



(** *** What the projections hold *)

Lemma mapM_map {A B} (f : A -> M B) (g : A -> B) (env : Env) :
  (forall x st y st', f x env st = (Ok y, st') -> y = g x) ->
  forall xs st ys st', mapM f xs env st = (Ok ys, st') -> ys = map g xs.
Proof.
  intros Hf xs. induction xs as [| x rest IH]; simpl; intros st ys st' H.
  - apply ret_ok in H. destruct H as [<- _]. reflexivity.
  - apply bind_ok in H. destruct H as (y & st1 & Hy & H).
    apply bind_ok in H. destruct H as (ys' & st2 & Hys & H).
    apply ret_ok in H. destruct H as [<- _].
    rewrite (Hf _ _ _ _ Hy), (IH _ _ _ Hys). reflexivity.
Qed.

Lemma mapM_Forall2 {A B} (f : A -> M B) (R : A -> B -> Prop) (env : Env) :
  (forall x st y st', f x env st = (Ok y, st') -> R x y) ->
  forall xs st ys st', mapM f xs env st = (Ok ys, st') -> Forall2 R xs ys.
Proof.
  intros Hf xs. induction xs as [| x rest IH]; simpl; intros st ys st' H.
  - apply ret_ok in H. destruct H as [<- _]. constructor.
  - apply bind_ok in H. destruct H as (y & st1 & Hy & H).
    apply bind_ok in H. destruct H as (ys' & st2 & Hys & H).
    apply ret_ok in H. destruct H as [<- _].
    constructor; [exact (Hf _ _ _ _ Hy) | exact (IH _ _ _ Hys)].
Qed.

Lemma map_opt_each {A} (f : A -> M jsval) (g : A -> jsval) (env : Env) :
  (forall x st y st', f x env st = (Ok y, st') -> y = g x) ->
  forall o st r st', map_opt f o env st = (Ok r, st') ->
    arr_or_empty r = each g o /\ arr_or_undefined r = kept_each g o.
Proof.
  intros Hf [l |] st r st' H; simpl in H.
  - apply bind_ok in H. destruct H as (ys & st1 & Hys & H).
    apply ret_ok in H. destruct H as [<- _].
    rewrite (mapM_map f g env Hf _ _ _ _ Hys). split; reflexivity.
  - apply ret_ok in H. destruct H as [<- _]. split; reflexivity.
Qed.

Lemma str_or_empty (o : option string) : JStr (str_or o "") = or_empty o.
Proof. destruct o as [[| c s] |]; reflexivity. Qed.

Lemma num_or_zero_value (o : option number) : num_or_zero o = or_zero o.
Proof. destruct o as [[s | s | | s m e] |]; reflexivity. Qed.

Lemma iso_or_empty_value (o : option Date) env st s st' :
  iso_or_empty o env st = (Ok s, st') -> JStr s = time_or_empty o.
Proof.
  destruct o as [[t |] |]; simpl; intros H.
  - unfold bind, ret in H. inversion H.
    pose proof (iso_string_truthy t) as T. rewrite T. reflexivity.
  - discriminate H.
  - apply ret_ok in H. destruct H as [<- _]. reflexivity.
Qed.

Lemma date_or_now_value (o : option Date) env st v st' :
  date_or_now o env st = (Ok v, st') -> time_or_now env o v.
Proof.
  destruct o as [d |]; simpl; intros H.
  - apply ret_ok in H. destruct H as [<- _]. reflexivity.
  - apply bind_ok in H. destruct H as (now & st1 & Hnow & H).
    apply bind_ok in H. destruct H as (s & st2 & Hs & H).
    apply ret_ok in H. destruct H as [<- _].
    unfold Date_now in Hnow. inversion Hnow as [[Hvalue Hstate]]. clear Hnow Hstate.
    unfold JsDate.TimeClip in Hvalue.
    destruct (Z.abs _ <=? _) in Hvalue; subst now; [| discriminate Hs].
    cbn [toISOString] in Hs. apply ret_ok in Hs. destruct Hs as [<- _].
    exists (ticks st). reflexivity.
Qed.

Lemma pipeline_summary_value p env st y st' :
  pipeline_summary p env st = (Ok y, st') -> y = pipeline_entry p.
Proof.
  unfold pipeline_summary. intros H.
  apply bind_ok in H. destruct H as (created & st1 & Hc & H).
  apply bind_ok in H. destruct H as (updated & st2 & Hu & H).
  apply ret_ok in H. destruct H as [<- _]. unfold pipeline_entry.
  rewrite str_or_empty, num_or_zero_value,
    (iso_or_empty_value _ _ _ _ _ Hc), (iso_or_empty_value _ _ _ _ _ Hu).
  reflexivity.
Qed.

Lemma listPipelines_value env st payload st' :
  listPipelines_payload env st = (Ok payload, st') ->
  exists response,
    remote env _ (calls st) ListPipelines = inr response
    /\ payload = pipelines_of response.
Proof.
  unfold listPipelines_payload. intros H.
  apply bind_ok in H. destruct H as (response & st1 & Hcall & H).
  apply bind_ok in H. destruct H as (mapped & st2 & Hmap & H).
  apply ret_ok in H. destruct H as [<- _].
  apply sdk_ok in Hcall. destruct Hcall as [Hremote _].
  exists response. split; [exact Hremote |]. unfold pipelines_of.
  rewrite (proj1 (map_opt_each _ _ env (fun p st => pipeline_summary_value p env st)
                               _ _ _ _ Hmap)).
  reflexivity.
Qed.

Lemma convert_source_revision_value r env st y st' :
  convert_source_revision r env st = (Ok y, st') -> y = revision_entry r.
Proof.
  unfold convert_source_revision. intros H.
  apply ret_ok in H. destruct H as [<- _]. unfold revision_entry.
  rewrite !str_or_empty. reflexivity.
Qed.

Lemma convert_execution_value e env st y st' :
  convert_execution e env st = (Ok y, st') -> y = execution_entry e.
Proof.
  unfold convert_execution. intros H.
  apply bind_ok in H. destruct H as (startTime & st1 & Hs & H).
  apply bind_ok in H. destruct H as (lastUpdateTime & st2 & Hl & H).
  apply bind_ok in H. destruct H as (revisions & st3 & Hr & H).
  apply ret_ok in H. destruct H as [<- _]. unfold execution_entry.
  rewrite !str_or_empty,
    (iso_or_empty_value _ _ _ _ _ Hs), (iso_or_empty_value _ _ _ _ _ Hl),
    (proj1 (map_opt_each _ _ env (fun r st => convert_source_revision_value r env st)
                         _ _ _ _ Hr)).
  reflexivity.
Qed.

Lemma listPipelineExecutions_value input env st payload st' :
  listPipelineExecutions_payload input env st = (Ok payload, st') ->
  exists response,
    remote env _ (calls st)
           (ListPipelineExecutions (PipelineNameInput.pipelineName input) None)
    = inr response
    /\ payload = executions_of response.
Proof.
  unfold listPipelineExecutions_payload. intros H.
  apply bind_ok in H. destruct H as (response & st1 & Hcall & H).
  apply bind_ok in H. destruct H as (mapped & st2 & Hmap & H).
  apply ret_ok in H. destruct H as [<- _].
  apply sdk_ok in Hcall. destruct Hcall as [Hremote _].
  exists response. split; [exact Hremote |]. unfold executions_of.
  rewrite (proj1 (map_opt_each _ _ env (fun e st => convert_execution_value e env st)
                               _ _ _ _ Hmap)).
  reflexivity.
Qed.

Lemma convert_action_declaration_value action env st y st' :
  convert_action_declaration action env st = (Ok y, st') ->
  y = action_declaration_entry action.
Proof.
  unfold convert_action_declaration. intros H.
  apply ret_ok in H. destruct H as [<- _]. reflexivity.
Qed.

Lemma convert_stage_declaration_value stage env st y st' :
  convert_stage_declaration stage env st = (Ok y, st') ->
  y = stage_declaration_entry stage.
Proof.
  unfold convert_stage_declaration. intros H.
  apply bind_ok in H. destruct H as (actions & st1 & Ha & H).
  apply ret_ok in H. destruct H as [<- _]. unfold stage_declaration_entry.
  rewrite (proj2 (map_opt_each _ _ env
                    (fun a st => convert_action_declaration_value a env st)
                    _ _ _ _ Ha)).
  reflexivity.
Qed.

Lemma getPipelineDetails_value input env st payload st' :
  getPipelineDetails_payload input env st = (Ok payload, st') ->
  exists response,
    remote env _ (calls st) (GetPipeline (PipelineNameInput.pipelineName input))
    = inr response
    /\ payload = details_of response.
Proof.
  unfold getPipelineDetails_payload. intros H.
  apply bind_ok in H. destruct H as (response & st1 & Hcall & H).
  apply bind_ok in H. destruct H as (stages & st2 & Hstages & H).
  apply bind_ok in H. destruct H as (created & st3 & Hc & H).
  apply bind_ok in H. destruct H as (updated & st4 & Hu & H).
  apply ret_ok in H. destruct H as [<- _].
  apply sdk_ok in Hcall. destruct Hcall as [Hremote _].
  exists response. split; [exact Hremote |]. unfold details_of.
  rewrite !str_or_empty, num_or_zero_value,
    (iso_or_empty_value _ _ _ _ _ Hc), (iso_or_empty_value _ _ _ _ _ Hu),
    (proj2 (map_opt_each _ _ env
              (fun s st => convert_stage_declaration_value s env st)
              _ _ _ _ Hstages)).
  reflexivity.
Qed.

Lemma convert_action_value action env st v st' :
  convert_action action env st = (Ok v, st') -> action_of env action v.
Proof.
  unfold convert_action. intros H.
  apply bind_ok in H. destruct H as (latestExecution & st1 & He & H).
  apply bind_ok in H. destruct H as (currentRevision & st2 & Hr & H).
  apply ret_ok in H. destruct H as [<- _].
  exists currentRevision, latestExecution.
  refine (conj _ (conj _ _)).
  - destruct (as_currentRevision action) as [r |]; simpl.
    + unfold convert_action_revision in Hr.
      apply bind_ok in Hr. destruct Hr as (created & st3 & Hc & Hr).
      apply ret_ok in Hr. destruct Hr as [<- _].
      exists created. split; [exact (date_or_now_value _ _ _ _ _ Hc) |].
      rewrite !str_or_empty. reflexivity.
    + apply ret_ok in Hr. destruct Hr as [<- _]. reflexivity.
  - destruct (as_latestExecution action) as [e |]; simpl.
    + unfold convert_action_execution in He.
      apply bind_ok in He. destruct He as (changed & st3 & Hc & He).
      apply ret_ok in He. destruct He as [<- _].
      exists changed. split; [exact (date_or_now_value _ _ _ _ _ Hc) |].
      rewrite !str_or_empty.
      destruct (ae_errorDetails e) as [d |]; [| reflexivity].
      unfold convert_error_details. rewrite !str_or_empty. reflexivity.
    + apply ret_ok in He. destruct He as [<- _]. reflexivity.
  - rewrite str_or_empty. reflexivity.
Qed.

Lemma convert_stage_value stage env st v st' :
  convert_stage stage env st = (Ok v, st') -> stage_of env stage v.
Proof.
  unfold convert_stage. intros H.
  apply bind_ok in H. destruct H as (actionStates & st1 & Ha & H).
  apply ret_ok in H. destruct H as [<- _].
  exists actionStates. split.
  - eapply mapM_Forall2; [| exact Ha].
    intros x st0 y st2. apply convert_action_value.
  - rewrite str_or_empty.
    destruct (ss_inboundTransitionState stage) as [s |],
             (ss_latestExecution stage) as [e |];
      unfold convert_transition, convert_stage_execution;
      rewrite ?str_or_empty; reflexivity.
Qed.

Lemma getPipelineState_value input env st payload st' :
  getPipelineState_payload input env st = (Ok payload, st') ->
  exists response,
    remote env _ (calls st) (GetPipelineState (PipelineNameInput.pipelineName input))
    = inr response
    /\ state_of env response payload.
Proof.
  unfold getPipelineState_payload. intros H.
  apply bind_ok in H. destruct H as (response & st1 & Hcall & H).
  apply bind_ok in H. destruct H as (state & st2 & Hstate & H).
  apply ret_ok in H. destruct H as [<- _].
  apply sdk_ok in Hcall. destruct Hcall as [Hremote _].
  exists response. split; [exact Hremote |].
  unfold pipelineState_of in Hstate.
  apply bind_ok in Hstate. destruct Hstate as (stages & st3 & Hstages & H).
  apply bind_ok in H. destruct H as (created & st4 & Hc & H).
  apply bind_ok in H. destruct H as (updated & st5 & Hu & H).
  apply ret_ok in H. destruct H as [<- _].
  unfold state_of.
  rewrite str_or_empty, num_or_zero_value,
    (iso_or_empty_value _ _ _ _ _ Hc), (iso_or_empty_value _ _ _ _ _ Hu).
  destruct (gps_stageStates response) as [l |]; simpl in Hstages.
  - apply bind_ok in Hstages. destruct Hstages as (ys & st6 & Hys & Hstages).
    apply ret_ok in Hstages. destruct Hstages as [<- _].
    exists ys. split; [| reflexivity].
    eapply mapM_Forall2; [| exact Hys].
    intros x st0 y st7. apply convert_stage_value.
  - apply ret_ok in Hstages. destruct Hstages as [<- _].
    exists []. split; [constructor | reflexivity].
Qed.

(** C6, as amended. Whatever the remote answers, each read projection
    that succeeds reports exactly this. list_pipelines and
    list_pipeline_executions: every field present, an absent text or time
    as the empty string, an absent version as zero, an absent sequence as
    the empty sequence, so that the report is structurally complete.
    get_pipeline_details: the same defaults for the pipeline's name, role,
    version and the three metadata fields; the artifact store, the stages
    and everything inside a stage are handed through and stay absent when
    the remote omits them. get_pipeline_state: the same defaults for the
    pipeline's name, version, created and updated, for stageStates and each
    stage's name and actionStates, for each action's name, and, inside the
    sub-objects that are present, for their status, id, code and message
    texts and for [enabled] (false); an absent lastStatusChange or revision
    created is filled with the clock's time, not with a default; the other
    fields and the sub-objects themselves are handed through and stay
    absent when the remote omits them. *)
Theorem read_projections_defaults (env : Env) :
  (forall payload st',
      run listPipelines_payload env = (Ok payload, st') ->
      (exists response,
          remote env _ [] ListPipelines = inr response
          /\ payload = pipelines_of response)
      /\ conforms pipelines_shape (JObj payload) = true
      /\ complete (JObj payload) = true)
  /\ (forall input payload st',
         run (listPipelineExecutions_payload input) env = (Ok payload, st') ->
         (exists response,
             remote env _ []
                    (ListPipelineExecutions (PipelineNameInput.pipelineName input) None)
             = inr response
             /\ payload = executions_of response)
         /\ conforms executions_shape (JObj payload) = true
         /\ complete (JObj payload) = true)
  /\ (forall input payload st',
         run (getPipelineState_payload input) env = (Ok payload, st') ->
         (exists response,
             remote env _ [] (GetPipelineState (PipelineNameInput.pipelineName input))
             = inr response
             /\ state_of env response payload)
         /\ conforms pipelineState_shape (JObj payload) = true)
  /\ (forall input payload st',
         run (getPipelineDetails_payload input) env = (Ok payload, st') ->
         (exists response,
             remote env _ [] (GetPipeline (PipelineNameInput.pipelineName input))
             = inr response
             /\ payload = details_of response)
         /\ conforms pipelineDetails_shape (JObj payload) = true)
  /\ (forall st,
         pipeline_summary {| ps_name := None; ps_version := None;
                             ps_created := None; ps_updated := None |} env st =
         (Ok (JObj [ ("name", JStr ""); ("version", JNum Num.zero);
                     ("created", JStr ""); ("updated", JStr "") ]), st))
  /\ (forall st,
         convert_execution {| pes_pipelineExecutionId := None; pes_status := None;
                              pes_startTime := None; pes_lastUpdateTime := None;
                              pes_sourceRevisions := None |} env st =
         (Ok (JObj [ ("pipelineExecutionId", JStr ""); ("status", JStr "");
                     ("startTime", JStr ""); ("lastUpdateTime", JStr "");
                     ("sourceRevisions", JArr []) ]), st))
  /\ (forall st,
         pipelineState_of Examples.no_state env st =
         (Ok (JObj [ ("pipelineName", JStr ""); ("pipelineVersion", JNum Num.zero);
                     ("stageStates", JArr []);
                     ("created", JStr ""); ("updated", JStr "") ]), st)).
Proof.
  assert (Hlist : forall payload st',
             run listPipelines_payload env = (Ok payload, st') ->
             conforms pipelines_shape (JObj payload) = true).
  { unfold run, listPipelines_payload. intros payload st' H.
    apply bind_ok in H. destruct H as (response & st1 & _ & H).
    apply bind_ok in H. destruct H as (pipelines & st2 & Hp & H).
    apply ret_ok in H. destruct H as [<- _].
    pose proof (arr_or_empty_shape _ _ pipeline_summary_shape _ _ _ _ _ Hp) as Hs.
    simpl in Hs |- *. rewrite Hs. reflexivity. }
  assert (Hexec : forall input payload st',
             run (listPipelineExecutions_payload input) env = (Ok payload, st') ->
             conforms executions_shape (JObj payload) = true).
  { unfold run, listPipelineExecutions_payload. intros input payload st' H.
    apply bind_ok in H. destruct H as (response & st1 & _ & H).
    apply bind_ok in H. destruct H as (executions & st2 & He & H).
    apply ret_ok in H. destruct H as [<- _].
    pose proof (arr_or_empty_shape _ _ convert_execution_shape _ _ _ _ _ He) as Hs.
    simpl in Hs |- *. rewrite Hs. reflexivity. }
  refine (conj _ (conj _ (conj _ (conj _ (conj _ (conj _ _))))));
    try (intros st; reflexivity).
  - intros payload st' H. split; [exact (listPipelines_value _ _ _ _ H) |].
    apply Hlist in H. split; [exact H |].
    eapply strict_complete; [| exact H]. reflexivity.
  - intros input payload st' H.
    split; [exact (listPipelineExecutions_value _ _ _ _ _ H) |].
    apply Hexec in H. split; [exact H |].
    eapply strict_complete; [| exact H]. reflexivity.
  - intros input payload st' H.
    split; [exact (getPipelineState_value _ _ _ _ _ H) |].
    unfold run, getPipelineState_payload in H.
    apply bind_ok in H. destruct H as (response & st1 & _ & H).
    apply bind_ok in H. destruct H as (state & st2 & Hstate & H).
    apply ret_ok in H. destruct H as [<- _].
    apply pipelineState_of_shape in Hstate.
    change (true && conforms
              (SObj [ ("pipelineName", SStr); ("pipelineVersion", SNum);
                      ("stageStates", SArr stage_shape);
                      ("created", SStr); ("updated", SStr) ]) state && true = true).
    rewrite Hstate. reflexivity.
  - intros input payload st' H.
    split; [exact (getPipelineDetails_value _ _ _ _ _ H) |].
    unfold run, getPipelineDetails_payload in H.
    apply bind_ok in H. destruct H as (response & st1 & _ & H).
    apply bind_ok in H. destruct H as (stages & st2 & Hstages & H).
    apply bind_ok in H. destruct H as (created & st3 & _ & H).
    apply bind_ok in H. destruct H as (updated & st4 & _ & H).
    apply ret_ok in H. destruct H as [<- _].
    pose proof (arr_or_undefined_shape _ _ convert_stage_declaration_shape
                  _ _ _ _ _ Hstages) as Hs.
    match goal with
    | |- conforms pipelineDetails_shape
           (JObj [ (_, JObj [ _; _; _; (_, ?a); _; _ ]) ]) = true =>
        change (true && (true && true && (true && true && (true && true
                && (true && conforms (SOpt (SArr stage_declaration_shape)) a
                    && (true && true && (true && true && true))))))
                && true = true)
    end.
    rewrite Hs. reflexivity.
Qed.

Lemma read_projections_defaults_witness :
  succeeded (run (getPipelineState_payload Examples.deploy) Examples.bare_world) = true
  /\ state_of Examples.bare_world Examples.bare_state
       [ ("pipelineState",
          field "pipelineState"
                (reported (run (getPipelineState_payload Examples.deploy)
                               Examples.bare_world))) ]
  /\ conforms pipelineState_shape
       (reported (run (getPipelineState_payload Examples.deploy) Examples.bare_world))
     = true.
Proof.
  destruct (run (getPipelineState_payload Examples.deploy) Examples.bare_world)
    as [r st'] eqn:E.
  assert (Hok : exists payload, r = Ok payload).
  { vm_compute in E. inversion E. eexists. reflexivity. }
  destruct Hok as [payload ->].
  split; [reflexivity |].
  destruct (proj1 (proj2 (proj2 (read_projections_defaults Examples.bare_world)))
                  Examples.deploy payload st' E)
    as ((response & Hremote & Hstate) & Hshape).
  inversion Hremote. subst response.
  split; [| exact Hshape].
  unfold reported. cbn [fst].
  destruct Hstate as (stageStates & Hstages & ->).
  exists stageStates. split; [exact Hstages | reflexivity].
Defined.

(** C6, counterexample. On a remote pipeline state whose one action has a
    latest execution without a summary, get_pipeline_state succeeds and
    reports that execution without a summary: the field is [undefined] in
    the reported object, and the envelope's text has no such key. *)
Lemma getPipelineState_leaves_summary_absent :
  via (as_latestExecution Examples.bare_action) ae_summary = None
  /\ succeeded (run (getPipelineState_payload Examples.deploy) Examples.bare_world) = true
  /\ field "summary"
       (field "latestExecution"
          (item 0 (field "actionStates"
             (item 0 (field "stageStates"
                (field "pipelineState"
                   (reported (run (getPipelineState_payload Examples.deploy)
                                  Examples.bare_world)))))))) = JUndefined
  /\ complete (reported (run (getPipelineState_payload Examples.deploy)
                             Examples.bare_world)) = false
  /\ contains (quote "summary")
       (text_of (run (getPipelineState Examples.deploy) Examples.bare_world)) = false
  /\ contains (quote "status")
       (text_of (run (getPipelineState Examples.deploy) Examples.bare_world)) = true.
Proof. vm_compute. repeat split. Qed.

End ReadProjections.

(** ** Counts in floating point *)

Section Counts.
Import Num Spec.

Lemma shr_1_nonneg (mrs : shr_record) : 0 <= shr_m mrs -> 0 <= shr_m (shr_1 mrs).
Proof.
  destruct mrs as [m r s]. simpl. intros H.
  destruct m as [| p | p]; [simpl; lia | | lia].
  destruct p; simpl; lia.
Qed.

Lemma iter_shr_1_nonneg (p : positive) :
  forall mrs, 0 <= shr_m mrs -> 0 <= shr_m (iter_pos shr_1 p mrs).
Proof.
  induction p as [p IH | p IH |]; intros mrs H; simpl.
  - apply IH, IH, shr_1_nonneg, H.
  - apply IH, IH, H.
  - apply shr_1_nonneg, H.
Qed.

Lemma shr_fexp_nonneg (m e : Z) (l : location) :
  0 <= m -> 0 <= shr_m (fst (shr_fexp prec emax m e l)).
Proof.
  intros H. unfold shr_fexp, shr.
  assert (H0 : 0 <= shr_m (shr_record_of_loc m l))
    by (destruct l as [| []]; simpl; exact H).
  destruct (_ - e) as [| p | p]; simpl; [exact H0 | | exact H0].
  apply iter_shr_1_nonneg, H0.
Qed.

Lemma round_nearest_even_nonneg (m : Z) (l : location) :
  0 <= m -> 0 <= round_nearest_even m l.
Proof.
  intros H. unfold round_nearest_even.
  destruct l as [| []]; try lia. destruct (Z.even m); lia.
Qed.

Lemma binary_round_aux_count (m e : Z) (l : location) :
  0 <= m -> is_count (binary_round_aux prec emax false m e l) = true.
Proof.
  intros H. unfold binary_round_aux.
  pose proof (shr_fexp_nonneg m e l H) as H1.
  destruct (shr_fexp prec emax m e l) as [mrs' e']. simpl in H1.
  pose proof (shr_fexp_nonneg _ e' loc_Exact
                (round_nearest_even_nonneg _ (loc_of_shr_record mrs') H1)) as H2.
  destruct (shr_fexp prec emax _ e' loc_Exact) as [mrs'' e'']. simpl in H2.
  destruct (shr_m mrs'') as [| p | p]; [reflexivity | | lia].
  destruct (e'' <=? emax - prec); reflexivity.
Qed.

(** Counts are closed under floating-point addition. *)
Lemma add_count (x y : number) :
  is_count x = true -> is_count y = true -> is_count (add x y) = true.
Proof.
  destruct x as [[] | [] | | [] mx ex]; try discriminate;
    destruct y as [[] | [] | | [] my ey]; try discriminate; intros _ _;
    try reflexivity.
  unfold add, SFadd, binary_normalize, cond_Zopp.
  match goal with
  | |- context [Z.pos ?a + Z.pos ?b] => change (Z.pos a + Z.pos b) with (Z.pos (a + b))
  end.
  cbv iota. unfold binary_round.
  destruct (shl_align _ _ _) as [mz ez].
  apply binary_round_aux_count. lia.
Qed.

Lemma or_else_count (v : number) :
  SFleb zero v = true -> is_count (or_else (Some v) zero) = true.
Proof. destruct v as [[] | [] | | [] m e]; simpl; intros H; try discriminate; reflexivity. Qed.

(** On a count, the guard [total > 0] fails exactly at zero. *)
Lemma count_gtb (x : number) :
  is_count x = true -> gtb x zero = negb (SFeqb x zero).
Proof. destruct x as [[] | [] | | [] m e]; simpl; intros H; try discriminate; reflexivity. Qed.

Lemma zero_not_gtb (x : number) : SFeqb x zero = true -> gtb x zero = false.
Proof. destruct x as [[] | [] | | [] m e]; simpl; intros H; try discriminate; reflexivity. Qed.

Lemma count_truthy_or_zero (x : number) :
  is_count x = true -> (if truthy x then x else zero) = x.
Proof. destruct x as [[] | [] | | [] m e]; simpl; intros H; try discriminate; reflexivity. Qed.

End Counts.

(** ** get_pipeline_metrics *)

Section MetricsRuns.
Import Json AWS Eff Tools Metrics Spec.

Lemma endTime_of_calls input env st endTime st' :
  endTime_of input env st = (Ok endTime, st') -> calls st' = calls st.
Proof.
  unfold endTime_of, Date_of_string, Date_now.
  destruct (MetricsInput.endTime input) as [s |]; [destruct (str_truthy s) |];
    intros H; inversion H; reflexivity.
Qed.

Lemma startTime_of_calls input endTime env st startTime st' :
  startTime_of input endTime env st = (Ok startTime, st') -> calls st' = calls st.
Proof.
  unfold startTime_of, Date_of_string, ret.
  destruct (MetricsInput.startTime input) as [s |]; [destruct (str_truthy s) |];
    intros H; inversion H; reflexivity.
Qed.

Lemma toISOString_ok d env st s st' :
  toISOString d env st = (Ok s, st') -> exists t, d = Some t /\ s = JsDate.iso_string t.
Proof.
  destruct d as [t |]; simpl; intros H.
  - apply ret_ok in H. destruct H as [<- _]. exists t. split; reflexivity.
  - discriminate H.
Qed.

(** A successful run, taken apart: the time range it settled on, what the
    remote answered to the three metric queries, and the object reported. *)
Lemma getPipelineMetrics_payload_ok input env payload st' :
  run (getPipelineMetrics_payload input) env = (Ok payload, st') ->
  let pipelineName := MetricsInput.pipelineName input in
  let period := default (MetricsInput.period input) default_period in
  exists endTime startTime st0 st1 successMetric failedMetric executionTimeMetric
         executionTimeData stageDurations ts te,
    endTime_of input env initial = (Ok endTime, st0)
    /\ startTime_of input endTime env st0 = (Ok startTime, st1)
    /\ startTime = Some ts /\ endTime = Some te
    /\ remote env _ []
         (GetMetricStatistics
            (metric_request "SucceededPipeline" pipelineName startTime endTime period
                            ["Sum"; "Average"; "Maximum"])) = inr successMetric
    /\ remote env _
         [ Req (GetMetricStatistics
                  (metric_request "SucceededPipeline" pipelineName startTime endTime period
                                  ["Sum"; "Average"; "Maximum"])) ]
         (GetMetricStatistics
            (metric_request "FailedPipeline" pipelineName startTime endTime period
                            ["Sum"; "Average"; "Maximum"])) = inr failedMetric
    /\ remote env _
         [ Req (GetMetricStatistics
                  (metric_request "SucceededPipeline" pipelineName startTime endTime period
                                  ["Sum"; "Average"; "Maximum"]));
           Req (GetMetricStatistics
                  (metric_request "FailedPipeline" pipelineName startTime endTime period
                                  ["Sum"; "Average"; "Maximum"])) ]
         (GetMetricStatistics
            (metric_request "PipelineExecutionTime" pipelineName startTime endTime period
                            ["Average"; "Minimum"; "Maximum"])) = inr executionTimeMetric
    /\ (gms_Datapoints executionTimeMetric = Some [] -> executionTimeData = Some [])
    /\ payload =
       [ ("pipelineName", JStr pipelineName);
         ("timeRange", JObj [ ("startTime", JStr (JsDate.iso_string ts));
                              ("endTime", JStr (JsDate.iso_string te));
                              ("periodSeconds", JNum period) ]);
         ("executionStats", executionStats_of successMetric failedMetric);
         ("executionTime", executionTime_of executionTimeMetric
                                            (arr_or_empty executionTimeData));
         ("stagePerformance", JArr stageDurations) ].
Proof.
  unfold run, getPipelineMetrics_payload. intros H. cbv zeta.
  apply bind_ok in H. destruct H as (endTime & st0 & Hend & H).
  apply bind_ok in H. destruct H as (startTime & st1 & Hstart & H).
  apply bind_ok in H. destruct H as (successMetric & st2 & Hs & H).
  apply bind_ok in H. destruct H as (failedMetric & st3 & Hf & H).
  apply bind_ok in H. destruct H as (executionTimeMetric & st4 & He & H).
  apply bind_ok in H. destruct H as (executionTimeData & st5 & Hdata & H).
  apply bind_ok in H. destruct H as (pipelineExecutions & st6 & _ & H).
  apply bind_ok in H. destruct H as (stageMetrics & st7 & _ & H).
  apply bind_ok in H. destruct H as (startText & st8 & Hst & H).
  apply bind_ok in H. destruct H as (endText & st9 & Het & H).
  apply ret_ok in H. destruct H as [<- _].
  apply toISOString_ok in Hst. destruct Hst as (ts & Hts & ->).
  apply toISOString_ok in Het. destruct Het as (te & Hte & ->).
  pose proof (endTime_of_calls _ _ _ _ _ Hend) as C0.
  pose proof (startTime_of_calls _ _ _ _ _ _ Hstart) as C1.
  apply sdk_ok in Hs. destruct Hs as [Hs ->].
  apply sdk_ok in Hf. destruct Hf as [Hf ->].
  apply sdk_ok in He. destruct He as [He ->].
  simpl in Hs, Hf, He. rewrite C1, C0 in Hs, Hf, He. simpl in Hs, Hf, He.
  exists endTime, startTime, st0, st1, successMetric, failedMetric, executionTimeMetric,
         executionTimeData, (stageDurations_of stageMetrics), ts, te.
  repeat (split; [assumption || reflexivity |]).
  split; [| reflexivity].
  intros Hempty. rewrite Hempty in Hdata. simpl in Hdata.
  apply bind_ok in Hdata. destruct Hdata as (ys & st10 & Hys & Hdata).
  apply ret_ok in Hys. destruct Hys as [<- _].
  apply ret_ok in Hdata. destruct Hdata as [<- _]. reflexivity.
Qed.

Lemma sum_of_count (datapoints : list Datapoint) :
  (forall point v, In point datapoints -> dp_Sum point = Some v -> nonneg v) ->
  forall acc, is_count acc = true ->
    is_count (fold_left (fun sum point => Num.add sum (Num.or_else (dp_Sum point) Num.zero))
                        datapoints acc) = true.
Proof.
  induction datapoints as [| point rest IH]; intros Hall acc Hacc; simpl; [exact Hacc |].
  apply IH.
  - intros p v Hp Hv. apply (Hall p v); [right; exact Hp | exact Hv].
  - apply add_count; [exact Hacc |].
    destruct (dp_Sum point) as [v |] eqn:Hv; [| reflexivity].
    apply or_else_count. apply (Hall point v); [left; reflexivity | exact Hv].
Qed.

(** The code's reduction is the specification's sum. *)
Lemma sum_of_add_up (datapoints : list Datapoint) :
  forall total,
    fold_left (fun sum point => Num.add sum (Num.or_else (dp_Sum point) Num.zero))
              datapoints total
    = add_up total datapoints.
Proof.
  induction datapoints as [| point rest IH]; intros total; [reflexivity |].
  cbn [fold_left add_up]. rewrite IH. f_equal. f_equal.
  unfold Sum_statistic, Num.or_else.
  destruct (dp_Sum point) as [[s | s | | s m e] |]; reflexivity.
Qed.

Lemma total_of_count_of (metric : GetMetricStatisticsOutput) :
  total_of metric = count_of metric.
Proof.
  unfold total_of, count_of, sum_of.
  destruct (gms_Datapoints metric) as [datapoints |]; [| reflexivity].
  rewrite sum_of_add_up.
  destruct (add_up Num.zero datapoints) as [s | s | | s m e]; reflexivity.
Qed.

Lemma count_of_count (metric : GetMetricStatisticsOutput) :
  counts metric -> is_count (count_of metric) = true.
Proof.
  rewrite <- total_of_count_of. unfold counts, total_of. intros H.
  destruct (gms_Datapoints metric) as [datapoints |]; [| reflexivity].
  assert (Hc : is_count (sum_of dp_Sum datapoints) = true).
  { unfold sum_of. apply sum_of_count; [| reflexivity].
    intros point v Hp Hv. apply (H datapoints point v eq_refl Hp Hv). }
  cbv zeta.
  eapply eq_trans; [apply f_equal; apply count_truthy_or_zero, Hc | exact Hc].
Qed.

(** The rate text of the code against the specification's formula. *)
Lemma executionStats_successRate successMetric failedMetric :
  counts successMetric -> counts failedMetric ->
  field "successRate" (executionStats_of successMetric failedMetric)
  = JStr (Spec.successRate (count_of successMetric) (count_of failedMetric)).
Proof.
  intros Hs Hf.
  pose proof (count_of_count _ Hs) as Cs. pose proof (count_of_count _ Hf) as Cf.
  unfold executionStats_of. rewrite !total_of_count_of.
  change (field "successRate" (JObj ?l)) with (lookup "successRate" l).
  unfold Spec.successRate, successRate_of. cbn [lookup String.eqb Ascii.eqb Bool.eqb].
  rewrite (count_gtb _ (add_count _ _ Cs Cf)).
  destruct (SFeqb _ Num.zero); reflexivity.
Qed.

(** The rate text of the code against the amended formula, on every answer. *)
Lemma executionStats_rate successMetric failedMetric :
  field "successRate" (executionStats_of successMetric failedMetric)
  = JStr (Spec.rate (count_of successMetric) (count_of failedMetric)).
Proof.
  unfold executionStats_of. rewrite !total_of_count_of.
  change (field "successRate" (JObj ?l)) with (lookup "successRate" l).
  unfold Spec.rate, successRate_of. cbn [lookup String.eqb Ascii.eqb Bool.eqb].
  destruct (Num.gtb _ Num.zero); reflexivity.
Qed.

End MetricsRuns.

(** ** Text of an object *)

Section Text.
Import Json Spec.

Lemma occurs_refl (s : string) : occurs s s.
Proof.
  exists "", "". simpl. induction s as [| c s IH]; simpl; [| rewrite <- IH]; reflexivity.
Qed.

Lemma occurs_append (sub text before after : string) :
  occurs sub text -> occurs sub (before ++ text ++ after).
Proof.
  intros (b & a & ->). exists (before ++ b), (a ++ after).
  rewrite !append_assoc. reflexivity.
Qed.

Lemma append_empty (s : string) : s ++ "" = s.
Proof. induction s as [| c s IH]; simpl; [| rewrite IH]; reflexivity. Qed.

Lemma occurs_indented (inner part : string) (parts : list string) :
  In part parts ->
  occurs (inner ++ part) (inner ++ join ("," ++ newline ++ inner) parts).
Proof.
  induction parts as [| p rest IH]; intros Hin; [contradiction Hin |].
  destruct rest as [| q rest'].
  - destruct Hin as [-> | []]. apply occurs_refl.
  - change (join ("," ++ newline ++ inner) (p :: q :: rest'))
      with (p ++ ("," ++ newline ++ inner) ++ join ("," ++ newline ++ inner) (q :: rest')).
    destruct Hin as [-> | Hin].
    + exists "", (("," ++ newline ++ inner) ++ join ("," ++ newline ++ inner) (q :: rest')).
      rewrite !append_assoc. reflexivity.
    + specialize (IH Hin).
      pose proof (occurs_append _ _ (inner ++ p ++ "," ++ newline) "" IH) as H.
      rewrite append_empty in H. rewrite !append_assoc in H |- *. exact H.
Qed.

Lemma ser_object (indent : string) (props : list (string * jsval)) :
  ser indent (JObj props) =
  match members_of (ser (indent ++ gap)) props with
  | [] => "{}"
  | parts => wrap "{" "}" indent parts
  end.
Proof.
  cbn [ser].
  match goal with
  | |- match ?m props with _ => _ end = _ =>
      assert (Hm : forall l, m l = members_of (ser (indent ++ gap)) l)
  end.
  { induction l as [| [k x] rest IH]; [reflexivity |].
    cbn [members_of]. rewrite <- IH. reflexivity. }
  rewrite Hm. reflexivity.
Qed.

Lemma in_members_of (f : jsval -> string) (k : string) (v : jsval)
      (props : list (string * jsval)) :
  In (k, v) props -> is_undefined v = false ->
  In (quote k ++ ": " ++ f v) (members_of f props).
Proof.
  intros Hin Hdef. induction props as [| [k' x] rest IH]; [contradiction Hin |].
  cbn [members_of]. destruct Hin as [Heq | Hin].
  - inversion Heq. subst. rewrite Hdef. left. reflexivity.
  - destruct (is_undefined x); [| right]; apply IH, Hin.
Qed.

(** A property whose value is not [undefined] appears in the object's
    text on a line of its own indentation. *)
Lemma property_in_text (indent k : string) (v : jsval) (props : list (string * jsval)) :
  In (k, v) props -> is_undefined v = false ->
  occurs (line (indent ++ gap) k (ser (indent ++ gap) v)) (ser indent (JObj props)).
Proof.
  intros Hin Hdef. rewrite ser_object.
  pose proof (in_members_of (ser (indent ++ gap)) k v props Hin Hdef) as Hm.
  destruct (members_of (ser (indent ++ gap)) props) as [| p rest] eqn:E;
    [contradiction Hm |].
  unfold wrap, line.
  pose proof (occurs_indented (indent ++ gap) _ _ Hm) as H.
  pose proof (occurs_append _ _ ("{" ++ newline) (newline ++ indent ++ "}") H) as H'.
  repeat rewrite append_assoc in H'. repeat rewrite append_assoc. exact H'.
Qed.

End Text.

Section Contains.
Import Spec.

Lemma prefix_append (sub after : string) : String.prefix sub (sub ++ after) = true.
Proof.
  induction sub as [| c sub IH]; simpl; [destruct after; reflexivity |].
  destruct (Ascii.ascii_dec c c) as [_ | Hne]; [exact IH | contradiction Hne; reflexivity].
Qed.

(** [contains] finds every occurrence. *)
Lemma occurs_contains (sub text : string) : occurs sub text -> contains sub text = true.
Proof.
  intros (b & a & ->). induction b as [| c b IH].
  - change ("" ++ sub ++ a) with (sub ++ a).
    pose proof (prefix_append sub a) as P.
    destruct (sub ++ a) as [| c t]; cbn [contains]; rewrite P; reflexivity.
  - change (String c b ++ sub ++ a) with (String c (b ++ sub ++ a)).
    cbn [contains]. rewrite IH. apply orb_true_r.
Qed.

End Contains.

Section MetricsClaims.
Import Json AWS Eff Tools Metrics Spec.

(** C2, as amended. Whenever get_pipeline_metrics succeeds, with
    [successMetric] and [failedMetric] what the remote answered to the
    success and failure queries, and the counts being the sums of the Sum
    statistics of their data points (a Sum that is missing, zero or not a
    number adding nothing, a sum that is not a number counting as zero):
    the report carries the two counts and their total, and its successRate
    is successCount / (successCount + failureCount) * 100 printed with two
    decimals and a percent sign when the total is greater than zero, and
    "0.00%" whenever it is not. When no Sum statistic is below zero this
    is the specification's own wording of the rate. And whenever the
    reported totalExecutions is zero, the reported successRate is
    "0.00%". *)
Theorem getPipelineMetrics_successRate
        (input : MetricsInput.t) (env : Env) (payload : list (string * jsval)) (st' : State) :
  run (getPipelineMetrics_payload input) env = (Ok payload, st') ->
  let pipelineName := MetricsInput.pipelineName input in
  let period := default (MetricsInput.period input) default_period in
  let stats := field "executionStats" (JObj payload) in
  exists startTime endTime successMetric failedMetric,
    remote env _ []
      (GetMetricStatistics
         (metric_request "SucceededPipeline" pipelineName startTime endTime period
                         ["Sum"; "Average"; "Maximum"])) = inr successMetric
    /\ remote env _
         [ Req (GetMetricStatistics
                  (metric_request "SucceededPipeline" pipelineName startTime endTime period
                                  ["Sum"; "Average"; "Maximum"])) ]
         (GetMetricStatistics
            (metric_request "FailedPipeline" pipelineName startTime endTime period
                            ["Sum"; "Average"; "Maximum"])) = inr failedMetric
    /\ field "successfulExecutions" stats = JNum (count_of successMetric)
    /\ field "failedExecutions" stats = JNum (count_of failedMetric)
    /\ field "totalExecutions" stats
       = JNum (Num.add (count_of successMetric) (count_of failedMetric))
    /\ field "successRate" stats
       = JStr (Spec.rate (count_of successMetric) (count_of failedMetric))
    /\ (counts successMetric -> counts failedMetric ->
        field "successRate" stats
        = JStr (Spec.successRate (count_of successMetric) (count_of failedMetric)))
    /\ (forall total,
           field "totalExecutions" stats = JNum total ->
           SFeqb total Num.zero = true ->
           field "successRate" stats = JStr "0.00%").
Proof.
  intros H. apply getPipelineMetrics_payload_ok in H. cbv zeta in H |- *.
  destruct H as (endTime & startTime & st0 & st1 & successMetric & failedMetric
                 & executionTimeMetric & data & durations & ts & te
                 & _ & _ & _ & _ & Hs & Hf & _ & _ & ->).
  exists startTime, endTime, successMetric, failedMetric.
  split; [exact Hs |]. split; [exact Hf |].
  change (field "executionStats" (JObj ?l)) with (lookup "executionStats" l).
  cbn [lookup String.eqb Ascii.eqb Bool.eqb].
  refine (conj _ (conj _ (conj _ (conj _ (conj _ _))))).
  - unfold executionStats_of. rewrite !total_of_count_of. reflexivity.
  - unfold executionStats_of. rewrite !total_of_count_of. reflexivity.
  - unfold executionStats_of. rewrite !total_of_count_of. reflexivity.
  - apply executionStats_rate.
  - apply executionStats_successRate.
  - intros total Htotal Hzero. unfold executionStats_of in *.
    cbn [field lookup String.eqb Ascii.eqb Bool.eqb] in *.
    inversion Htotal as [Ht]. unfold successRate_of. rewrite Ht.
    rewrite (zero_not_gtb _ Hzero). reflexivity.
Qed.

Lemma getPipelineMetrics_successRate_witness :
  succeeded (run (getPipelineMetrics_payload Examples.january)
                 (Worlds.counted [3; 3] [2])) = true
  /\ field "successRate"
       (field "executionStats"
          (reported (run (getPipelineMetrics_payload Examples.january)
                         (Worlds.counted [3; 3] [2])))) = JStr "75.00%".
Proof.
  destruct (run (getPipelineMetrics_payload Examples.january) (Worlds.counted [3; 3] [2]))
    as [r st'] eqn:E.
  assert (Hok : exists payload, r = Ok payload).
  { vm_compute in E. inversion E. eexists. reflexivity. }
  destruct Hok as [payload ->]. split; [reflexivity |].
  destruct (getPipelineMetrics_successRate _ _ _ _ E)
    as (startTime & endTime & successMetric & failedMetric & Hs & Hf & _ & _ & _
        & Hrate & _).
  cbv zeta in Hs, Hf, Hrate. simpl in Hs, Hf. inversion Hs. inversion Hf.
  subst successMetric failedMetric.
  unfold reported. cbn [fst]. rewrite Hrate. vm_compute. reflexivity.
Defined.

(** C2, counterexample. With three successes and a failure statistic of
    minus five, the sums add up to minus two: the call succeeds and reports
    "0.00%", where successCount / (successCount + failureCount) * 100 is
    minus 150. The formula is applied only to a total greater than zero. *)
Lemma getPipelineMetrics_rate_below_zero :
  succeeded (run (getPipelineMetrics_payload Examples.january)
                 (Worlds.counted [3] [-5])) = true
  /\ field "successRate"
       (field "executionStats"
          (reported (run (getPipelineMetrics_payload Examples.january)
                         (Worlds.counted [3] [-5])))) = JStr "0.00%"
  /\ count_of (Worlds.sums [3] [-5] "SucceededPipeline") = Num.of_Z 3
  /\ count_of (Worlds.sums [3] [-5] "FailedPipeline") = Num.of_Z (-5)
  /\ Spec.successRate (Num.of_Z 3) (Num.of_Z (-5)) = "-150.00%".
Proof. vm_compute. repeat split. Qed.

End MetricsClaims.

Section TimeRange.
Import Json AWS Eff Tools Metrics Spec.

Lemma Date_of_canonical (t : Z) env st :
  - JsDate.maxTime <= t <= JsDate.maxTime ->
  Date_of_string (JsDate.iso_string t) env st = (Ok (Some t), st).
Proof.
  intros Ht. unfold Date_of_string. rewrite parse_iso_iso_string by exact Ht.
  unfold JsDate.TimeClip.
  destruct (Z.leb_spec (Z.abs t) JsDate.maxTime) as [_ | Hgt]; [reflexivity | lia].
Qed.

(** C9, as amended. Whenever get_pipeline_metrics succeeds, a non-empty
    startTime (endTime) denotes an instant [t], the one [new Date(text)]
    makes of it on this host, and comes back in timeRange as [toISOString]
    of [t]; so it comes back as the identical string exactly when the
    input is itself [toISOString] of [t]. Every such text, for an instant
    [t] in the range of dates, is read back as [t] on every host, so an
    input that [toISOString] could have printed always comes back
    unchanged. *)
Theorem getPipelineMetrics_timeRange
        (input : MetricsInput.t) (env : Env) (payload : list (string * jsval)) (st' : State) :
  run (getPipelineMetrics_payload input) env = (Ok payload, st') ->
  let timeRange := field "timeRange" (JObj payload) in
  (forall t, - JsDate.maxTime <= t <= JsDate.maxTime ->
             MetricsInput.startTime input = Some (JsDate.iso_string t) ->
             field "startTime" timeRange = JStr (JsDate.iso_string t))
  /\ (forall t, - JsDate.maxTime <= t <= JsDate.maxTime ->
                MetricsInput.endTime input = Some (JsDate.iso_string t) ->
                field "endTime" timeRange = JStr (JsDate.iso_string t))
  /\ (forall s, MetricsInput.startTime input = Some s -> s <> "" ->
                exists t, Props.date_value env s = Some t
                          /\ field "startTime" timeRange = JStr (JsDate.iso_string t)
                          /\ (field "startTime" timeRange = JStr s
                              <-> s = JsDate.iso_string t))
  /\ (forall s, MetricsInput.endTime input = Some s -> s <> "" ->
                exists t, Props.date_value env s = Some t
                          /\ field "endTime" timeRange = JStr (JsDate.iso_string t)
                          /\ (field "endTime" timeRange = JStr s
                              <-> s = JsDate.iso_string t))
  /\ (forall t, - JsDate.maxTime <= t <= JsDate.maxTime ->
                Props.date_value env (JsDate.iso_string t) = Some t)
  /\ (forall s t, MetricsInput.startTime input = Some s -> s <> "" ->
                  JsDate.parse_iso (utc_of_local env) s = Some (Some t) ->
                  field "startTime" timeRange = JStr (JsDate.iso_string t))
  /\ (forall s t, MetricsInput.endTime input = Some s -> s <> "" ->
                  JsDate.parse_iso (utc_of_local env) s = Some (Some t) ->
                  field "endTime" timeRange = JStr (JsDate.iso_string t)).
Proof.
  intros H. apply getPipelineMetrics_payload_ok in H. cbv zeta in H |- *.
  destruct H as (endTime & startTime & st0 & st1 & successMetric & failedMetric
                 & executionTimeMetric & data & durations & ts & te
                 & Hend & Hstart & -> & -> & _ & _ & _ & _ & ->).
  change (field "timeRange" (JObj ?l)) with (lookup "timeRange" l).
  cbn [field lookup String.eqb Ascii.eqb Bool.eqb].
  assert (Hsv : forall s, MetricsInput.startTime input = Some s -> s <> "" ->
                          Props.date_value env s = Some ts).
  { intros s Hin Hne. unfold startTime_of in Hstart. rewrite Hin in Hstart.
    destruct s as [| c s]; [contradiction Hne; reflexivity |]. simpl in Hstart.
    unfold Date_of_string in Hstart. inversion Hstart as [[Hv Hst]].
    unfold Props.date_value. reflexivity. }
  assert (Hev : forall s, MetricsInput.endTime input = Some s -> s <> "" ->
                          Props.date_value env s = Some te).
  { intros s Hin Hne. unfold endTime_of in Hend. rewrite Hin in Hend.
    destruct s as [| c s]; [contradiction Hne; reflexivity |]. simpl in Hend.
    unfold Date_of_string in Hend. inversion Hend as [[Hv Hst]].
    unfold Props.date_value. reflexivity. }
  assert (Hcanon : forall t, - JsDate.maxTime <= t <= JsDate.maxTime ->
                             Props.date_value env (JsDate.iso_string t) = Some t).
  { intros t Ht. unfold Props.date_value. rewrite parse_iso_iso_string by exact Ht.
    unfold JsDate.TimeClip.
    destruct (Z.leb_spec (Z.abs t) JsDate.maxTime) as [_ | Hgt]; [reflexivity | lia]. }
  assert (Hparsed : forall s t, JsDate.parse_iso (utc_of_local env) s = Some (Some t) ->
                                forall t', Props.date_value env s = Some t' -> t' = t).
  { intros s t Hparse t' Hv. unfold Props.date_value in Hv. rewrite Hparse in Hv.
    unfold JsDate.TimeClip in Hv.
    destruct (Z.abs t <=? JsDate.maxTime); inversion Hv. reflexivity. }
  assert (Hne : forall t, JsDate.iso_string t <> "").
  { intros t E. pose proof (iso_string_truthy t) as T. rewrite E in T. discriminate T. }
  refine (conj _ (conj _ (conj _ (conj _ (conj Hcanon (conj _ _)))))).
  - intros t Ht Hin. pose proof (Hsv _ Hin (Hne t)) as Hv.
    rewrite (Hcanon t Ht) in Hv. inversion Hv. reflexivity.
  - intros t Ht Hin. pose proof (Hev _ Hin (Hne t)) as Hv.
    rewrite (Hcanon t Ht) in Hv. inversion Hv. reflexivity.
  - intros s Hin Hn. exists ts. split; [exact (Hsv s Hin Hn) |].
    split; [reflexivity |]. split.
    + intros E. inversion E. reflexivity.
    + intros ->. reflexivity.
  - intros s Hin Hn. exists te. split; [exact (Hev s Hin Hn) |].
    split; [reflexivity |]. split.
    + intros E. inversion E. reflexivity.
    + intros ->. reflexivity.
  - intros s t Hin Hn Hparse. rewrite (Hparsed s t Hparse ts (Hsv s Hin Hn)). reflexivity.
  - intros s t Hin Hn Hparse. rewrite (Hparsed s t Hparse te (Hev s Hin Hn)). reflexivity.
Qed.

Lemma getPipelineMetrics_timeRange_witness :
  succeeded (run (getPipelineMetrics_payload Examples.january_canonical)
                 Examples.quiet) = true
  /\ MetricsInput.startTime Examples.january_canonical
     = Some (JsDate.iso_string 1704067200000)
  /\ field "startTime"
       (field "timeRange"
          (reported (run (getPipelineMetrics_payload Examples.january_canonical)
                         Examples.quiet)))
     = JStr (JsDate.iso_string 1704067200000).
Proof.
  destruct (run (getPipelineMetrics_payload Examples.january_canonical) Examples.quiet)
    as [r st'] eqn:E.
  assert (Hok : exists payload, r = Ok payload).
  { vm_compute in E. inversion E. eexists. reflexivity. }
  destruct Hok as [payload ->]. split; [reflexivity |]. split; [reflexivity |].
  destruct (getPipelineMetrics_timeRange _ _ _ _ E) as (Hstart & _).
  apply Hstart; [unfold JsDate.maxTime; lia | reflexivity].
Defined.

(** C9, counterexample. The ISO-8601 start time "2024-01-01T00:00:00Z" is
    accepted, and comes back in timeRange as "2024-01-01T00:00:00.000Z":
    the same instant, not the same string. *)
Lemma getPipelineMetrics_reprints_startTime :
  MetricsInput.startTime Examples.january = Some "2024-01-01T00:00:00Z"
  /\ succeeded (run (getPipelineMetrics_payload Examples.january) Examples.quiet) = true
  /\ field "startTime"
       (field "timeRange"
          (reported (run (getPipelineMetrics_payload Examples.january) Examples.quiet)))
     = JStr "2024-01-01T00:00:00.000Z"
  /\ "2024-01-01T00:00:00.000Z" <> "2024-01-01T00:00:00Z".
Proof.
  split; [reflexivity |]. split; [vm_compute; reflexivity |].
  split; [vm_compute; reflexivity | discriminate].
Qed.

(** C10, as amended. Whenever get_pipeline_metrics succeeds and the
    execution-time query answered with a list of data points that is
    present and empty, the reported executionTime has average 0, minimum
    [+Infinity], maximum [-Infinity] and no data points; and the text of
    the success envelope carries that block with both extremes written
    [null]. *)
Theorem getPipelineMetrics_empty_executionTime
        (input : MetricsInput.t) (env : Env) (payload : list (string * jsval)) (st' : State) :
  run (getPipelineMetrics_payload input) env = (Ok payload, st') ->
  let pipelineName := MetricsInput.pipelineName input in
  let period := default (MetricsInput.period input) default_period in
  let executionTime := field "executionTime" (JObj payload) in
  exists startTime endTime executionTimeMetric,
    remote env _
      [ Req (GetMetricStatistics
               (metric_request "SucceededPipeline" pipelineName startTime endTime period
                               ["Sum"; "Average"; "Maximum"]));
        Req (GetMetricStatistics
               (metric_request "FailedPipeline" pipelineName startTime endTime period
                               ["Sum"; "Average"; "Maximum"])) ]
      (GetMetricStatistics
         (metric_request "PipelineExecutionTime" pipelineName startTime endTime period
                         ["Average"; "Minimum"; "Maximum"])) = inr executionTimeMetric
    /\ (gms_Datapoints executionTimeMetric = Some [] ->
        field "average" executionTime = JNum Num.zero
        /\ field "minimum" executionTime = JNum Num.Infinity
        /\ field "maximum" executionTime = JNum Num.NegInfinity
        /\ field "dataPoints" executionTime = JArr []
        /\ occurs empty_executionTime_text (JSON_stringify payload)).
Proof.
  intros H. apply getPipelineMetrics_payload_ok in H. cbv zeta in H |- *.
  destruct H as (endTime & startTime & st0 & st1 & successMetric & failedMetric
                 & executionTimeMetric & data & durations & ts & te
                 & _ & _ & _ & _ & _ & _ & He & Hdata & ->).
  exists startTime, endTime, executionTimeMetric.
  split; [exact He |]. intros Hempty. specialize (Hdata Hempty). subst data.
  change (field "executionTime" (JObj ?l)) with (lookup "executionTime" l).
  cbn [lookup String.eqb Ascii.eqb Bool.eqb].
  unfold executionTime_of, average_of, extremes_input. rewrite Hempty.
  cbn [field lookup String.eqb Ascii.eqb Bool.eqb map arr_or_empty].
  repeat (split; [reflexivity |]).
  unfold JSON_stringify.
  match goal with
  | |- occurs _ (ser "" (JObj ?props)) =>
      pose proof (property_in_text "" "executionTime"
                    (JObj [ ("average", JNum Num.zero);
                            ("minimum", JNum (Num.Math_min []));
                            ("maximum", JNum (Num.Math_max []));
                            ("dataPoints", JArr []) ]) props) as Hp
  end.
  apply Hp; [| reflexivity].
  right. right. right. left. reflexivity.
Qed.

Lemma getPipelineMetrics_empty_executionTime_witness :
  succeeded (run (getPipelineMetrics_payload Examples.january) Examples.metrics_world) = true
  /\ field "minimum"
       (field "executionTime"
          (reported (run (getPipelineMetrics_payload Examples.january)
                         Examples.metrics_world))) = JNum Num.Infinity.
Proof.
  destruct (run (getPipelineMetrics_payload Examples.january) Examples.metrics_world)
    as [r st'] eqn:E.
  assert (Hok : exists payload, r = Ok payload).
  { vm_compute in E. inversion E. eexists. reflexivity. }
  destruct Hok as [payload ->]. split; [reflexivity |].
  destruct (getPipelineMetrics_empty_executionTime _ _ _ _ E)
    as (startTime & endTime & metric & Hremote & Hempty).
  cbv zeta in Hremote, Hempty. simpl in Hremote. inversion Hremote. subst metric.
  destruct (Hempty eq_refl) as (_ & Hmin & _). exact Hmin.
Defined.

(** C10, counterexample. With an empty list of execution-time data points
    the handler succeeds and computes [+Infinity] as the minimum, yet the
    text it returns, the public interface, writes the minimum and the
    maximum as [null] and has no "Infinity" anywhere in it. *)
Lemma getPipelineMetrics_text_hides_infinities :
  succeeded (run (getPipelineMetrics Examples.january) Examples.metrics_world) = true
  /\ field "minimum"
       (field "executionTime"
          (reported (run (getPipelineMetrics_payload Examples.january)
                         Examples.metrics_world))) = JNum Num.Infinity
  /\ contains (line "" "minimum" "null")
       (text_of (run (getPipelineMetrics Examples.january) Examples.metrics_world)) = true
  /\ contains (line "" "maximum" "null")
       (text_of (run (getPipelineMetrics Examples.january) Examples.metrics_world)) = true
  /\ ~ occurs "Infinity"
       (text_of (run (getPipelineMetrics Examples.january) Examples.metrics_world)).
Proof.
  split; [vm_compute; reflexivity |]. split; [vm_compute; reflexivity |].
  split; [vm_compute; reflexivity |]. split; [vm_compute; reflexivity |].
  intros Hocc. apply occurs_contains in Hocc. vm_compute in Hocc. discriminate Hocc.
Qed.

End TimeRange.

(** ** Handlers throw ordinary errors only *)

Section Plain.
Import Json AWS Eff Tools Metrics Server Props.

Lemma plain_ret {A} (a : A) : plain (ret a).
Proof. unfold plain, ret. intros env st code message st' H. discriminate H. Qed.

Lemma plain_throw {A} (e : Error) : plain (@throw A (JsError e)).
Proof. unfold plain, throw. intros env st code message st' H. discriminate H. Qed.

Lemma plain_bind {A B} (m : M A) (k : A -> M B) :
  plain m -> (forall a, plain (k a)) -> plain (bind m k).
Proof.
  unfold plain, bind. intros Hm Hk env st code message st' H.
  destruct (m env st) as [[a | x] st1] eqn:E.
  - exact (Hk a env st1 code message st' H).
  - inversion H. subst. exact (Hm env st code message st' E).
Qed.

Lemma plain_sdk {R} (c : Call R) : plain (sdk c).
Proof.
  unfold plain, sdk. intros env st code message st' H.
  destruct (remote env R (calls st) c); discriminate H.
Qed.

Lemma plain_Date_now : plain Date_now.
Proof. unfold plain, Date_now. intros env st code message st' H. discriminate H. Qed.

Lemma plain_Date_of_string (s : string) : plain (Date_of_string s).
Proof. unfold plain, Date_of_string. intros env st code message st' H. discriminate H. Qed.

Lemma plain_toISOString (d : JsDate.Date) : plain (toISOString d).
Proof. destruct d; [apply plain_ret | apply plain_throw]. Qed.

Lemma plain_mapM {A B} (f : A -> M B) (xs : list A) :
  (forall x, plain (f x)) -> plain (mapM f xs).
Proof.
  intros Hf. induction xs as [| x rest IH]; simpl; [apply plain_ret |].
  apply plain_bind; [apply Hf |]. intros y.
  apply plain_bind; [exact IH |]. intros ys. apply plain_ret.
Qed.

Lemma plain_forM {A S} (body : A -> S -> M S) (xs : list A) :
  (forall x s, plain (body x s)) -> forall s, plain (forM xs body s).
Proof.
  intros Hb. induction xs as [| x rest IH]; intros s; simpl; [apply plain_ret |].
  apply plain_bind; [apply Hb | exact IH].
Qed.

Lemma plain_map_opt {A} (f : A -> M jsval) (xs : option (list A)) :
  (forall x, plain (f x)) -> plain (map_opt f xs).
Proof.
  intros Hf. destruct xs as [l |]; simpl; [| apply plain_ret].
  apply plain_bind; [apply plain_mapM, Hf |]. intros ys. apply plain_ret.
Qed.

Lemma plain_iso_or_empty (d : option Date) : plain (iso_or_empty d).
Proof.
  destruct d as [d' |]; simpl; [| apply plain_ret].
  apply plain_bind; [apply plain_toISOString |]. intros s. apply plain_ret.
Qed.

Lemma plain_date_or_now (d : option Date) : plain (date_or_now d).
Proof.
  destruct d as [d' |]; simpl; [apply plain_ret |].
  apply plain_bind; [apply plain_Date_now |]. intros now.
  apply plain_bind; [apply plain_toISOString |]. intros s. apply plain_ret.
Qed.

(** Closes a goal [plain m] by following the structure of [m]. *)
Ltac plainly :=
  repeat first
    [ apply plain_ret
    | apply plain_throw
    | apply plain_sdk
    | apply plain_Date_now
    | apply plain_Date_of_string
    | apply plain_toISOString
    | apply plain_iso_or_empty
    | apply plain_date_or_now
    | apply plain_map_opt; intros ?
    | apply plain_mapM; intros ?
    | apply plain_forM; intros ? ?
    | apply plain_bind; [| intros ?]
    | match goal with
      | |- plain (match ?x with _ => _ end) => destruct x
      | |- plain (if ?b then _ else _) => destruct b
      end ].

Lemma plain_listPipelines : plain listPipelines.
Proof. unfold listPipelines, listPipelines_payload, pipeline_summary. plainly. Qed.

Lemma plain_pipelineState_of response : plain (pipelineState_of response).
Proof.
  unfold pipelineState_of, convert_stage, convert_action, convert_action_execution,
    convert_action_revision. plainly.
Qed.

Lemma plain_getPipelineState input : plain (getPipelineState input).
Proof.
  unfold getPipelineState, getPipelineState_payload.
  apply plain_bind; [| intros ?; apply plain_ret].
  apply plain_bind; [apply plain_sdk | intros ?].
  apply plain_bind; [apply plain_pipelineState_of | intros ?; apply plain_ret].
Qed.

Lemma plain_listPipelineExecutions input : plain (listPipelineExecutions input).
Proof.
  unfold listPipelineExecutions, listPipelineExecutions_payload, convert_execution,
    convert_source_revision. plainly.
Qed.

Lemma plain_getPipelineDetails input : plain (getPipelineDetails input).
Proof.
  unfold getPipelineDetails, getPipelineDetails_payload, convert_stage_declaration,
    convert_action_declaration. plainly.
Qed.

Lemma plain_triggerPipeline input : plain (triggerPipeline input).
Proof. unfold triggerPipeline. plainly. Qed.

Lemma plain_getPipelineExecutionLogs input : plain (getPipelineExecutionLogs input).
Proof. unfold getPipelineExecutionLogs, convert_artifact_revision. plainly. Qed.

Lemma plain_stopPipelineExecution input : plain (stopPipelineExecution input).
Proof. unfold stopPipelineExecution. plainly. Qed.

Lemma plain_approveAction input : plain (approveAction input).
Proof. unfold approveAction. plainly. Qed.

Lemma plain_retryStage input : plain (retryStage input).
Proof. unfold retryStage. plainly. Qed.

Lemma plain_tagPipelineResource input : plain (tagPipelineResource input).
Proof. unfold tagPipelineResource. plainly. Qed.

Lemma plain_createPipelineWebhook input : plain (createPipelineWebhook input).
Proof. unfold createPipelineWebhook, createPipelineWebhook_payload. plainly. Qed.

Lemma plain_getPipelineMetrics input : plain (getPipelineMetrics input).
Proof.
  unfold getPipelineMetrics, getPipelineMetrics_payload, endTime_of, startTime_of,
    convert_datapoint, process_execution. plainly.
Qed.

Lemma plain_bound params handler : bound params handler -> plain handler.
Proof.
  intros H. destruct H;
    first [ apply plain_listPipelines | apply plain_getPipelineState
          | apply plain_listPipelineExecutions | apply plain_approveAction
          | apply plain_retryStage | apply plain_triggerPipeline
          | apply plain_getPipelineExecutionLogs | apply plain_stopPipelineExecution
          | apply plain_getPipelineDetails | apply plain_tagPipelineResource
          | apply plain_createPipelineWebhook | apply plain_getPipelineMetrics ].
Qed.

Lemma registered_bound params :
  registered (p_name params) -> exists handler, bound params handler.
Proof.
  intros Hreg. destruct params as [name args]. unfold registered in Hreg.
  simpl in Hreg.
  repeat match type of Hreg with
         | _ \/ _ => destruct Hreg as [<- | Hreg]; [eexists; constructor |]
         end.
  contradiction Hreg.
Qed.

Lemma bound_outcome params handler env st :
  bound params handler ->
  Spec.relayed (handler env st) (CallToolRequestHandler params env st).
Proof. intros H. destruct H; apply relayed_try_catch. Qed.

(** X1. The error code tells the two failures apart: a call of an
    advertised tool that fails always fails with [InternalError] and a
    message "Tool execution failed: " followed by the text of the error
    thrown, never with the [InvalidRequest] of an unknown tool. *)
Theorem advertised_tool_fails_with_InternalError
        (params : CallToolParams) (env : Env) (st st' : State)
        (code : ErrorCode) (message : string) :
  registered (p_name params) ->
  CallToolRequestHandler params env st = (Throw (McpError code message), st') ->
  code = InternalError
  /\ exists e, message = "Tool execution failed: " ++ Error_toString e.
Proof.
  intros Hreg Hout. destruct (registered_bound params Hreg) as [handler Hb].
  pose proof (bound_outcome params handler env st Hb) as Hrel.
  pose proof (plain_bound params handler Hb) as Hplain.
  unfold Spec.relayed in Hrel.
  destruct (handler env st) as [[envelope | [e | c m]] st1] eqn:E.
  - rewrite Hrel in Hout. discriminate Hout.
  - rewrite Hrel in Hout. inversion Hout. split; [reflexivity |]. exists e. reflexivity.
  - exfalso. exact (Hplain env st c m st1 E).
Qed.

Lemma advertised_tool_fails_with_InternalError_witness :
  registered "tag_pipeline_resource"
  /\ CallToolRequestHandler
       {| p_name := "tag_pipeline_resource"; p_arguments := Examples.tag_missing |}
       Examples.quiet initial
     = (Throw (McpError InternalError
                 "Tool execution failed: Error: Could not find ARN for pipeline: missing-pipeline"),
        {| calls := [ Req (GetPipeline "missing-pipeline") ]; ticks := 0 |}).
Proof.
  assert (Hreg : registered "tag_pipeline_resource")
    by (unfold registered; simpl; tauto).
  split; [exact Hreg |].
  destruct (CallToolRequestHandler
              {| p_name := "tag_pipeline_resource"; p_arguments := Examples.tag_missing |}
              Examples.quiet initial) as [r st'] eqn:E.
  assert (Hthrow : exists code message,
             r = Throw (McpError code message)
             /\ st' = {| calls := [ Req (GetPipeline "missing-pipeline") ]; ticks := 0 |}
             /\ message = "Tool execution failed: Error: Could not find ARN for pipeline: missing-pipeline").
  { vm_compute in E. inversion E. eexists. eexists. repeat split. }
  destruct Hthrow as (code & message & -> & -> & ->).
  destruct (advertised_tool_fails_with_InternalError
              {| p_name := "tag_pipeline_resource"; p_arguments := Examples.tag_missing |}
              _ _ _ _ _ Hreg E) as [-> _].
  reflexivity.
Defined.

End Plain.

(** ** More on the handlers *)

Section Handlers.
Import Json AWS Eff Tools Metrics Server Props.

Lemma wrapped_single_text (m : M (list (string * jsval))) env st envelope st' :
  bind m (fun payload => ret (text_result payload)) env st = (Ok envelope, st') ->
  single_text envelope.
Proof.
  intros H. apply bind_ok in H. destruct H as (payload & st1 & _ & H).
  apply ret_ok in H. destruct H as [<- _]. eexists. reflexivity.
Qed.

Lemma after_call_single_text {R} (c : Call R) (payload : list (string * jsval))
      env st envelope st' :
  bind (sdk c) (fun _ => ret (text_result payload)) env st = (Ok envelope, st') ->
  single_text envelope.
Proof.
  intros H. apply bind_ok in H. destruct H as (r & st1 & _ & H).
  apply ret_ok in H. destruct H as [<- _]. eexists. reflexivity.
Qed.

(** X2. Every successful tool call, whatever the tool, returns an envelope
    of exactly one content block, of type "text". *)
Theorem success_is_one_text_block
        (params : CallToolParams) (env : Env) (st st' : State) (envelope : Envelope) :
  CallToolRequestHandler params env st = (Ok envelope, st') ->
  single_text envelope.
Proof.
  intros Hout.
  assert (Hreg : registered (p_name params)).
  { apply case_of_registered. intros Hnone.
    destruct params as [name args]. simpl in *.
    unfold CallToolRequestHandler in Hout. simpl in Hout. revert args Hout.
    rewrite Hnone. intros args Hout. discriminate Hout. }
  destruct (registered_bound params Hreg) as [handler Hb].
  pose proof (bound_outcome params handler env st Hb) as Hrel.
  unfold Spec.relayed in Hrel.
  destruct (handler env st) as [[envelope' | [e | c m]] st1] eqn:E;
    rewrite Hrel in Hout; try discriminate Hout.
  inversion Hout. subst. clear Hout Hrel.
  destruct Hb;
    try (eapply wrapped_single_text; exact E);
    try (eapply after_call_single_text; exact E).
  - (* trigger_pipeline *)
    unfold triggerPipeline in E. apply bind_ok in E.
    destruct E as (r & st2 & _ & E). apply ret_ok in E. destruct E as [<- _].
    eexists. reflexivity.
  - (* get_pipeline_execution_logs *)
    unfold getPipelineExecutionLogs in E. apply bind_ok in E.
    destruct E as (r & st2 & _ & E). apply bind_ok in E.
    destruct E as (revs & st3 & _ & E). apply ret_ok in E. destruct E as [<- _].
    eexists. reflexivity.
  - (* tag_pipeline_resource *)
    unfold tagPipelineResource in E. apply bind_ok in E.
    destruct E as (r & st2 & _ & E).
    destruct (via (gp_metadata r) pm_pipelineArn) as [arn |]; [| discriminate E].
    destruct (str_truthy arn); [| discriminate E].
    eapply after_call_single_text. exact E.
Qed.

Lemma success_is_one_text_block_witness :
  single_text
    {| content :=
         [ {| c_type := "text";
              c_text := Spec.text_of (CallToolRequestHandler
                                        {| p_name := "list_pipelines";
                                           p_arguments := None |}
                                        Examples.quiet initial) |} ] |}
  /\ Spec.succeeded (CallToolRequestHandler
                       {| p_name := "list_pipelines"; p_arguments := None |}
                       Examples.quiet initial) = true.
Proof.
  destruct (CallToolRequestHandler
              {| p_name := "list_pipelines"; p_arguments := None |}
              Examples.quiet initial) as [r st'] eqn:E.
  assert (Hok : exists envelope, r = Ok envelope).
  { vm_compute in E. inversion E. eexists. reflexivity. }
  destruct Hok as [envelope ->].
  pose proof (success_is_one_text_block
                {| p_name := "list_pipelines"; p_arguments := None |} _ _ _ _ E) as H.
  split; [| reflexivity]. destruct H as [text ->]. exists text. reflexivity.
Defined.

(** X3. The advertised names are pairwise distinct, and they are exactly
    the names the dispatcher has a case for. *)
Theorem advertised_names_are_the_cases :
  NoDup (map Server.name tools)
  /\ forall name, registered name <-> case_of name <> None.
Proof.
  split.
  - unfold tools. simpl.
    repeat (constructor; [simpl; intros H;
                          repeat (destruct H as [H | H]; [discriminate H |]);
                          exact H |]).
    constructor.
  - intros name. symmetry. apply case_of_registered.
Qed.

(** X4. The webhook's two steps are not compensated. When the put is
    refused, nothing else is attempted; when the put succeeds and the
    registration is refused, the handler fails with that error, and the log
    holds the put and the registration and no third call: the webhook
    stays put. *)
Theorem createPipelineWebhook_no_rollback (input : WebhookInput.t) (env : Env) :
  (forall e,
      remote env _ [] (PutWebhook (webhook_definition input)) = inl e ->
      run (createPipelineWebhook input) env =
      (Throw (JsError e),
       {| calls := [ Req (PutWebhook (webhook_definition input)) ]; ticks := 0 |}))
  /\ (forall response e,
         remote env _ [] (PutWebhook (webhook_definition input)) = inr response ->
         remote env _ [ Req (PutWebhook (webhook_definition input)) ]
                (RegisterWebhookWithThirdParty (WebhookInput.webhookName input)) = inl e ->
         run (createPipelineWebhook input) env =
         (Throw (JsError e),
          {| calls := [ Req (PutWebhook (webhook_definition input));
                        Req (RegisterWebhookWithThirdParty
                               (WebhookInput.webhookName input)) ];
             ticks := 0 |})).
Proof.
  split.
  - intros e Hput.
    unfold run, createPipelineWebhook, createPipelineWebhook_payload, bind, sdk. simpl.
    rewrite Hput. reflexivity.
  - intros response e Hput Hreg.
    unfold run, createPipelineWebhook, createPipelineWebhook_payload, bind, sdk. simpl.
    rewrite Hput. simpl. rewrite Hreg. reflexivity.
Qed.

Lemma createPipelineWebhook_no_rollback_witness :
  run (createPipelineWebhook Examples.hmac_webhook) Worlds.unlinked =
  (Throw (JsError Worlds.refused),
   {| calls := [ Req (PutWebhook (webhook_definition Examples.hmac_webhook));
                 Req (RegisterWebhookWithThirdParty "on-push") ];
      ticks := 0 |}).
Proof.
  exact (proj2 (createPipelineWebhook_no_rollback Examples.hmac_webhook Worlds.unlinked)
               {| pwo_webhook := None |} Worlds.refused eq_refl eq_refl).
Defined.



(** X6. The tool and the service method differ on an empty reason: the
    tool replaces it by "Stopped by user", as it does an absent one, while
    the service method sends the empty string; on an absent or a non-empty
    reason the two send the same call. *)
Theorem stop_reason_tool_and_service (pipelineName executionId : string) (env : Env) :
  let tool reason :=
    calls (snd (run (stopPipelineExecution
                       {| StopInput.pipelineName := pipelineName;
                          StopInput.executionId := executionId;
                          StopInput.reason := reason |}) env)) in
  let service reason :=
    calls (snd (run (Service.stopPipelineExecution pipelineName executionId reason) env)) in
  tool (Some "") = [ Req (StopPipelineExecution pipelineName executionId
                                                "Stopped by user" false) ]
  /\ service (Some "") = [ Req (StopPipelineExecution pipelineName executionId "" false) ]
  /\ forall reason, reason <> Some "" -> tool reason = service reason.
Proof.
  cbv zeta.
  unfold run, stopPipelineExecution, Service.stopPipelineExecution, bind, try_catch,
    sdk, throw. simpl.
  split; [destruct (remote env unit [] _); reflexivity |].
  split; [destruct (remote env unit [] _); reflexivity |].
  intros [[| c s] |] Hne; [contradiction Hne; reflexivity | |]; simpl;
    destruct (remote env unit [] _); reflexivity.
Qed.

Lemma stop_reason_tool_and_service_witness :
  calls (snd (run (stopPipelineExecution
                     {| StopInput.pipelineName := "deploy";
                        StopInput.executionId := "e1";
                        StopInput.reason := Some "window closed" |}) Examples.quiet))
  = calls (snd (run (Service.stopPipelineExecution "deploy" "e1" (Some "window closed"))
                    Examples.quiet)).
Proof.
  assert (Hne : Some "window closed" <> Some "") by discriminate.
  exact (proj2 (proj2 (stop_reason_tool_and_service "deploy" "e1" Examples.quiet))
               (Some "window closed") Hne).
Defined.

End Handlers.

(** ** The call log of get_pipeline_metrics *)

Section MetricsLog.
Import Json AWS Eff Tools Metrics Server Props.

Lemma stateless_ret {A} (a : A) : stateless (ret a).
Proof. unfold stateless, ret. intros env st r st' H. inversion H. reflexivity. Qed.

Lemma stateless_throw {A} (x : exn) : stateless (@throw A x).
Proof. unfold stateless, throw. intros env st r st' H. inversion H. reflexivity. Qed.

Lemma stateless_bind {A B} (m : M A) (k : A -> M B) :
  stateless m -> (forall a, stateless (k a)) -> stateless (bind m k).
Proof.
  unfold stateless, bind. intros Hm Hk env st r st' H.
  destruct (m env st) as [[a | x] st1] eqn:E.
  - apply Hk in H. apply Hm in E. congruence.
  - inversion H. subst. eapply Hm. exact E.
Qed.

Lemma stateless_toISOString d : stateless (toISOString d).
Proof. destruct d; [apply stateless_ret | apply stateless_throw]. Qed.

Lemma stateless_mapM {A B} (f : A -> M B) (xs : list A) :
  (forall x, stateless (f x)) -> stateless (mapM f xs).
Proof.
  intros Hf. induction xs as [| x rest IH]; simpl; [apply stateless_ret |].
  apply stateless_bind; [apply Hf |]. intros y.
  apply stateless_bind; [exact IH |]. intros ys. apply stateless_ret.
Qed.

Lemma stateless_datapoints (datapoints : option (list Datapoint)) :
  stateless (map_opt convert_datapoint datapoints).
Proof.
  destruct datapoints as [l |]; simpl; [| apply stateless_ret].
  apply stateless_bind; [| intros ys; apply stateless_ret].
  apply stateless_mapM. intros point. unfold convert_datapoint.
  apply stateless_bind; [| intros t; apply stateless_ret].
  destruct (dp_Timestamp point); [| apply stateless_ret].
  apply stateless_bind; [apply stateless_toISOString | intros s; apply stateless_ret].
Qed.

Lemma process_execution_calls pipelineName execution sm env st sm' st' :
  process_execution pipelineName execution sm env st = (Ok sm', st') ->
  calls st' = (calls st ++ execution_calls pipelineName execution)%list.
Proof.
  unfold process_execution, execution_calls, sampled.
  destruct (pes_startTime execution) as [started |];
    [destruct (pes_status execution) as [status |];
     [destruct (String.eqb status "Succeeded") |] |];
    intros H;
    try (apply ret_ok in H; destruct H as [_ <-]; rewrite app_nil_r; reflexivity).
  apply bind_ok in H. destruct H as (r1 & st1 & H1 & H).
  apply bind_ok in H. destruct H as (r2 & st2 & H2 & H).
  apply ret_ok in H. destruct H as [_ <-].
  apply sdk_ok in H1. destruct H1 as [_ ->].
  apply sdk_ok in H2. destruct H2 as [_ ->].
  simpl. rewrite <- app_assoc. reflexivity.
Qed.

Lemma forM_execution_calls pipelineName (executions : list PipelineExecutionSummary) :
  forall sm env st sm' st',
    forM executions (process_execution pipelineName) sm env st = (Ok sm', st') ->
    calls st' = (calls st ++ flat_map (execution_calls pipelineName) executions)%list.
Proof.
  induction executions as [| execution rest IH]; intros sm env st sm' st' H; simpl in *.
  - apply ret_ok in H. destruct H as [_ <-]. rewrite app_nil_r. reflexivity.
  - apply bind_ok in H. destruct H as (sm1 & st1 & H1 & H).
    apply process_execution_calls in H1. apply IH in H.
    rewrite H, H1, <- app_assoc. reflexivity.
Qed.

(** The log of a successful run, with the time range it settled on. *)
Lemma getPipelineMetrics_log input env payload st' :
  run (getPipelineMetrics_payload input) env = (Ok payload, st') ->
  let pipelineName := MetricsInput.pipelineName input in
  let period := default (MetricsInput.period input) default_period in
  exists endTime startTime st0 st1 listing,
    endTime_of input env initial = (Ok endTime, st0)
    /\ startTime_of input endTime env st0 = (Ok startTime, st1)
    /\ remote env _ (firstn 3 (opening_calls pipelineName startTime endTime period))
              (ListPipelineExecutions pipelineName (Some 20)) = inr listing
    /\ calls st' =
       (opening_calls pipelineName startTime endTime period
        ++ flat_map (execution_calls pipelineName)
                    (default (lpe_pipelineExecutionSummaries listing) []))%list.
Proof.
  unfold run, getPipelineMetrics_payload. intros H. cbv zeta.
  apply bind_ok in H. destruct H as (endTime & st0 & Hend & H).
  apply bind_ok in H. destruct H as (startTime & st1 & Hstart & H).
  apply bind_ok in H. destruct H as (successMetric & st2 & Hs & H).
  apply bind_ok in H. destruct H as (failedMetric & st3 & Hf & H).
  apply bind_ok in H. destruct H as (executionTimeMetric & st4 & He & H).
  apply bind_ok in H. destruct H as (executionTimeData & st5 & Hdata & H).
  apply bind_ok in H. destruct H as (pipelineExecutions & st6 & Hlist & H).
  apply bind_ok in H. destruct H as (stageMetrics & st7 & Hloop & H).
  apply bind_ok in H. destruct H as (startText & st8 & Hst & H).
  apply bind_ok in H. destruct H as (endText & st9 & Het & H).
  apply ret_ok in H. destruct H as [_ <-].
  apply stateless_toISOString in Hst. apply stateless_toISOString in Het.
  apply stateless_datapoints in Hdata. subst st9 st8 st5.
  pose proof (endTime_of_calls _ _ _ _ _ Hend) as C0.
  pose proof (startTime_of_calls _ _ _ _ _ _ Hstart) as C1.
  apply sdk_ok in Hs. destruct Hs as [_ ->].
  apply sdk_ok in Hf. destruct Hf as [_ ->].
  apply sdk_ok in He. destruct He as [_ ->].
  apply sdk_ok in Hlist. destruct Hlist as [Hlist ->].
  apply forM_execution_calls in Hloop.
  simpl in Hlist, Hloop. rewrite C1, C0 in Hlist, Hloop. simpl in Hlist, Hloop.
  exists endTime, startTime, st0, st1, pipelineExecutions.
  split; [exact Hend |]. split; [exact Hstart |]. split; [exact Hlist |].
  rewrite Hloop. unfold default. destruct (lpe_pipelineExecutionSummaries _); reflexivity.
Qed.





Lemma Date_of_string_value s env st :
  Date_of_string s env st = (Ok (date_value env s), st).
Proof. reflexivity. Qed.

(** X9. A start time (or an end time) that is given and does not parse to
    a date is not replaced by the default: the run cannot succeed. *)
Theorem getPipelineMetrics_unparsable_bound (input : MetricsInput.t) (env : Env) (s : string) :
  s <> "" ->
  date_value env s = None ->
  MetricsInput.startTime input = Some s \/ MetricsInput.endTime input = Some s ->
  Spec.succeeded (run (getPipelineMetrics_payload input) env) = false.
Proof.
  intros Hne Hbad Hin.
  destruct (run (getPipelineMetrics_payload input) env) as [[payload | x] st'] eqn:E;
    [exfalso | reflexivity].
  apply getPipelineMetrics_payload_ok in E. cbv zeta in E.
  destruct E as (endTime & startTime & st0 & st1 & sm & fm & em & data & durations
                 & ts & te & Hend & Hstart & Hts & Hte & _).
  destruct s as [| c s]; [contradiction Hne; reflexivity |].
  destruct Hin as [Hin | Hin].
  - unfold startTime_of in Hstart. rewrite Hin in Hstart. simpl in Hstart.
    rewrite Date_of_string_value, Hbad in Hstart. inversion Hstart. congruence.
  - unfold endTime_of in Hend. rewrite Hin in Hend. simpl in Hend.
    rewrite Date_of_string_value, Hbad in Hend. inversion Hend. congruence.
Qed.

Lemma getPipelineMetrics_unparsable_bound_witness :
  date_value Examples.quiet "2024-13-01" = None
  /\ Spec.succeeded (run (getPipelineMetrics_payload Worlds.bad_start) Examples.quiet)
     = false.
Proof.
  assert (Hne : "2024-13-01" <> "") by discriminate.
  assert (Hbad : date_value Examples.quiet "2024-13-01" = None) by reflexivity.
  split; [exact Hbad |].
  exact (getPipelineMetrics_unparsable_bound Worlds.bad_start Examples.quiet
           "2024-13-01" Hne Hbad (or_introl eq_refl)).
Defined.

End MetricsLog.

(** ** Stage performance *)

Section Stages.
Import Json AWS Eff Tools Metrics Server Props.

Lemma bump_keys stageName duration (sm sm' : StageMetrics) :
  bump stageName duration sm = Some sm' -> map fst sm' = map fst sm.
Proof.
  revert sm'. induction sm as [| [k [count total]] rest IH]; intros sm' H; simpl in H.
  - discriminate H.
  - destruct (String.eqb k stageName).
    + inversion H. reflexivity.
    + destruct (bump stageName duration rest) as [rest' |]; [| discriminate H].
      inversion H. simpl. rewrite (IH rest' eq_refl). reflexivity.
Qed.

Lemma bump_none stageName duration (sm : StageMetrics) :
  bump stageName duration sm = None -> ~ In stageName (map fst sm).
Proof.
  induction sm as [| [k [count total]] rest IH]; intros H; simpl in *; [tauto |].
  destruct (String.eqb_spec k stageName) as [-> | Hne]; [discriminate H |].
  destruct (bump stageName duration rest); [discriminate H |].
  intros [Heq | Hin]; [contradiction | exact (IH eq_refl Hin)].
Qed.

Lemma record_stage_NoDup stageName duration (sm : StageMetrics) :
  NoDup (map fst sm) -> NoDup (map fst (record_stage stageName duration sm)).
Proof.
  intros H. unfold record_stage.
  destruct (existsb _ object_prototype_keys); [exact H |].
  destruct (bump stageName duration sm) as [sm' |] eqn:E.
  - rewrite (bump_keys _ _ _ _ E). exact H.
  - rewrite map_app. simpl. apply bump_none in E.
    apply NoDup_app; [exact H | repeat constructor; simpl; tauto |].
    intros x Hx [<- | []]. exact (E Hx).
Qed.

Lemma process_stage_NoDup (sm : StageMetrics) (stage : StageState) :
  NoDup (map fst sm) -> NoDup (map fst (process_stage sm stage)).
Proof.
  intros H. unfold process_stage.
  destruct (via _ _); [| exact H]. destruct (ss_stageName stage); [| exact H].
  destruct (ss_actionStates stage) as [[| a rest] |]; try exact H.
  destruct (_ && _); [| exact H].
  destruct (scan_actions _) as [[e |] [l |]]; try exact H.
  apply record_stage_NoDup, H.
Qed.

Lemma fold_process_stage_NoDup (stages : list StageState) :
  forall sm, NoDup (map fst sm) -> NoDup (map fst (fold_left process_stage stages sm)).
Proof.
  induction stages as [| stage rest IH]; intros sm H; simpl; [exact H |].
  apply IH, process_stage_NoDup, H.
Qed.

Lemma process_execution_NoDup pipelineName execution sm env st sm' st' :
  process_execution pipelineName execution sm env st = (Ok sm', st') ->
  NoDup (map fst sm) -> NoDup (map fst sm').
Proof.
  unfold process_execution. intros H Hsm.
  destruct (pes_startTime execution);
    [destruct (pes_status execution) as [status |];
     [destruct (String.eqb status "Succeeded") |] |];
    try (apply ret_ok in H; destruct H as [<- _]; exact Hsm).
  apply bind_ok in H. destruct H as (r1 & st1 & _ & H).
  apply bind_ok in H. destruct H as (r2 & st2 & _ & H).
  apply ret_ok in H. destruct H as [<- _].
  apply fold_process_stage_NoDup, Hsm.
Qed.

Lemma forM_NoDup pipelineName (executions : list PipelineExecutionSummary) :
  forall sm env st sm' st',
    forM executions (process_execution pipelineName) sm env st = (Ok sm', st') ->
    NoDup (map fst sm) -> NoDup (map fst sm').
Proof.
  induction executions as [| execution rest IH]; intros sm env st sm' st' H Hsm;
    simpl in H.
  - apply ret_ok in H. destruct H as [<- _]. exact Hsm.
  - apply bind_ok in H. destruct H as (sm1 & st1 & H1 & H).
    eapply IH; [exact H |]. eapply process_execution_NoDup; eassumption.
Qed.

Lemma insert_index_perm {V} (n : Z) (kv : string * V) (l : list (Z * (string * V))) :
  Permutation (insert_index n kv l) ((n, kv) :: l).
Proof.
  induction l as [| [n' kv'] rest IH]; simpl; [apply Permutation_refl |].
  destruct (n <? n'); [apply Permutation_refl |].
  eapply Permutation_trans; [apply perm_skip, IH | apply perm_swap].
Qed.

Lemma Object_entries_perm {V} (props : list (string * V)) :
  Permutation (Object_entries props) props.
Proof.
  unfold Object_entries.
  assert (H : forall acc,
             Permutation
               (map snd (fold_left
                           (fun acc kv => match array_index (fst kv) with
                                          | Some n => insert_index n kv acc
                                          | None => acc
                                          end) props acc)
                ++ filter (fun kv => match array_index (fst kv) with
                                     | Some _ => false
                                     | None => true
                                     end) props)
               (map snd acc ++ props)).
  { induction props as [| kv rest IH]; intros acc; simpl.
    - apply Permutation_refl.
    - destruct (array_index (fst kv)) as [n |] eqn:E.
      + eapply Permutation_trans; [apply IH |].
        eapply Permutation_trans;
          [apply Permutation_app_tail, Permutation_map, insert_index_perm |].
        simpl. apply Permutation_middle.
      + eapply Permutation_trans; [| apply Permutation_middle].
        eapply Permutation_trans; [apply Permutation_sym, Permutation_middle |].
        apply perm_skip, IH. }
  exact (H []).
Qed.

Lemma NoDup_map_JStr (names : list string) : NoDup names -> NoDup (map JStr names).
Proof.
  induction 1 as [| x rest Hx _ IH]; simpl; constructor; [| exact IH].
  intros Hin. apply in_map_iff in Hin. destruct Hin as (y & Hy & Hin).
  inversion Hy. subst. exact (Hx Hin).
Qed.

(** *** Accumulation *)

Lemma existsb_eqb_In (name : string) (l : list string) :
  existsb (String.eqb name) l = true <-> In name l.
Proof.
  rewrite existsb_exists. split.
  - intros (y & Hy & E). apply String.eqb_eq in E. subst y. exact Hy.
  - intros H. exists name. split; [exact H | apply String.eqb_refl].
Qed.

Lemma distinct_snoc (names : list string) (name : string) :
  distinct (names ++ [name])
  = if existsb (String.eqb name) (distinct names) then distinct names
    else (distinct names ++ [name])%list.
Proof. unfold distinct. rewrite fold_left_app. reflexivity. Qed.

Lemma distinct_In (names : list string) :
  forall name, In name (distinct names) <-> In name names.
Proof.
  induction names as [| x names IH] using rev_ind; intros name; [simpl; tauto |].
  rewrite distinct_snoc.
  destruct (existsb (String.eqb x) (distinct names)) eqn:E.
  - rewrite IH, in_app_iff. simpl. split; [tauto |].
    intros [H | [<- | []]]; [exact H |]. apply IH, existsb_eqb_In, E.
  - rewrite !in_app_iff, IH. tauto.
Qed.

Lemma distinct_NoDup (names : list string) : NoDup (distinct names).
Proof.
  induction names as [| x names IH] using rev_ind; [constructor |].
  rewrite distinct_snoc.
  destruct (existsb (String.eqb x) (distinct names)) eqn:E; [exact IH |].
  apply NoDup_app; [exact IH | repeat constructor; simpl; tauto |].
  intros y Hy [<- | []].
  apply existsb_eqb_In in Hy. rewrite Hy in E. discriminate E.
Qed.

Lemma tally_snoc (name : string) (sightings : list (string * number))
      (s : string * number) :
  tally name (sightings ++ [s])
  = if String.eqb (fst s) name
    then (Num.add (fst (tally name sightings)) one,
          Num.add (snd (tally name sightings)) (snd s))
    else tally name sightings.
Proof. unfold tally. rewrite fold_left_app. reflexivity. Qed.

Lemma tally_absent (name : string) (sightings : list (string * number)) :
  ~ In name (map fst sightings) -> tally name sightings = (Num.zero, Num.zero).
Proof.
  induction sightings as [| s sightings IH] using rev_ind; intros H; [reflexivity |].
  rewrite tally_snoc. rewrite map_app, in_app_iff in H. simpl in H.
  destruct (String.eqb_spec (fst s) name) as [E | _]; [tauto |].
  apply IH. tauto.
Qed.

Lemma bump_tallied (name : string) (duration : number)
      (g : string -> number * number) (names : list string) :
  NoDup names ->
  bump name duration (map (fun k => (k, g k)) names)
  = if existsb (String.eqb name) names
    then Some (map (fun k => (k, if String.eqb k name
                                 then (Num.add (fst (g k)) one,
                                       Num.add (snd (g k)) duration)
                                 else g k)) names)
    else None.
Proof.
  induction names as [| k rest IH]; intros Hnd; [reflexivity |].
  inversion Hnd as [| ? ? Hk Hrest]. subst.
  cbn [map bump existsb]. destruct (g k) as [c t] eqn:G.
  destruct (String.eqb_spec k name) as [-> | Hne].
  - rewrite String.eqb_refl. cbn [orb fst snd]. f_equal. f_equal.
    apply map_ext_in. intros k' Hk'.
    destruct (String.eqb_spec k' name) as [-> | _]; [contradiction | reflexivity].
  - rewrite (IH Hrest).
    destruct (String.eqb_spec name k) as [E | _]; [symmetry in E; contradiction |].
    cbn [orb]. destruct (existsb (String.eqb name) rest); reflexivity.
Qed.

(** The record the loop builds is the tally of the sightings. *)
Lemma fold_record_tallies (sightings : list (string * number)) :
  (forall s, In s sightings ->
             existsb (String.eqb (fst s)) object_prototype_keys = false) ->
  fold_left (fun sm s => record_stage (fst s) (snd s) sm) sightings [] = tallies sightings.
Proof.
  induction sightings as [| s sightings IH] using rev_ind; intros Hp; [reflexivity |].
  rewrite fold_left_app. cbn [fold_left].
  rewrite IH by (intros s' Hs'; apply Hp, in_or_app; left; exact Hs').
  unfold record_stage. rewrite (Hp s) by (apply in_or_app; right; left; reflexivity).
  unfold tallies. rewrite bump_tallied by apply distinct_NoDup.
  rewrite map_app. cbn [map]. rewrite distinct_snoc.
  destruct (existsb (String.eqb (fst s)) (distinct (map fst sightings))) eqn:E.
  - apply map_ext. intros k. rewrite tally_snoc, String.eqb_sym. reflexivity.
  - rewrite map_app. cbn [map]. f_equal.
    + apply map_ext_in. intros k Hk. rewrite tally_snoc.
      destruct (String.eqb_spec (fst s) k) as [<- | _]; [| reflexivity].
      apply existsb_eqb_In in Hk. rewrite Hk in E. discriminate E.
    + rewrite tally_snoc, String.eqb_refl, tally_absent; [reflexivity |].
      intros Hin. apply distinct_In, existsb_eqb_In in Hin. rewrite Hin in E.
      discriminate E.
Qed.

Lemma process_stage_sighting (sm : StageMetrics) (stage : StageState) :
  process_stage sm stage
  = match sighting stage with
    | Some s => record_stage (fst s) (snd s) sm
    | None => sm
    end.
Proof.
  unfold process_stage, sighting.
  destruct (via _ _) as [status |]; [| reflexivity].
  destruct (ss_stageName stage) as [stageName |]; [| reflexivity].
  destruct (ss_actionStates stage) as [[| a rest] |]; try reflexivity.
  destruct (String.eqb status "Succeeded" && str_truthy stageName); [| reflexivity].
  cbn [andb].
  destruct (existsb (String.eqb stageName) object_prototype_keys) eqn:E; cbn [negb].
  - destruct (scan_actions (a :: rest)) as [[e |] [l |]]; try reflexivity.
    unfold record_stage. rewrite E. reflexivity.
  - destruct (scan_actions (a :: rest)) as [[e |] [l |]]; reflexivity.
Qed.

Lemma sighting_recorded (stage : StageState) (s : string * number) :
  sighting stage = Some s ->
  existsb (String.eqb (fst s)) object_prototype_keys = false.
Proof.
  unfold sighting.
  destruct (via _ _) as [status |]; [| discriminate].
  destruct (ss_stageName stage) as [stageName |]; [| discriminate].
  destruct (ss_actionStates stage) as [[| a rest] |]; try discriminate.
  destruct (String.eqb status "Succeeded" && str_truthy stageName); [| discriminate].
  cbn [andb].
  destruct (existsb (String.eqb stageName) object_prototype_keys) eqn:E; cbn [negb];
    [discriminate |].
  destruct (scan_actions (a :: rest)) as [[e |] [l |]]; try discriminate.
  intros H. inversion H. exact E.
Qed.

Lemma fold_process_sightings (stages : list StageState) :
  forall sm,
    fold_left process_stage stages sm
    = fold_left (fun sm s => record_stage (fst s) (snd s) sm)
                (flat_map (fun stage => match sighting stage with
                                        | Some s => [s]
                                        | None => []
                                        end) stages) sm.
Proof.
  induction stages as [| stage rest IH]; intros sm; [reflexivity |].
  cbn [fold_left flat_map]. rewrite fold_left_app, IH, process_stage_sighting.
  destruct (sighting stage); reflexivity.
Qed.

Lemma state_answers_app (env : Env) (l1 l2 : list Request) :
  forall before,
    state_answers env before (l1 ++ l2)
    = (state_answers env before l1 ++ state_answers env (before ++ l1) l2)%list.
Proof.
  induction l1 as [| [R c] l1 IH]; intros before.
  - rewrite app_nil_r. reflexivity.
  - cbn [app state_answers]. rewrite IH, <- !app_assoc. reflexivity.
Qed.

Lemma sightings_in_app (env : Env) (before l1 l2 : list Request) :
  sightings_in env before (l1 ++ l2)
  = (sightings_in env before l1 ++ sightings_in env (before ++ l1) l2)%list.
Proof. unfold sightings_in. rewrite state_answers_app, flat_map_app. reflexivity. Qed.

Lemma process_execution_sightings pipelineName execution sm env st sm' st' :
  process_execution pipelineName execution sm env st = (Ok sm', st') ->
  sm' = fold_left (fun sm s => record_stage (fst s) (snd s) sm)
                  (sightings_in env (calls st) (execution_calls pipelineName execution))
                  sm.
Proof.
  unfold process_execution, execution_calls, sampled.
  destruct (pes_startTime execution) as [started |];
    [destruct (pes_status execution) as [status |];
     [destruct (String.eqb status "Succeeded") |] |];
    intros H;
    try (apply ret_ok in H; destruct H as [<- _]; reflexivity).
  apply bind_ok in H. destruct H as (r1 & st1 & H1 & H).
  apply bind_ok in H. destruct H as (r2 & st2 & H2 & H).
  apply ret_ok in H. destruct H as [<- _].
  apply sdk_ok in H1. destruct H1 as [_ ->].
  apply sdk_ok in H2. destruct H2 as [H2 _]. cbn [calls] in H2.
  unfold sightings_in. cbn [state_answers app]. rewrite H2.
  cbn [app flat_map]. rewrite app_nil_r.
  unfold sightings_of, default. apply fold_process_sightings.
Qed.

Lemma forM_sightings pipelineName (executions : list PipelineExecutionSummary) :
  forall sm env st sm' st',
    forM executions (process_execution pipelineName) sm env st = (Ok sm', st') ->
    sm' = fold_left (fun sm s => record_stage (fst s) (snd s) sm)
                    (sightings_in env (calls st)
                                  (flat_map (execution_calls pipelineName) executions))
                    sm.
Proof.
  induction executions as [| execution rest IH]; intros sm env st sm' st' H;
    cbn [forM flat_map] in *.
  - apply ret_ok in H. destruct H as [<- _]. reflexivity.
  - apply bind_ok in H. destruct H as (sm1 & st1 & H1 & H).
    pose proof (process_execution_calls _ _ _ _ _ _ _ H1) as Hcalls.
    apply process_execution_sightings in H1. apply IH in H.
    rewrite sightings_in_app, fold_left_app, <- H1, <- Hcalls. exact H.
Qed.

Lemma sightings_in_recorded (env : Env) (before log : list Request) s :
  In s (sightings_in env before log) ->
  existsb (String.eqb (fst s)) object_prototype_keys = false.
Proof.
  unfold sightings_in, sightings_of. intros H.
  apply in_flat_map in H. destruct H as (state & _ & H).
  apply in_flat_map in H. destruct H as (stage & _ & H).
  destruct (sighting stage) as [s' |] eqn:E; [| contradiction H].
  destruct H as [<- | []]. exact (sighting_recorded _ _ E).
Qed.

Lemma stageDurations_performance (sightings : list (string * number)) :
  stageDurations_of (tallies sightings) = performance sightings.
Proof.
  unfold stageDurations_of, performance. apply map_ext. intros [k [c t]]. reflexivity.
Qed.

(** X10. In every successful get_pipeline_metrics report, stagePerformance
    is the tally of the stage sightings of the run, the sightings being
    taken, in order, from the pipeline states the remote answered with:
    one entry per stage sighted, none twice; its executionCount is the
    number of its sightings, and its averageDuration the sum of their
    durations divided by that number; the entries come in the order
    [Object.entries] gives, names that are array indices first. *)
Theorem stagePerformance_accumulates
        (input : MetricsInput.t) (env : Env) (payload : list (string * jsval)) (st' : State) :
  run (getPipelineMetrics_payload input) env = (Ok payload, st') ->
  exists stages,
    field "stagePerformance" (JObj payload) = JArr stages
    /\ NoDup (map (field "stageName") stages)
    /\ stages = performance (sightings_in env [] (calls st')).
Proof.
  intros Hrun. pose proof (getPipelineMetrics_log _ _ _ _ Hrun) as Hlog.
  cbv zeta in Hlog.
  destruct Hlog as (endTime0 & startTime0 & st00 & st10 & listing & Hend0 & Hstart0
                    & Hlisting & Hcalls).
  unfold run, getPipelineMetrics_payload in Hrun.
  apply bind_ok in Hrun. destruct Hrun as (endTime & st0 & Hend & H).
  apply bind_ok in H. destruct H as (startTime & st1 & Hstart & H).
  assert (E0 : endTime0 = endTime /\ st00 = st0).
  { rewrite Hend in Hend0. inversion Hend0. split; reflexivity. }
  destruct E0 as [-> ->].
  assert (E1 : startTime0 = startTime /\ st10 = st1).
  { rewrite Hstart in Hstart0. inversion Hstart0. split; reflexivity. }
  destruct E1 as [-> ->].
  apply bind_ok in H. destruct H as (successMetric & st2 & Hs & H).
  apply bind_ok in H. destruct H as (failedMetric & st3 & Hf & H).
  apply bind_ok in H. destruct H as (executionTimeMetric & st4 & He & H).
  apply bind_ok in H. destruct H as (executionTimeData & st5 & Hdata & H).
  apply bind_ok in H. destruct H as (pipelineExecutions & st6 & Hlist & H).
  apply bind_ok in H. destruct H as (stageMetrics & st7 & Hloop & H).
  apply bind_ok in H. destruct H as (startText & st8 & _ & H).
  apply bind_ok in H. destruct H as (endText & st9 & _ & H).
  apply ret_ok in H. destruct H as [<- _].
  exists (stageDurations_of stageMetrics). split; [reflexivity |].
  split.
  - apply forM_NoDup in Hloop; [| constructor].
    assert (Hnames : map (field "stageName") (stageDurations_of stageMetrics)
                     = map JStr (map fst (Object_entries stageMetrics))).
    { unfold stageDurations_of. rewrite !map_map. apply map_ext.
      intros [k [c t]]. reflexivity. }
    rewrite Hnames. apply NoDup_map_JStr.
    eapply Permutation_NoDup; [| exact Hloop].
    apply Permutation_map, Permutation_sym, Object_entries_perm.
  - apply stateless_datapoints in Hdata. subst st5.
    pose proof (endTime_of_calls _ _ _ _ _ Hend) as C0.
    pose proof (startTime_of_calls _ _ _ _ _ _ Hstart) as C1.
    apply sdk_ok in Hs. destruct Hs as [_ ->].
    apply sdk_ok in Hf. destruct Hf as [_ ->].
    apply sdk_ok in He. destruct He as [_ ->].
    apply sdk_ok in Hlist. destruct Hlist as [Hlist ->].
    cbn [calls] in Hlist. rewrite C1, C0 in Hlist. cbn [calls initial app] in Hlist.
    assert (El : pipelineExecutions = listing).
    { cbn [opening_calls firstn] in Hlisting. rewrite Hlist in Hlisting.
      inversion Hlisting. reflexivity. }
    subst pipelineExecutions.
    apply forM_sightings in Hloop. cbn [calls] in Hloop.
    rewrite C1, C0 in Hloop. cbn [calls initial app] in Hloop.
    rewrite Hcalls, sightings_in_app.
    change (sightings_in env [] (opening_calls _ _ _ _)) with (@nil (string * number)).
    cbn [app].
    assert (Hl : (match lpe_pipelineExecutionSummaries listing with
                  | Some l => l
                  | None => []
                  end) = default (lpe_pipelineExecutionSummaries listing) []).
    { unfold default. destruct (lpe_pipelineExecutionSummaries listing); reflexivity. }
    rewrite Hl in Hloop.
    rewrite fold_record_tallies in Hloop
      by (intros s Hs; exact (sightings_in_recorded _ _ _ _ Hs)).
    rewrite Hloop. apply stageDurations_performance.
Qed.

Lemma stagePerformance_accumulates_witness :
  exists stages,
    field "stagePerformance"
      (Spec.reported (run (getPipelineMetrics_payload Examples.january) Worlds.history_world))
    = JArr stages
    /\ stages = [ stage_entry "1" (Num.of_Z 2, Num.zero);
                  stage_entry "Build" (Num.of_Z 2, Num.of_Z 180) ]
    /\ map (field "averageDuration") stages = [ JNum Num.zero; JNum (Num.of_Z 90) ].
Proof.
  destruct (run (getPipelineMetrics_payload Examples.january) Worlds.history_world)
    as [r st'] eqn:E.
  assert (Hok : exists payload,
             r = Ok payload
             /\ performance (sightings_in Worlds.history_world [] (calls st'))
                = [ stage_entry "1" (Num.of_Z 2, Num.zero);
                    stage_entry "Build" (Num.of_Z 2, Num.of_Z 180) ]).
  { vm_compute in E. inversion E. eexists. split; [reflexivity |].
    vm_compute. reflexivity. }
  destruct Hok as (payload & -> & Hperf).
  destruct (stagePerformance_accumulates _ _ _ _ E) as (stages & Hstages & _ & Hacc).
  exists stages. unfold Spec.reported. cbn [fst].
  rewrite Hperf in Hacc. subst stages.
  refine (conj Hstages (conj eq_refl _)). vm_compute. reflexivity.
Defined.

End Stages.

(** ** The REST controller and the service behind it *)

Section Controllers.
Import Json AWS Eff Tools Props.

Lemma silent_ret {A} (a : A) : silent (ret a).
Proof. unfold silent, ret. intros env st r st' H. inversion H. reflexivity. Qed.

Lemma silent_throw {A} (x : exn) : silent (@throw A x).
Proof. unfold silent, throw. intros env st r st' H. inversion H. reflexivity. Qed.

Lemma silent_bind {A B} (m : M A) (k : A -> M B) :
  silent m -> (forall a, silent (k a)) -> silent (bind m k).
Proof.
  unfold silent, bind. intros Hm Hk env st r st' H.
  destruct (m env st) as [[a | x] st1] eqn:E.
  - rewrite (Hk a env st1 r st' H). exact (Hm env st _ _ E).
  - inversion H. subst. exact (Hm env st _ _ E).
Qed.

Lemma silent_Date_now : silent Date_now.
Proof. unfold silent, Date_now. intros env st r st' H. inversion H. reflexivity. Qed.

Lemma silent_toISOString (d : JsDate.Date) : silent (toISOString d).
Proof. destruct d; [apply silent_ret | apply silent_throw]. Qed.

Lemma silent_mapM {A B} (f : A -> M B) (xs : list A) :
  (forall x, silent (f x)) -> silent (mapM f xs).
Proof.
  intros Hf. induction xs as [| x rest IH]; simpl; [apply silent_ret |].
  apply silent_bind; [apply Hf |]. intros y.
  apply silent_bind; [exact IH |]. intros ys. apply silent_ret.
Qed.

Lemma silent_map_opt {A} (f : A -> M jsval) (xs : option (list A)) :
  (forall x, silent (f x)) -> silent (map_opt f xs).
Proof.
  intros Hf. destruct xs as [l |]; simpl; [| apply silent_ret].
  apply silent_bind; [apply silent_mapM, Hf |]. intros ys. apply silent_ret.
Qed.

Lemma silent_iso_or_empty (d : option Date) : silent (iso_or_empty d).
Proof.
  destruct d as [d' |]; simpl; [| apply silent_ret].
  apply silent_bind; [apply silent_toISOString |]. intros s. apply silent_ret.
Qed.

Lemma silent_date_or_now (d : option Date) : silent (date_or_now d).
Proof.
  destruct d as [d' |]; simpl; [apply silent_ret |].
  apply silent_bind; [apply silent_Date_now |]. intros now.
  apply silent_bind; [apply silent_toISOString |]. intros s. apply silent_ret.
Qed.

(** Closes a goal [silent m] by following the structure of [m]. *)
Ltac silently :=
  repeat first
    [ apply silent_ret
    | apply silent_throw
    | apply silent_Date_now
    | apply silent_toISOString
    | apply silent_iso_or_empty
    | apply silent_date_or_now
    | apply silent_map_opt; intros ?
    | apply silent_mapM; intros ?
    | apply silent_bind; [| intros ?]
    | match goal with
      | |- silent (match ?x with _ => _ end) => destruct x
      end ].

Lemma silent_pipelineState_of response : silent (pipelineState_of response).
Proof.
  unfold pipelineState_of, convert_stage, convert_action, convert_action_execution,
    convert_action_revision. silently.
Qed.

Lemma silent_convert_summary execution : silent (Service.convert_summary execution).
Proof. unfold Service.convert_summary, Service.convert_revision. silently. Qed.

(** A service method of the form
    [try { r = await call; ... } catch (error) { throw error }]. *)
Lemma rethrown_one_call {R A} (c : Call R) (k : R -> M A) :
  (forall r, silent (k r)) ->
  forall env st res st',
    try_catch (bind (sdk c) k) (fun error => throw error) env st = (res, st') ->
    one_call (Req c) st st'.
Proof.
  intros Hk env st res st'. unfold try_catch, bind, sdk, throw, one_call.
  destruct (remote env R (calls st) c) as [e | r].
  - intros H. inversion H. reflexivity.
  - destruct (k r env _) as [[a | x] st1] eqn:E; intros H; inversion H; subst;
      rewrite (Hk r _ _ _ _ E); reflexivity.
Qed.

Lemma rethrown_call {R} (c : Call R) env st res st' :
  try_catch (sdk c) (fun error => throw error) env st = (res, st') ->
  one_call (Req c) st st'.
Proof.
  unfold try_catch, sdk, throw, one_call.
  destruct (remote env R (calls st) c) as [e | r]; intros H; inversion H; reflexivity.
Qed.

Lemma listPipelines_one_call env st res st' :
  Service.listPipelines env st = (res, st') -> one_call (Req ListPipelines) st st'.
Proof.
  apply rethrown_one_call. intros r. unfold pipeline_summary. silently.
Qed.

Lemma getPipelineState_one_call pipelineName env st res st' :
  Service.getPipelineState pipelineName env st = (res, st') ->
  one_call (Req (GetPipelineState pipelineName)) st st'.
Proof. apply rethrown_one_call. intros r. apply silent_pipelineState_of. Qed.

Lemma listPipelineExecutions_one_call pipelineName env st res st' :
  Service.listPipelineExecutions pipelineName env st = (res, st') ->
  one_call (Req (ListPipelineExecutions pipelineName None)) st st'.
Proof.
  apply rethrown_one_call. intros r.
  apply silent_bind; [| intros ?; apply silent_ret].
  apply silent_map_opt. apply silent_convert_summary.
Qed.

Lemma startPipelineExecution_one_call pipelineName env st res st' :
  Service.startPipelineExecution pipelineName env st = (res, st') ->
  one_call (Req (StartPipelineExecution pipelineName)) st st'.
Proof. apply rethrown_one_call. intros r. apply silent_ret. Qed.

(** A controller method of the form
    [try { x = await service; res.status(200).json(ok x) }
     catch (error) { res.status(500).json({ error: message }) }]. *)
Lemma answers {A} (service : M A) (ok : A -> list (string * jsval))
      (message : string) (c : Request) :
  (forall env st res st', service env st = (res, st') -> one_call c st st') ->
  forall env st, exists resp st',
    try_catch (bind service (fun a => Controller.respond 200 (ok a)))
              (Controller.failure message) env st = (Ok resp, st')
    /\ (Controller.status resp = 500 /\ Controller.body resp = error_body message
        \/ Controller.status resp = 200)
    /\ one_call c st st'.
Proof.
  intros Hone env st. unfold try_catch, bind, Controller.failure, Controller.respond, ret.
  destruct (service env st) as [[a | x] st1] eqn:E; eexists; eexists;
    (split; [reflexivity |]); (split; [| exact (Hone _ _ _ _ E)]).
  - right. reflexivity.
  - left. split; reflexivity.
Qed.

Lemma rejects (message failure : string) env st :
  try_catch (Controller.respond 400 [ ("error", JStr message) ])
            (Controller.failure failure) env st
  = (Ok {| Controller.status := 400; Controller.body := error_body message |}, st).
Proof. reflexivity. Qed.

(** X11. A controller method never throws: it always answers, with status
    400, 500 or 200. A 400 answer is given before any remote call, with a
    message fixed by the method. A 500 answer carries a message fixed by
    the method, whatever the error was, and like a 200 answer it is given
    after exactly one remote call. *)
Theorem Controller_always_answers (m : M Controller.HttpResponse) :
  controller_method m ->
  exists rejection failure : string,
    forall env st, exists resp st',
      m env st = (Ok resp, st')
      /\ (Controller.status resp = 400 /\ Controller.body resp = error_body rejection
          /\ st' = st
          \/ (Controller.status resp = 500 /\ Controller.body resp = error_body failure
              \/ Controller.status resp = 200)
             /\ exists c, one_call c st st').
Proof.
  assert (Hrej : forall message failure env st,
             exists resp st',
               try_catch (Controller.respond 400 [ ("error", JStr message) ])
                         (Controller.failure failure) env st = (Ok resp, st')
               /\ (Controller.status resp = 400
                   /\ Controller.body resp = error_body message /\ st' = st
                   \/ (Controller.status resp = 500
                       /\ Controller.body resp = error_body failure
                       \/ Controller.status resp = 200)
                      /\ exists c, one_call c st st')).
  { intros message failure env st. eexists. eexists.
    split; [apply rejects |]. left. repeat split. }
  assert (Hans : forall {A} (service : M A) ok rejection failure c,
             (forall env st res st', service env st = (res, st') -> one_call c st st') ->
             forall env st, exists resp st',
               try_catch (bind service (fun a => Controller.respond 200 (ok a)))
                         (Controller.failure failure) env st = (Ok resp, st')
               /\ (Controller.status resp = 400
                   /\ Controller.body resp = error_body rejection /\ st' = st
                   \/ (Controller.status resp = 500
                       /\ Controller.body resp = error_body failure
                       \/ Controller.status resp = 200)
                      /\ exists c, one_call c st st')).
  { intros A service ok rejection failure c Hone env st.
    destruct (answers service ok failure c Hone env st) as (resp & st' & E & Hs & Hc).
    exists resp, st'. split; [exact E |]. right. split; [exact Hs |].
    exists c. exact Hc. }
  intros Hm. destruct Hm.
  - exists "", "Failed to list pipelines". intros env st.
    unfold Controller.listPipelines.
    eapply Hans. apply listPipelines_one_call.
  - exists "Pipeline name is required", "Failed to get pipeline state". intros env st.
    unfold Controller.getPipelineState.
    destruct (Controller.missing pipelineName); [apply Hrej |].
    eapply Hans. apply getPipelineState_one_call.
  - exists "Pipeline name is required", "Failed to list pipeline executions".
    intros env st. unfold Controller.listPipelineExecutions.
    destruct (Controller.missing pipelineName); [apply Hrej |].
    eapply Hans. apply listPipelineExecutions_one_call.
  - exists "Missing required approval parameters", "Failed to process approval".
    intros env st. unfold Controller.approveAction.
    destruct (Controller.missing (Controller.pipelineName b)
              || Controller.missing (Controller.stageName b)
              || Controller.missing (Controller.actionName b)
              || Controller.missing (Controller.token b)); [apply Hrej |].
    eapply (Hans _ _ (fun _ => _)). intros env' st0 res st1.
    unfold Service.approveAction. apply rethrown_call.
  - exists "Missing required retry parameters", "Failed to retry stage".
    intros env st. unfold Controller.retryStage.
    destruct (Controller.missing (Controller.r_pipelineName b)
              || Controller.missing (Controller.r_stageName b)
              || Controller.missing (Controller.r_pipelineExecutionId b)); [apply Hrej |].
    eapply (Hans _ _ (fun _ => _)). intros env' st0 res st1.
    unfold Service.retryStageExecution. apply rethrown_call.
  - exists "Pipeline name is required", "Failed to trigger pipeline". intros env st.
    unfold Controller.triggerPipeline.
    destruct (Controller.missing pipelineName); [apply Hrej |].
    eapply Hans. apply startPipelineExecution_one_call.
  - exists "Pipeline name and execution ID are required",
           "Failed to stop pipeline execution".
    intros env st. unfold Controller.stopPipelineExecution.
    destruct (Controller.missing pipelineName || Controller.missing executionId);
      [apply Hrej |].
    eapply (Hans _ _ (fun _ => _)). intros env' st0 res st1.
    unfold Service.stopPipelineExecution. apply rethrown_call.
Qed.

Lemma Controller_always_answers_witness :
  exists rejection failure : string,
    forall env st, exists resp st',
      Controller.triggerPipeline (Some "deploy") env st = (Ok resp, st')
      /\ (Controller.status resp = 400 /\ Controller.body resp = error_body rejection
          /\ st' = st
          \/ (Controller.status resp = 500 /\ Controller.body resp = error_body failure
              \/ Controller.status resp = 200)
             /\ exists c, one_call c st st').
Proof.
  exact (Controller_always_answers _ (cm_triggerPipeline (Some "deploy"))).
Defined.

(** X12. The controller tests [approved] in two ways. On a request that
    has its four required fields and whose [approved] is truthy without
    being the boolean true (the string "true", the number 1, ...), the
    remote is sent the verdict Rejected, and when it accepts that, the
    answer is 200 with the message "Action approved successfully". *)
Theorem Controller_approveAction_reports_approved_on_rejection
        (b : Controller.ApprovalBody) (env : Env) (st : State) :
  let call :=
    PutApprovalResult (Controller.text (Controller.pipelineName b))
                      (Controller.text (Controller.stageName b))
                      (Controller.text (Controller.actionName b))
                      (Controller.text (Controller.token b))
                      "Rejected" (str_or (Controller.comments b) "") in
  Controller.missing (Controller.pipelineName b) = false ->
  Controller.missing (Controller.stageName b) = false ->
  Controller.missing (Controller.actionName b) = false ->
  Controller.missing (Controller.token b) = false ->
  truthy (Controller.approved b) = true ->
  Controller.approved b <> JBool true ->
  remote env unit (calls st) call = inr tt ->
  Controller.approveAction b env st
  = (Ok {| Controller.status := 200;
           Controller.body := JObj [ ("message", JStr "Action approved successfully") ] |},
     {| calls := (calls st ++ [Req call])%list; ticks := ticks st |}).
Proof.
  intros call H1 H2 H3 H4 Htruthy Hnot Haccept. subst call.
  unfold Controller.approveAction. rewrite H1, H2, H3, H4. cbn [orb].
  assert (Hverdict : match Controller.approved b with JBool true => true | _ => false end
                     = false).
  { destruct (Controller.approved b) as [| | [|] | | | | |]; try reflexivity.
    contradiction Hnot. reflexivity. }
  rewrite Hverdict, Htruthy.
  unfold try_catch, bind, Service.approveAction, try_catch, sdk, Tools.default.
  cbn [Service.ar_pipelineName Service.ar_stageName Service.ar_actionName
       Service.ar_token].
  rewrite Haccept. reflexivity.
Qed.

Lemma Controller_approveAction_reports_approved_on_rejection_witness :
  Controller.approveAction Worlds.stringly_approval Examples.quiet initial
  = (Ok {| Controller.status := 200;
           Controller.body := JObj [ ("message", JStr "Action approved successfully") ] |},
     {| calls := [ Req (PutApprovalResult "deploy" "Gate" "Approve" "tok" "Rejected" "") ];
        ticks := 0 |}).
Proof.
  assert (Hnot : Controller.approved Worlds.stringly_approval <> JBool true)
    by discriminate.
  exact (Controller_approveAction_reports_approved_on_rejection
           Worlds.stringly_approval Examples.quiet initial
           eq_refl eq_refl eq_refl eq_refl eq_refl Hnot eq_refl).
Defined.

Lemma mapM_in {A B} (f : A -> M B) (env : Env) (P : B -> Prop) :
  (forall x st y st', f x env st = (Ok y, st') -> P y) ->
  forall xs st ys st',
    mapM f xs env st = (Ok ys, st') -> Forall P ys.
Proof.
  intros Hf xs. induction xs as [| x rest IH]; simpl; intros st ys st' H.
  - apply ret_ok in H. destruct H as [<- _]. constructor.
  - apply bind_ok in H. destruct H as (y & st1 & Hy & H).
    apply bind_ok in H. destruct H as (ys' & st2 & Hys & H).
    apply ret_ok in H. destruct H as [<- _].
    constructor; [eapply Hf; eassumption | eapply IH; eassumption].
Qed.

(** X13. In the service's listing of executions, the listing is the only
    remote call, and every artifact revision repeats its URL as its change
    identifier and is stamped, as created, with a reading of the clock,
    not with a time of the revision. *)
Theorem Service_listPipelineExecutions_revisions
        (pipelineName : string) (env : Env) (st st' : State) (executions : list jsval) :
  Service.listPipelineExecutions pipelineName env st = (Ok executions, st') ->
  one_call (Req (ListPipelineExecutions pipelineName None)) st st'
  /\ Forall (fun execution =>
               exists revisions,
                 field "artifactRevisions" execution = JArr revisions
                 /\ Forall (fun revision =>
                              field "revisionChangeIdentifier" revision
                              = field "revisionUrl" revision
                              /\ exists n, field "created" revision
                                           = JStr (JsDate.iso_string (clock env n)))
                           revisions)
            executions.
Proof.
  intros H. split; [exact (listPipelineExecutions_one_call _ _ _ _ _ H) |].
  unfold Service.listPipelineExecutions, try_catch in H.
  match type of H with
  | match ?body env st with _ => _ end = _ =>
      destruct (body env st) as [[a | x] st1] eqn:E; [| discriminate H]
  end.
  inversion H. subst a st1. clear H.
  apply bind_ok in E. destruct E as (response & st2 & _ & E).
  apply bind_ok in E. destruct E as (mapped & st3 & Hmap & E).
  apply ret_ok in E. destruct E as [<- _].
  destruct (lpe_pipelineExecutionSummaries response) as [summaries |]; simpl in Hmap.
  2:{ apply ret_ok in Hmap. destruct Hmap as [<- _]. constructor. }
  apply bind_ok in Hmap. destruct Hmap as (ys & st4 & Hys & Hmap).
  apply ret_ok in Hmap. destruct Hmap as [<- _]. simpl.
  eapply mapM_in; [| exact Hys].
  clear. intros execution st y st' H.
  unfold Service.convert_summary in H.
  apply bind_ok in H. destruct H as (revs & st1 & Hrevs & H).
  apply ret_ok in H. destruct H as [<- _].
  destruct (pes_sourceRevisions execution) as [revisions |]; simpl in Hrevs.
  2:{ apply ret_ok in Hrevs. destruct Hrevs as [<- _].
      exists []. split; [reflexivity | constructor]. }
  apply bind_ok in Hrevs. destruct Hrevs as (zs & st2 & Hzs & Hrevs).
  apply ret_ok in Hrevs. destruct Hrevs as [<- _].
  exists zs. split; [reflexivity |].
  eapply mapM_in; [| exact Hzs].
  clear. intros revision st y st' H.
  unfold Service.convert_revision in H.
  apply bind_ok in H. destruct H as (now & st1 & Hnow & H).
  apply bind_ok in H. destruct H as (created & st2 & Hcreated & H).
  apply ret_ok in H. destruct H as [<- _].
  split; [reflexivity |].
  unfold Date_now in Hnow. inversion Hnow as [[Hvalue Hstate]]. clear Hnow Hstate.
  unfold JsDate.TimeClip in Hvalue.
  destruct (Z.abs _ <=? _) in Hvalue; subst now; [| discriminate Hcreated].
  cbn [toISOString] in Hcreated. apply ret_ok in Hcreated. destruct Hcreated as [<- _].
  exists (ticks st). reflexivity.
Qed.

Lemma Service_listPipelineExecutions_revisions_witness :
  exists executions st',
    Service.listPipelineExecutions "deploy" Worlds.revised initial = (Ok executions, st')
    /\ calls st' = [ Req (ListPipelineExecutions "deploy" None) ]
    /\ map (fun execution => map (field "created") (Worlds.items_of (field "artifactRevisions" execution)))
           executions
       = [ [ JStr "2023-11-14T22:13:20.000Z"; JStr "2023-11-14T22:13:20.001Z" ]; [] ].
Proof.
  destruct (Service.listPipelineExecutions "deploy" Worlds.revised initial)
    as [r st'] eqn:E.
  assert (Hok : exists executions,
             r = Ok executions
             /\ map (fun execution =>
                       map (field "created")
                           (Worlds.items_of (field "artifactRevisions" execution)))
                    executions
                = [ [ JStr "2023-11-14T22:13:20.000Z"; JStr "2023-11-14T22:13:20.001Z" ];
                    [] ]).
  { vm_compute in E. inversion E. eexists. split; reflexivity. }
  destruct Hok as (executions & -> & Hcreated).
  exists executions, st'. split; [reflexivity |].
  split; [| exact Hcreated].
  exact (proj1 (Service_listPipelineExecutions_revisions _ _ _ _ _ E)).
Defined.

End Controllers.

(** ** Listings, logs and configuration *)

Section Listings.
Import Json AWS Eff Tools Server Props.

Lemma pipeline_summary_ok pipeline env st y st' :
  pipeline_summary pipeline env st = (Ok y, st') ->
  field "name" y = JStr (str_or (ps_name pipeline) "")
  /\ field "version" y = num_or_zero (ps_version pipeline).
Proof.
  unfold pipeline_summary. intros H.
  apply bind_ok in H. destruct H as (created & st1 & _ & H).
  apply bind_ok in H. destruct H as (updated & st2 & _ & H).
  apply ret_ok in H. destruct H as [<- _]. split; reflexivity.
Qed.

Lemma mapM_pipeline_summary pipelines env st ys st' :
  mapM pipeline_summary pipelines env st = (Ok ys, st') ->
  map (field "name") ys = map (fun p => JStr (str_or (ps_name p) "")) pipelines
  /\ map (field "version") ys = map (fun p => num_or_zero (ps_version p)) pipelines.
Proof.
  revert st ys st'. induction pipelines as [| p rest IH]; simpl; intros st ys st' H.
  - apply ret_ok in H. destruct H as [<- _]. split; reflexivity.
  - apply bind_ok in H. destruct H as (y & st1 & Hy & H).
    apply bind_ok in H. destruct H as (ys' & st2 & Hys & H).
    apply ret_ok in H. destruct H as [<- _].
    apply pipeline_summary_ok in Hy. destruct Hy as [Hname Hversion].
    destruct (IH _ _ _ Hys) as [IHname IHversion].
    simpl. rewrite Hname, Hversion, IHname, IHversion. split; reflexivity.
Qed.

(** X14. A successful list_pipelines run has asked the remote once and
    reports one entry per pipeline of the answer, in the answer's order,
    each with the pipeline's name (or the empty string) and version (or
    0); an answer without a list of pipelines gives an empty list. *)
Theorem listPipelines_one_entry_per_pipeline
        (env : Env) (st st' : State) (payload : list (string * jsval)) :
  listPipelines_payload env st = (Ok payload, st') ->
  exists response entries,
    remote env _ (calls st) ListPipelines = inr response
    /\ one_call (Req ListPipelines) st st'
    /\ field "pipelines" (JObj payload) = JArr entries
    /\ map (field "name") entries
       = map (fun p => JStr (str_or (ps_name p) "")) (default (lpo_pipelines response) [])
    /\ map (field "version") entries
       = map (fun p => num_or_zero (ps_version p)) (default (lpo_pipelines response) []).
Proof.
  unfold listPipelines_payload. intros H.
  apply bind_ok in H. destruct H as (response & st1 & Hcall & H).
  apply bind_ok in H. destruct H as (mapped & st2 & Hmap & H).
  apply ret_ok in H. destruct H as [<- <-].
  apply sdk_ok in Hcall. destruct Hcall as [Hremote ->].
  assert (Hsilent : calls st2 = (calls st ++ [Req ListPipelines])%list).
  { assert (Hs : silent (map_opt pipeline_summary (lpo_pipelines response))).
    { apply silent_map_opt. intros p. unfold pipeline_summary.
      apply silent_bind; [apply silent_iso_or_empty | intros ?].
      apply silent_bind; [apply silent_iso_or_empty | intros ?]. apply silent_ret. }
    exact (Hs _ _ _ _ Hmap). }
  exists response.
  destruct (lpo_pipelines response) as [pipelines |]; simpl in Hmap.
  - apply bind_ok in Hmap. destruct Hmap as (ys & st3 & Hys & Hmap).
    apply ret_ok in Hmap. destruct Hmap as [<- _].
    exists ys. apply mapM_pipeline_summary in Hys. destruct Hys as [Hname Hversion].
    refine (conj Hremote (conj Hsilent (conj eq_refl (conj Hname Hversion)))).
  - apply ret_ok in Hmap. destruct Hmap as [<- _].
    exists []. refine (conj Hremote (conj Hsilent (conj eq_refl (conj eq_refl eq_refl)))).
Qed.

Lemma listPipelines_one_entry_per_pipeline_witness :
  exists entries,
    field "pipelines"
          (Spec.reported (run listPipelines_payload (Worlds.listing Worlds.two_pipelines)))
    = JArr entries
    /\ map (field "name") entries = [ JStr "deploy"; JStr "" ]
    /\ map (field "version") entries = [ JNum (Num.of_Z 3); JNum Num.zero ].
Proof.
  destruct (run listPipelines_payload (Worlds.listing Worlds.two_pipelines))
    as [r st'] eqn:E.
  assert (Hok : exists payload, r = Ok payload)
    by (vm_compute in E; inversion E; eexists; reflexivity).
  destruct Hok as (payload & ->).
  destruct (listPipelines_one_entry_per_pipeline _ _ _ _ E)
    as (response & entries & Hremote & _ & Hfield & Hname & Hversion).
  exists entries. unfold Spec.reported. cbn [fst].
  inversion Hremote. subst response.
  refine (conj Hfield (conj Hname Hversion)).
Defined.

Lemma pipeline_summary_outcome pipeline env st :
  if dated pipeline
  then exists y, pipeline_summary pipeline env st = (Ok y, st)
  else pipeline_summary pipeline env st = (Throw RangeError_invalid_time, st).
Proof.
  unfold dated, pipeline_summary, iso_or_empty, bind, toISOString, ret, throw.
  destruct (ps_created pipeline) as [[c |] |], (ps_updated pipeline) as [[u |] |];
    try reflexivity; eexists; reflexivity.
Qed.

Lemma mapM_pipeline_summary_fails pipelines env st :
  forallb dated pipelines = false ->
  mapM pipeline_summary pipelines env st = (Throw RangeError_invalid_time, st).
Proof.
  induction pipelines as [| p rest IH]; simpl; intros H; [discriminate H |].
  pose proof (pipeline_summary_outcome p env st) as Hp.
  unfold bind at 1.
  destruct (dated p); simpl in H.
  - destruct Hp as [y Hy]. rewrite Hy. unfold bind. rewrite (IH H). reflexivity.
  - rewrite Hp. reflexivity.
Qed.

(** X15. One pipeline with an invalid creation or update date makes the
    whole list_pipelines call fail: after the remote has answered, the
    caller gets an InternalError whose message names a RangeError, and no
    listing, not even of the other pipelines. *)
Theorem list_pipelines_fails_on_an_invalid_date
        (args : Arguments) (env : Env) (st : State)
        (response : ListPipelinesOutput) (pipelines : list PipelineSummary)
        (pipeline : PipelineSummary) :
  remote env _ (calls st) ListPipelines = inr response ->
  lpo_pipelines response = Some pipelines ->
  In pipeline pipelines ->
  ps_created pipeline = Some None \/ ps_updated pipeline = Some None ->
  CallToolRequestHandler {| p_name := "list_pipelines"; p_arguments := args |} env st
  = (Throw (McpError InternalError
                     "Tool execution failed: RangeError: Invalid time value"),
     {| calls := (calls st ++ [Req ListPipelines])%list; ticks := ticks st |}).
Proof.
  intros Hremote Hlist Hin Hinvalid.
  assert (Hfails : forallb dated pipelines = false).
  { destruct (forallb dated pipelines) eqn:E; [| reflexivity].
    rewrite forallb_forall in E. specialize (E pipeline Hin).
    unfold dated in E.
    destruct Hinvalid as [Hc | Hu].
    - rewrite Hc in E. discriminate E.
    - rewrite Hu in E. destruct (ps_created pipeline) as [[c |] |]; discriminate E. }
  unfold CallToolRequestHandler, try_catch. cbn [p_name p_arguments case_of switch].
  change (case_of "list_pipelines") with (Some list_pipelines). cbn [switch].
  unfold listPipelines, listPipelines_payload.
  unfold bind at 1. unfold bind at 1. unfold sdk at 1. rewrite Hremote.
  unfold bind at 1. rewrite Hlist. cbn [map_opt]. unfold bind at 1.
  rewrite (mapM_pipeline_summary_fails pipelines env _ Hfails).
  reflexivity.
Qed.

Lemma list_pipelines_fails_on_an_invalid_date_witness :
  CallToolRequestHandler {| p_name := "list_pipelines"; p_arguments := None |}
                         (Worlds.listing Worlds.undated) initial
  = (Throw (McpError InternalError
                     "Tool execution failed: RangeError: Invalid time value"),
     {| calls := [ Req ListPipelines ]; ticks := 0 |}).
Proof.
  refine (list_pipelines_fails_on_an_invalid_date
            None (Worlds.listing Worlds.undated) initial Worlds.undated _ _
            eq_refl eq_refl (or_introl eq_refl) (or_introl eq_refl)).
Defined.

(** X16. When the remote's answer to get_pipeline_execution_logs carries
    no execution, the report falls back to the input's pipeline name and
    to the version "1", a string, and the execution prints as an empty
    object. *)
Theorem getPipelineExecutionLogs_without_execution
        (input : ExecutionInput.t) (env : Env) (st : State) :
  remote env _ (calls st)
         (GetPipelineExecution (ExecutionInput.pipelineName input)
                               (ExecutionInput.executionId input))
  = inr {| gpe_pipelineExecution := None |} ->
  Spec.text_of (getPipelineExecutionLogs input env st)
  = "{" ++ newline
    ++ Spec.line "  " "logs" "{" ++ newline
    ++ Spec.line "    " "pipelineName" (quote (ExecutionInput.pipelineName input))
    ++ "," ++ newline
    ++ Spec.line "    " "pipelineVersion" (quote "1") ++ "," ++ newline
    ++ Spec.line "    " "pipelineExecution" "{}" ++ newline
    ++ "  }" ++ newline
    ++ "}".
Proof.
  intros Hremote. unfold getPipelineExecutionLogs.
  unfold bind at 1. unfold sdk at 1. rewrite Hremote.
  cbn [gpe_pipelineExecution via map_opt bind ret str_or arr_or_undefined opt_str
       Spec.text_of fst text_result c_text].
  unfold Spec.line, JSON_stringify.
  cbn [ser is_undefined]. unfold wrap, gap, newline. cbn [join].
  repeat rewrite append_assoc. reflexivity.
Qed.

Lemma getPipelineExecutionLogs_without_execution_witness :
  Spec.contains (Spec.line "    " "pipelineVersion" (quote "1"))
                (Spec.text_of (getPipelineExecutionLogs
                                 {| ExecutionInput.pipelineName := "deploy";
                                    ExecutionInput.executionId := "e1" |}
                                 Examples.quiet initial))
  = true.
Proof.
  rewrite (getPipelineExecutionLogs_without_execution
             {| ExecutionInput.pipelineName := "deploy";
                ExecutionInput.executionId := "e1" |}
             Examples.quiet initial eq_refl).
  vm_compute. reflexivity.
Defined.


End Listings.

(** ** The two front ends *)

Section FrontEnds.
Import Json AWS Eff Tools Props.






End FrontEnds.

(** ** The reporting tools only read *)

Section ReadOnly.
Import Json AWS Eff Tools Metrics Server Props.

Lemma reads_silent {A} (m : M A) : silent m -> reads m.
Proof.
  intros Hm env st r st' H. exists []. rewrite (Hm _ _ _ _ H), app_nil_r.
  split; reflexivity.
Qed.

Lemma reads_bind {A B} (m : M A) (k : A -> M B) :
  reads m -> (forall a, reads (k a)) -> reads (bind m k).
Proof.
  unfold reads, bind. intros Hm Hk env st r st' H.
  destruct (m env st) as [[a | x] st1] eqn:E.
  - destruct (Hm _ _ _ _ E) as (more1 & H1 & R1).
    destruct (Hk a _ _ _ _ H) as (more2 & H2 & R2).
    exists (more1 ++ more2)%list. rewrite H2, H1, app_assoc.
    split; [reflexivity |]. rewrite forallb_app, R1, R2. reflexivity.
  - inversion H. subst. exact (Hm _ _ _ _ E).
Qed.

Lemma reads_try_catch {A} (body : M A) (handler : exn -> M A) :
  reads body -> (forall x, reads (handler x)) -> reads (try_catch body handler).
Proof.
  unfold reads, try_catch. intros Hb Hh env st r st' H.
  destruct (body env st) as [[a | x] st1] eqn:E.
  - inversion H. subst. exact (Hb _ _ _ _ E).
  - destruct (Hb _ _ _ _ E) as (more1 & H1 & R1).
    destruct (Hh x _ _ _ _ H) as (more2 & H2 & R2).
    exists (more1 ++ more2)%list. rewrite H2, H1, app_assoc.
    split; [reflexivity |]. rewrite forallb_app, R1, R2. reflexivity.
Qed.

Lemma reads_sdk {R} (c : Call R) : is_read (Req c) = true -> reads (sdk c).
Proof.
  intros Hc env st r st'. unfold sdk.
  destruct (remote env R (calls st) c); intros H; inversion H;
    exists [Req c]; (split; [reflexivity |]); cbn [forallb]; rewrite Hc; reflexivity.
Qed.

Lemma reads_forM {A S} (body : A -> S -> M S) (xs : list A) :
  (forall x s, reads (body x s)) -> forall s, reads (forM xs body s).
Proof.
  intros Hb. induction xs as [| x rest IH]; intros s; simpl.
  - apply reads_silent, silent_ret.
  - apply reads_bind; [apply Hb | exact IH].
Qed.

Lemma silent_Date_of_string (s : string) : silent (Date_of_string s).
Proof. unfold silent, Date_of_string. intros env st r st' H. inversion H. reflexivity. Qed.

Lemma reads_mapM {A B} (f : A -> M B) (xs : list A) :
  (forall x, reads (f x)) -> reads (mapM f xs).
Proof.
  intros Hf. induction xs as [| x rest IH]; simpl; [apply reads_silent, silent_ret |].
  apply reads_bind; [apply Hf |]. intros y.
  apply reads_bind; [exact IH |]. intros ys. apply reads_silent, silent_ret.
Qed.

Lemma reads_map_opt {A} (f : A -> M jsval) (xs : option (list A)) :
  (forall x, reads (f x)) -> reads (map_opt f xs).
Proof.
  intros Hf. destruct xs as [l |]; simpl; [| apply reads_silent, silent_ret].
  apply reads_bind; [apply reads_mapM, Hf |]. intros ys. apply reads_silent, silent_ret.
Qed.

(** Closes a goal [reads m] by following the structure of [m]. *)
Ltac reading :=
  repeat first
    [ apply reads_sdk; reflexivity
    | apply reads_silent;
      first [ apply silent_ret | apply silent_throw | apply silent_Date_now
            | apply silent_Date_of_string | apply silent_toISOString
            | apply silent_iso_or_empty | apply silent_date_or_now
            | apply silent_pipelineState_of ]
    | apply reads_map_opt; intros ?
    | apply reads_mapM; intros ?
    | apply reads_forM; intros ? ?
    | apply reads_bind; [| intros ?]
    | match goal with
      | |- reads (match ?x with _ => _ end) => destruct x
      | |- reads (if ?b then _ else _) => destruct b
      end ].

Lemma reads_relayed (handler : M Envelope) :
  reads handler ->
  reads (try_catch handler
           (fun error =>
              match error with
              | McpError _ _ => throw error
              | JsError e =>
                  throw (McpError InternalError
                                  ("Tool execution failed: " ++ Error_toString e))
              end)).
Proof.
  intros H. apply reads_try_catch; [exact H |].
  intros [e | code message]; apply reads_silent, silent_throw.
Qed.

(** X19. The six reporting tools (list_pipelines, get_pipeline_state,
    list_pipeline_executions, get_pipeline_execution_logs,
    get_pipeline_details, get_pipeline_metrics) never act on the remote:
    whatever the arguments and whatever the remote answers, and whether the
    call succeeds or fails, every remote request it has issued is a read
    (a listing, a lookup or a metric query). *)
Theorem reporting_tools_only_read (params : CallToolParams) (env : Env) (st : State) :
  In (p_name params) read_tools ->
  exists more,
    calls (snd (CallToolRequestHandler params env st)) = (calls st ++ more)%list
    /\ forallb is_read more = true.
Proof.
  intros Hin.
  assert (Hreads : reads (CallToolRequestHandler params)).
  { destruct params as [name args]. cbn [p_name] in Hin.
    unfold read_tools in Hin. cbn [In] in Hin.
    unfold CallToolRequestHandler. cbn [p_name p_arguments].
    destruct Hin as [<- | [<- | [<- | [<- | [<- | [<- | []]]]]]];
      apply reads_relayed; cbn [case_of switch] in *.
    - change (case_of "list_pipelines") with (Some list_pipelines). cbn [switch].
      unfold listPipelines, listPipelines_payload, pipeline_summary. reading.
    - change (reads (getPipelineState args)).
      unfold getPipelineState, getPipelineState_payload. reading.
    - change (reads (listPipelineExecutions args)).
      unfold listPipelineExecutions, listPipelineExecutions_payload, convert_execution,
        convert_source_revision. reading.
    - change (reads (getPipelineExecutionLogs args)).
      unfold getPipelineExecutionLogs, convert_artifact_revision. reading.
    - change (reads (getPipelineDetails args)).
      unfold getPipelineDetails, getPipelineDetails_payload, convert_stage_declaration,
        convert_action_declaration. reading.
    - change (reads (getPipelineMetrics args)).
      unfold getPipelineMetrics, getPipelineMetrics_payload, endTime_of, startTime_of,
        convert_datapoint, process_execution. reading. }
  destruct (CallToolRequestHandler params env st) as [r st'] eqn:E.
  exact (Hreads env st r st' E).
Qed.

Lemma reporting_tools_only_read_witness :
  exists more,
    calls (snd (CallToolRequestHandler
                  {| p_name := "get_pipeline_metrics"; p_arguments := Examples.january |}
                  Worlds.history_world initial))
    = (calls initial ++ more)%list
    /\ forallb is_read more = true.
Proof.
  apply (reporting_tools_only_read
           {| p_name := "get_pipeline_metrics"; p_arguments := Examples.january |}).
  cbn [p_name]. unfold read_tools. do 5 right. left. reflexivity.
Defined.

End ReadOnly.
